(** * CashTrackerView: the SMS ledger webhook of [index.js]

    A shallow embedding of the two request handlers of the repository
    ([POST /sms], [GET /send-sms]) and of the scheduled callback of the
    [node-cron] variant of the same file, together with the parts of the
    JavaScript run-time and of the [moment] library that they call.

    Conventions.
    - A JavaScript string is a Rocq [string]; every character stands for
      the UTF-16 code unit of the same number, so the strings covered are
      those whose code units are all below 256.
    - A JavaScript Number is an IEEE-754 binary64 value, taken from the
      Standard Library's [SpecFloat] at precision 53 and [emax] 1024.
    - An instant is its number of milliseconds since the epoch (what
      [Date.prototype.valueOf] returns); [toISOString] renders it in UTC
      without losing information, so the two bounds handed to the store
      are kept as instants.
    - Console output, store calls, outbound messages and HTTP replies are
      events of a trace, written by a small writer-and-exception monad. *)

From Stdlib Require Import ZArith List Bool Ascii String Lia.
From Stdlib Require Import DecimalString.
From Stdlib Require Import Floats.SpecFloat.
Import ListNotations.

Local Open Scope string_scope.
Local Open Scope Z_scope.

(** ** JavaScript built-ins used by the handlers *)

Module JS.

(** *** Characters and strings *)

Definition code (c : ascii) : Z := Z.of_N (N_of_ascii c).

Definition between (lo hi : Z) (c : ascii) : bool :=
  (lo <=? code c) && (code c <=? hi).

(** [\d] of a JavaScript regular expression: [0-9]. *)
Definition isDigit (c : ascii) : bool := between 48 57 c.

(** WhiteSpace and LineTerminator code points below 256: TAB, LF, VT, FF,
    CR, SP and NBSP.  These are what [String.prototype.trim] removes. *)
Definition isWhiteSpace (c : ascii) : bool :=
  between 9 13 c || (code c =? 32) || (code c =? 160).

Fixpoint trimStart (s : string) : string :=
  match s with
  | EmptyString => EmptyString
  | String c s' => if isWhiteSpace c then trimStart s' else s
  end.

Fixpoint trimEnd (s : string) : string :=
  match s with
  | EmptyString => EmptyString
  | String c s' =>
      match trimEnd s' with
      | EmptyString => if isWhiteSpace c then EmptyString else String c EmptyString
      | t => String c t
      end
  end.

(** [s.trim()] *)
Definition trim (s : string) : string := trimEnd (trimStart s).

(** Lower-case mapping of one code unit below 256: [A-Z] and the Latin-1
    capitals U+00C0..U+00DE (U+00D7, the multiplication sign, excepted)
    move up by 32; everything else is unchanged. *)
Definition toLowerChar (c : ascii) : ascii :=
  if between 65 90 c || (between 192 222 c && negb (code c =? 215))
  then ascii_of_N (N_of_ascii c + 32)
  else c.

Fixpoint toLowerCase (s : string) : string :=
  match s with
  | EmptyString => EmptyString
  | String c s' => String (toLowerChar c) (toLowerCase s')
  end.

(** Canonicalisation under the [i] flag of a regular expression, below
    256, as far as ASCII letters are concerned: [a-z] go to [A-Z], and no
    other character is identified with an ASCII letter. *)
Definition upperChar (c : ascii) : ascii :=
  if between 97 122 c then ascii_of_N (N_of_ascii c - 32) else c.

Fixpoint upper (s : string) : string :=
  match s with
  | EmptyString => EmptyString
  | String c s' => String (upperChar c) (upper s')
  end.

Definition isEmpty (s : string) : bool :=
  match s with EmptyString => true | _ => false end.

(** The longest prefix of digits, and what follows it. *)
Fixpoint spanDigits (s : string) : string * string :=
  match s with
  | String c s' =>
      if isDigit c
      then let (d, r) := spanDigits s' in (String c d, r)
      else (EmptyString, s)
  | EmptyString => (EmptyString, EmptyString)
  end.

(** [/^\d+(\.\d+)?$/.test(s)].  A run of digits is followed by a non-digit
    or by the end, so matching the longest run loses nothing. *)
Definition numberRegex_test (s : string) : bool :=
  let (d, r) := spanDigits s in
  negb (isEmpty d) &&
  match r with
  | EmptyString => true
  | String c r' =>
      if (code c =? 46)
      then let (f, r'') := spanDigits r' in negb (isEmpty f) && isEmpty r''
      else false
  end.

(** *** Numbers *)

Definition Number := spec_float.

Definition NaN : Number := S754_nan.
Definition zero : Number := S754_zero false.

(** [x + y] on Numbers. *)
Definition add (x y : Number) : Number := SFadd 53 1024 x y.

Definition digitValue (c : ascii) : Z := code c - 48.

(** The integer written by a string of decimal digits. *)
Fixpoint digitsValueFrom (acc : Z) (s : string) : Z :=
  match s with
  | EmptyString => acc
  | String c s' => digitsValueFrom (10 * acc + digitValue c) s'
  end.

Definition digitsValue (s : string) : Z := digitsValueFrom 0 s.

(** The Number nearest to [n / 10^k] (ties to even), for [0 <= n]. *)
Definition roundDecimal (n : Z) (k : nat) : Number :=
  match n with
  | Zpos p =>
      SFdiv 53 1024 (S754_finite false p 0)
                    (S754_finite false (Z.to_pos (10 ^ Z.of_nat k)) 0)
  | _ => zero
  end.

(** [parseFloat(s)] on the strings the handler passes to it, namely those
    accepted by [numberRegex_test]: digits, then optionally a point and
    digits.  The mathematical value of the literal is rounded to the
    nearest Number.  (Signs, exponents and [Infinity] cannot occur there;
    a string with no leading digit gives [NaN].) *)
Definition parseFloat (s : string) : Number :=
  let (d, r) := spanDigits s in
  if isEmpty d then NaN
  else
    match r with
    | String c r' =>
        if (code c =? 46)
        then let (f, _) := spanDigits r' in
             roundDecimal (digitsValue (d ++ f)) (String.length f)
        else roundDecimal (digitsValue d) 0
    | EmptyString => roundDecimal (digitsValue d) 0
    end.

(** Decimal digits of an integer, as [Number::toString] writes them
    (a leading [-] for a negative one). *)
Definition showInt (n : Z) : string :=
  DecimalString.NilZero.string_of_int (Z.to_int n).

(** The exact value [m * 2^e] compared with an integer. *)
Definition geInt (m : positive) (e n : Z) : bool :=
  if 0 <=? e then n <=? Zpos m * 2 ^ e else n * 2 ^ (- e) <=? Zpos m.

Definition sameNumber (x y : Number) : bool :=
  match x, y with
  | S754_finite sx mx ex, S754_finite sy my ey =>
      Bool.eqb sx sy && Pos.eqb mx my && (ex =? ey)
  | S754_zero sx, S754_zero sy => Bool.eqb sx sy
  | S754_infinity sx, S754_infinity sy => Bool.eqb sx sy
  | S754_nan, S754_nan => true
  | _, _ => false
  end.

(** The Number for an integer. *)
Definition ofInt (n : Z) : Number := binary_normalize 53 1024 n 0 false.

(** Candidates [(s, n)] with [k] significant digits for the shortest
    decimal that reads back as [x], where [X] is the integer value of [x]
    and [D] its number of decimal digits. *)
Definition candidates (x : Number) (X : Z) (D k : Z) : list (Z * Z) :=
  filter
    (fun '(s, n) =>
       (10 ^ (k - 1) <=? s) && (s <? 10 ^ k) &&
       sameNumber (ofInt (s * 10 ^ (n - k))) x)
    (flat_map
       (fun n => let p := 10 ^ (n - k) in [(X / p, n); (X / p + 1, n)])
       [D; D + 1]).

(** Of two candidates, the one nearer to [X]; on a tie the even one. *)
Definition nearer (X k : Z) (a b : Z * Z) : Z * Z :=
  let da := Z.abs (fst a * 10 ^ (snd a - k) - X) in
  let db := Z.abs (fst b * 10 ^ (snd b - k) - X) in
  if da <? db then a
  else if db <? da then b
  else if Z.even (fst a) then a else b.

Fixpoint shortest (x : Number) (X D : Z) (k : Z) (fuel : nat) : Z * Z :=
  match candidates x X D k with
  | c :: cs => fold_left (nearer X k) cs c
  | [] =>
      match fuel with
      | O => (X / 10 ^ (D - k), D)
      | S fuel' => shortest x X D (k + 1) fuel'
      end
  end.

(** [Number::toString(x)] for a finite [x >= 10^21], which is an integer:
    the shortest digit string [s] (of length [k]) and exponent [n] with
    [s * 10^(n-k)] reading back as [x], printed in exponent notation. *)
Definition toStringLarge (m : positive) (e : Z) : string :=
  let x := binary_normalize 53 1024 (Zpos m) e false in
  let X := if 0 <=? e then Zpos m * 2 ^ e else Zpos m / 2 ^ (- e) in
  let D := Z.of_nat (String.length (showInt X)) in
  let (s, n) := shortest x X D 1 17 in
  let ds := showInt s in
  match ds with
  | String d EmptyString => String d ("e+" ++ showInt (n - 1))
  | String d rest => String d ("." ++ rest ++ "e+" ++ showInt (n - 1))
  | EmptyString => EmptyString
  end.

Fixpoint zeros (n : nat) : string :=
  match n with O => EmptyString | S n' => String "0" (zeros n') end.

(** Digits of [n] with a point before the last two, padded with zeros on
    the left to three digits at least. *)
Definition withTwoDecimals (n : Z) : string :=
  let ds := showInt n in
  let ds := zeros (3 - String.length ds) ++ ds in
  let k := (String.length ds - 2)%nat in
  substring 0 k ds ++ "." ++ substring k 2 ds.

(** [x.toFixed(2)], after Number.prototype.toFixed: a value that is not
    finite, or is at least 10^21, is printed by [Number::toString];
    otherwise the integer [n] nearest to [100 * x] (the larger one on a
    tie) is printed with two decimals. *)
Definition toFixed2 (x : Number) : string :=
  match x with
  | S754_nan => "NaN"
  | S754_infinity s => (if s then "-" else EmptyString) ++ "Infinity"
  | S754_zero _ => "0.00"
  | S754_finite s m e =>
      (if s then "-" else EmptyString) ++
      (if geInt m e (10 ^ 21) then toStringLarge m e
       else
         withTwoDecimals
           (if 0 <=? e then 100 * Zpos m * 2 ^ e
            else (200 * Zpos m + 2 ^ (- e)) / 2 ^ (1 - e)))
  end.

End JS.

(** ** The part of [moment] that the handler calls

    [moment(input, formats, true)] in the default (English) locale, for
    formats made of the tokens [MMMM], [MMM], [MM], [M], [DD], [D],
    [YYYY] and literal characters; then [isValid], [month], [year],
    [format('MMMM YYYY')], [moment({year, month, day})], [endOf('month')]
    and [toISOString]. *)

Module Moment.
Import JS.

(** Release 2.30 changed the regular expression that the tokens [M] and
    [D] use in strict mode from [/\d\d?/] to [/^[1-9]\d?/].  Both are
    modelled; the handler takes the release as a parameter. *)
Inductive Release := Before_2_30 | From_2_30.

Inductive Token := MMMM | MMM | MM | M | DD | D | YYYY | Lit (c : ascii).

(** What [formattingTokens] cuts each format string of the handler into. *)
Definition fmt_MMMM_YYYY := [MMMM; Lit " "; YYYY].    (* 'MMMM YYYY' *)
Definition fmt_MMM_YYYY := [MMM; Lit " "; YYYY].      (* 'MMM YYYY' *)
Definition fmt_MM_YYYY := [MM; Lit "/"; YYYY].        (* 'MM/YYYY' *)
Definition fmt_M_YYYY := [M; Lit "/"; YYYY].          (* 'M/YYYY' *)
Definition fmt_MM_DD_YYYY := [MM; Lit "/"; DD; Lit "/"; YYYY].  (* 'MM/DD/YYYY' *)
Definition fmt_M_D_YYYY := [M; Lit "/"; D; Lit "/"; YYYY].      (* 'M/D/YYYY' *)

(** *** Regular expressions of the tokens

    Each is given by the length of its match at the start of a string;
    [search] then finds the leftmost match, as [String.prototype.match]
    does for a pattern without the [g] flag. *)

Fixpoint drop (n : nat) (s : string) : string :=
  match n, s with
  | O, _ => s
  | S n', String _ s' => drop n' s'
  | S _, EmptyString => EmptyString
  end.

(** [/\d\d/] *)
Definition match2 (s : string) : option nat :=
  match s with
  | String a (String b _) => if isDigit a && isDigit b then Some 2%nat else None
  | _ => None
  end.

(** [/\d\d?/] *)
Definition match1to2 (s : string) : option nat :=
  match s with
  | String a r =>
      if isDigit a
      then match r with
           | String b _ => if isDigit b then Some 2%nat else Some 1%nat
           | EmptyString => Some 1%nat
           end
      else None
  | EmptyString => None
  end.

(** [/^[1-9]\d?/], at the start of the string *)
Definition match1to2NoLeadingZero (s : string) : option nat :=
  match s with
  | String a r =>
      if between 49 57 a
      then match r with
           | String b _ => if isDigit b then Some 2%nat else Some 1%nat
           | EmptyString => Some 1%nat
           end
      else None
  | EmptyString => None
  end.

(** [/\d{4}/] *)
Definition match4 (s : string) : option nat :=
  match s with
  | String a (String b (String c (String d _))) =>
      if isDigit a && isDigit b && isDigit c && isDigit d then Some 4%nat else None
  | _ => None
  end.

(** The class of [matchWord] (the apostrophe, [a-z], U+00A0..U+05FF and
    further ranges above) under the [i] flag, below 256: the apostrophe,
    the ASCII letters and U+00A0..U+00FF. *)
Definition isWordChar (c : ascii) : bool :=
  (code c =? 39) || between 97 122 c || between 65 90 c || between 160 255 c.

(** The number of leading word characters, 256 at most ([{1,256}]). *)
Fixpoint spanWord (limit : nat) (s : string) : nat :=
  match limit, s with
  | S limit', String c s' => if isWordChar c then S (spanWord limit' s') else O
  | _, _ => O
  end.

(** [matchWord]: up to 256 digits followed by 1 to 256 word characters,
    or else a run of U+0600..U+06FF and slashes followed by one or two
    runs of U+0600..U+06FF.  The second alternative needs a character of
    U+0600..U+06FF and so never matches here.  In the first, digits and
    word characters are disjoint: the digits taken are the whole run,
    which must not exceed 256, and at least one word character must
    follow. *)
Definition matchWord (s : string) : option nat :=
  let (d, r) := spanDigits s in
  if (String.length d <=? 256)%nat
  then match spanWord 256 r with
       | O => None
       | w => Some (String.length d + w)%nat
       end
  else None.

Definition matchLit (c : ascii) (s : string) : option nat :=
  match s with
  | String a _ => if Ascii.eqb a c then Some 1%nat else None
  | EmptyString => None
  end.

(** The leftmost match: its index and its length. *)
Fixpoint search (m : string -> option nat) (s : string) : option (nat * nat) :=
  match m s with
  | Some len => Some (O, len)
  | None =>
      match s with
      | EmptyString => None
      | String _ s' =>
          match search m s' with
          | Some (i, len) => Some (S i, len)
          | None => None
          end
      end
  end.

(** A pattern anchored by [^] matches at index 0 or not at all. *)
Definition searchAnchored (m : string -> option nat) (s : string)
  : option (nat * nat) :=
  match m s with
  | Some len => Some (O, len)
  | None => None
  end.

(** [string.match(getParseRegexForToken(token, config))] in strict mode. *)
Definition tokenMatch (r : Release) (tok : Token) (s : string)
  : option (nat * nat) :=
  match tok with
  | MMMM | MMM => search matchWord s
  | MM | DD => search match2 s
  | M | D =>
      match r with
      | Before_2_30 => search match1to2 s
      | From_2_30 => searchAnchored match1to2NoLeadingZero s
      end
  | YYYY => search match4 s
  | Lit c => search (matchLit c) s
  end.

(** *** Month names *)

Definition months : list string :=
  ["January"; "February"; "March"; "April"; "May"; "June"; "July";
   "August"; "September"; "October"; "November"; "December"].

Definition monthsShort : list string :=
  ["Jan"; "Feb"; "Mar"; "Apr"; "May"; "Jun"; "Jul"; "Aug"; "Sep"; "Oct";
   "Nov"; "Dec"].

(** [new RegExp('^' + name + '$', 'i').test(input)] *)
Definition nameTest (name input : string) : bool :=
  String.eqb (upper input) (upper name).

Fixpoint findName (names : list string) (input : string) (i : Z) : option Z :=
  match names with
  | [] => None
  | name :: rest =>
      if nameTest name input then Some i else findName rest input (i + 1)
  end.

(** [locale.monthsParse(input, token, true)]: the index of the first month
    whose full name (for [MMMM]) or short name (for [MMM]) is the input. *)
Definition monthsParse (input : string) (tok : Token) : option Z :=
  match tok with
  | MMMM => findName months input 0
  | MMM => findName monthsShort input 0
  | _ => None
  end.

(** *** Parsing against one format *)

Record Config := mkConfig {
  a_year : option Z;          (* config._a[YEAR] *)
  a_month : option Z;         (* config._a[MONTH], from 0 *)
  a_date : option Z;          (* config._a[DATE] *)
  input : string;             (* the part of the string not yet consumed *)
  parsedLength : nat;         (* totalParsedInputLength *)
  unusedTokens : nat;         (* unusedTokens.length *)
  empty : bool;
  invalidMonth : bool
}.

Definition initial (s : string) : Config :=
  mkConfig None None None s 0 0 true false.

(** The parse callback of a token ([addTimeToArrayFromToken]). *)
Definition addTimeToArray (tok : Token) (parsedInput : string) (c : Config)
  : Config :=
  match tok with
  | MMMM | MMM =>
      match monthsParse parsedInput tok with
      | Some i =>
          mkConfig c.(a_year) (Some i) c.(a_date) c.(input) c.(parsedLength)
                   c.(unusedTokens) c.(empty) c.(invalidMonth)
      | None =>
          mkConfig c.(a_year) c.(a_month) c.(a_date) c.(input) c.(parsedLength)
                   c.(unusedTokens) c.(empty) true
      end
  | MM | M =>
      mkConfig c.(a_year) (Some (digitsValue parsedInput - 1)) c.(a_date)
               c.(input) c.(parsedLength) c.(unusedTokens) c.(empty)
               c.(invalidMonth)
  | DD | D =>
      mkConfig c.(a_year) c.(a_month) (Some (digitsValue parsedInput))
               c.(input) c.(parsedLength) c.(unusedTokens) c.(empty)
               c.(invalidMonth)
  | YYYY =>
      mkConfig (Some (digitsValue parsedInput)) c.(a_month) c.(a_date)
               c.(input) c.(parsedLength) c.(unusedTokens) c.(empty)
               c.(invalidMonth)
  | Lit _ => c
  end.

Definition isLit (tok : Token) : bool :=
  match tok with Lit _ => true | _ => false end.

(** One turn of the loop of [configFromStringAndFormat], strict mode: the
    token's pattern is searched in the rest of the string; what precedes
    the match is skipped, the match is consumed and handed to the token's
    callback; a token without a match is counted as unused. *)
Definition step (r : Release) (c : Config) (tok : Token) : Config :=
  match tokenMatch r tok c.(input) with
  | Some (i, len) =>
      let parsedInput := substring i len c.(input) in
      let c' :=
        mkConfig c.(a_year) c.(a_month) c.(a_date)
                 (drop (i + len) c.(input)) (c.(parsedLength) + len)
                 c.(unusedTokens) (c.(empty) && isLit tok) c.(invalidMonth) in
      addTimeToArray tok parsedInput c'
  | None =>
      mkConfig c.(a_year) c.(a_month) c.(a_date) c.(input) c.(parsedLength)
               (S c.(unusedTokens)) c.(empty) c.(invalidMonth)
  end.

Definition isLeapYear (y : Z) : bool :=
  ((y mod 4 =? 0) && negb (y mod 100 =? 0)) || (y mod 400 =? 0).

(** [daysInMonth(year, month)] for a month in 0..11. *)
Definition daysInMonth (y m : Z) : Z :=
  if m =? 1 then (if isLeapYear y then 29 else 28)
  else 31 - (m mod 7) mod 2.

Record Parsed := mkParsed { year : Z; month : Z; date : Z }.

(** [isValid] of the result in strict mode: something was parsed, no
    month name was rejected, the whole string was consumed
    ([charsLeftOver === 0]), no token is unused, and month and day are in
    range ([overflow < 0]).  Every format of the handler has a month token
    and [YYYY], so with no unused token both were read; a day that was not
    read defaults to 1. *)
Definition finish (s : string) (c : Config) : option Parsed :=
  match c.(a_year), c.(a_month) with
  | Some y, Some m =>
      let d := match c.(a_date) with Some d => d | None => 1 end in
      if negb c.(empty) && negb c.(invalidMonth)
         && (String.length s =? c.(parsedLength))%nat
         && (c.(unusedTokens) =? 0)%nat
         && (0 <=? m) && (m <=? 11)
         && (1 <=? d) && (d <=? daysInMonth y m)
      then Some (mkParsed y m d)
      else None
  | _, _ => None
  end.

(** [moment(s, format, true)]: the parsed date when valid. *)
Definition parseFormat (r : Release) (s : string) (format : list Token)
  : option Parsed :=
  finish s (fold_left (step r) format (initial s)).

(** [moment(s, formats, true)]: a format that is valid in strict mode has
    consumed the whole string with every token (score 0), so the earliest
    valid format is the one chosen. *)
Fixpoint parseFormats (r : Release) (s : string) (formats : list (list Token))
  : option Parsed :=
  match formats with
  | [] => None
  | f :: fs =>
      match parseFormat r s f with
      | Some p => Some p
      | None => parseFormats r s fs
      end
  end.

(** *** Dates *)

Definition msPerDay : Z := 86400000.

(** Day number of 1 January of a year (ECMAScript's DayFromYear). *)
Definition DayFromYear (y : Z) : Z :=
  365 * (y - 1970) + (y - 1969) / 4 - (y - 1901) / 100 + (y - 1601) / 400.

Definition daysBeforeMonth (leap : bool) (m : Z) : Z :=
  let l := if leap then 1 else 0 in
  match m with
  | 0 => 0 | 1 => 31 | 2 => 59 + l | 3 => 90 + l | 4 => 120 + l
  | 5 => 151 + l | 6 => 181 + l | 7 => 212 + l | 8 => 243 + l
  | 9 => 273 + l | 10 => 304 + l | _ => 334 + l
  end.

(** ECMAScript's MakeDay: a month outside 0..11 carries into the year. *)
Definition MakeDay (y m d : Z) : Z :=
  let ym := y + m / 12 in
  let mn := m mod 12 in
  DayFromYear ym + daysBeforeMonth (isLeapYear ym) mn + d - 1.

(** The instant at which the local day [y]-[m]-[d] starts, where
    [utcOfLocal] is the host's conversion from local time to UTC. *)
Definition localStartOfDate (utcOfLocal : Z -> Z) (y m d : Z) : Z :=
  utcOfLocal (msPerDay * MakeDay y m d).

(** [moment({ year, month, day: 1 })], as an instant. *)
Definition startOfMonth (utcOfLocal : Z -> Z) (y m : Z) : Z :=
  localStartOfDate utcOfLocal y m 1.

(** [moment({ year, month }).endOf('month')], as an instant:
    [startOfDate(year, month + 1, 1) - 1]. *)
Definition endOfMonth (utcOfLocal : Z -> Z) (y m : Z) : Z :=
  localStartOfDate utcOfLocal y (m + 1) 1 - 1.

(** [zeroFill(year, 4)] *)
Definition zeroFill4 (y : Z) : string :=
  let ds := showInt (Z.abs y) in
  (if y <? 0 then "-" else EmptyString) ++ zeros (4 - String.length ds) ++ ds.

(** [m.format('MMMM YYYY')] *)
Definition format_MMMM_YYYY (p : Parsed) : string :=
  nth (Z.to_nat p.(month)) months EmptyString ++ " " ++ zeroFill4 p.(year).

(** *** A reference reading of strict mode

    The parser above searches each token's pattern anywhere in what is
    left of the string.  The reading below, used only to state what the
    parser accepts, matches each pattern in place, where the previous
    match ended. *)

Definition tokenAt (r : Release) (tok : Token) (s : string) : option nat :=
  match tok with
  | MMMM | MMM => matchWord s
  | MM | DD => match2 s
  | M | D =>
      match r with
      | Before_2_30 => match1to2 s
      | From_2_30 => match1to2NoLeadingZero s
      end
  | YYYY => match4 s
  | Lit c => matchLit c s
  end.

Definition stepAt (r : Release) (c : Config) (tok : Token) : Config :=
  match tokenAt r tok c.(input) with
  | Some len =>
      addTimeToArray tok (substring 0 len c.(input))
        (mkConfig c.(a_year) c.(a_month) c.(a_date)
                  (drop len c.(input)) (c.(parsedLength) + len)
                  c.(unusedTokens) (c.(empty) && isLit tok) c.(invalidMonth))
  | None =>
      mkConfig c.(a_year) c.(a_month) c.(a_date) c.(input) c.(parsedLength)
               (S c.(unusedTokens)) c.(empty) c.(invalidMonth)
  end.

Definition parseAnchored (r : Release) (s : string) (format : list Token)
  : option Parsed :=
  finish s (fold_left (stepAt r) format (initial s)).

(** The state of the parser on the same text with its ASCII letters in
    upper case. *)
Definition upperInput (c : Config) : Config :=
  mkConfig c.(a_year) c.(a_month) c.(a_date) (upper c.(input))
           c.(parsedLength) c.(unusedTokens) c.(empty) c.(invalidMonth).

(** The literal tokens of the handler's formats are a space and a slash. *)
Definition isSeparator (tok : Token) : Prop :=
  match tok with
  | Lit c => c = " "%char \/ c = "/"%char
  | _ => True
  end.

(** Two tokens that read the same part of a date. *)
Definition sameClass (a b : Token) : Prop :=
  match a, b with
  | (MMMM | MMM), (MMMM | MMM) => True
  | (MM | M), (MM | M) => True
  | (DD | D), (DD | D) => True
  | YYYY, YYYY => True
  | Lit c, Lit d => c = d
  | _, _ => False
  end.

(** The state in which [stepAt] hands a match of [len] characters to the
    callback of the token. *)
Definition consumed (c : Config) (tok : Token) (len : nat) : Config :=
  mkConfig c.(a_year) c.(a_month) c.(a_date) (drop len c.(input))
           (c.(parsedLength) + len) c.(unusedTokens)
           (c.(empty) && isLit tok) c.(invalidMonth).

(** The year read so far, if any, is one that four digits write. *)
Definition yearInRange (c : Config) : Prop :=
  match a_year c with Some y => 0 <= y <= 9999 | None => True end.

End Moment.

(** ** The handlers of [index.js] *)

Module App.
Import JS Moment.

(** *** The world around the handlers *)

(** A row delivered by [select('amount')]; [amount] is the Number that
    [parseFloat(entry.amount)] makes of the stored value. *)
Record Entry := mkEntry { amount : Number }.

(** The three requests the handler sends to the [cash_entries] table.  The
    bounds of [SelectRange] are the instants that [gte('created_at', _)]
    and [lte('created_at', _)] receive. *)
Inductive DbCall :=
| SelectAll
| Insert (phone : option string) (amount : Number)
| SelectRange (gte lte : Z).

(** What awaiting a request gives: the object [{ data, error }] ([error]
    is kept as its truth value), or a rejected promise. *)
Inductive DbResponse :=
| Response (data : option (list Entry)) (error : bool)
| Rejected.

(** [twilioClient.messages.create({ body, from, to })] *)
Record Message := mkMessage {
  body : string;
  from : option string;
  to : string
}.

Record Request := mkRequest {
  Body : option string;     (* req.body.Body; [None] when it is not a string *)
  From : option string      (* req.body.From *)
}.

Record Host := mkHost {
  release : Release;                      (* of moment *)
  currentYear : Z;                        (* moment().year() *)
  utcOfLocal : Z -> Z;                    (* the time zone of the process *)
  db : DbCall -> DbResponse;              (* supabase *)
  USER_PHONE_NUMBER : option string;      (* process.env *)
  TWILIO_PHONE_NUMBER : option string;    (* process.env *)
  messagesCreate : Message -> option string  (* the sid, or a rejection *)
}.

Inductive Event :=
| Log (line : string)                     (* console.log *)
| LogError (label : string)               (* console.error(label, err) *)
| Db (c : DbCall)
| Sms (m : Message)
| Reply (message : string)                (* sendTwimlResponse(res, message) *)
| Respond (status : Z) (text : string).   (* res.status(status).send(text) *)

(** *** Effects: a trace of events, and exceptions *)

Inductive Exn := TypeError | Rejection.

Inductive Completion (A : Type) :=
| Normal (a : A)
| Throw (e : Exn).
Arguments Normal {A} a.
Arguments Throw {A} e.

Definition M (A : Type) : Type := list Event * Completion A.

Definition ret {A} (a : A) : M A := ([], Normal a).

Definition bind {A B} (m : M A) (k : A -> M B) : M B :=
  match m with
  | (t, Normal a) => let (t', c) := k a in ((t ++ t')%list, c)
  | (t, Throw e) => (t, Throw e)
  end.

Definition throw {A} (e : Exn) : M A := ([], Throw e).

Definition emit (e : Event) : M unit := ([e], Normal tt).

(** [try { m } catch (err) { h err }] *)
Definition tryCatch {A} (m : M A) (h : Exn -> M A) : M A :=
  match m with
  | (t, Throw e) => let (t', c) := h e in ((t ++ t')%list, c)
  | done => done
  end.

Declare Scope js_scope.
Delimit Scope js_scope with js.
Notation "x <- m ;; k" := (bind m (fun x => k))
  (at level 61, m at next level, right associativity) : js_scope.
Notation "m ;; k" := (bind m (fun _ => k))
  (at level 61, right associativity) : js_scope.
Local Open Scope js_scope.

(** [function sendTwimlResponse(res, message)]: one TwiML reply. *)
Definition sendTwimlResponse (message : string) : M unit :=
  emit (Reply message).

(** [await] of a request to the store. *)
Definition await (h : Host) (c : DbCall) : M (option (list Entry) * bool) :=
  emit (Db c) ;;
  match h.(db) c with
  | Response data error => ret (data, error)
  | Rejected => throw Rejection
  end.

(** [data.reduce((sum, entry) => sum + parseFloat(entry.amount), 0)];
    [data] may be [null], and then the call raises a TypeError. *)
Definition reduce (data : option (list Entry)) : M Number :=
  match data with
  | Some rows =>
      ret (fold_left (fun sum entry => add sum entry.(amount)) rows zero)
  | None => throw TypeError
  end.

(** A value in a template literal. *)
Definition shown (v : option string) : string :=
  match v with Some s => s | None => "undefined" end.

Definition formats : list (list Token) :=
  [fmt_MMMM_YYYY; fmt_MMM_YYYY; fmt_MM_YYYY; fmt_M_YYYY; fmt_MM_DD_YYYY;
   fmt_M_D_YYYY].

(** The two parses of the handler: against the six formats, and when that
    is not valid, against the two month-name formats with the current
    year appended. *)
Definition dateQuery (r : Release) (year : Z) (incomingMsg : string)
  : option Parsed :=
  match parseFormats r incomingMsg formats with
  | Some q => Some q
  | None =>
      parseFormats r (incomingMsg ++ " " ++ showInt year)
                   [fmt_MMMM_YYYY; fmt_MMM_YYYY]
  end.

(** The guidance sent for an unrecognised message; [quote] is the
    double-quote character. *)
Definition quote : string := String (ascii_of_N 34) EmptyString.

Definition invalidInput : string :=
  "Invalid input. Please send a number, a valid date (e.g., " ++ quote
  ++ "March 2023" ++ quote ++ " or " ++ quote ++ "03/2023" ++ quote
  ++ "), or " ++ quote ++ "total" ++ quote ++ ".".

(** *** [app.post('/sms', ...)] *)

Definition smsBody (h : Host) (req : Request) : M unit :=
  incomingMsg <- match req.(Body) with
                 | Some b => ret (trim b)
                 | None => throw TypeError
                 end ;;
  let fromNumber := req.(From) in
  emit (Log ("Received SMS from " ++ shown fromNumber ++ ": " ++ incomingMsg)) ;;
  if String.eqb (toLowerCase incomingMsg) "total" then
    r <- await h SelectAll ;;
    let (data, error) := r in
    if error then
      emit (LogError "Database error:") ;;
      sendTwimlResponse
        "An error occurred while retrieving data. Please try again later."
    else
      total <- reduce data ;;
      sendTwimlResponse ("Total cash collected: $" ++ toFixed2 total)
  else if numberRegex_test incomingMsg then
    let amount := parseFloat incomingMsg in
    r <- await h (Insert fromNumber amount) ;;
    let (_, error) := r in
    if error then
      emit (LogError "Database error:") ;;
      sendTwimlResponse
        "An error occurred while saving your entry. Please try again later."
    else
      sendTwimlResponse "Your cash entry has been recorded."
  else
    match dateQuery h.(release) h.(currentYear) incomingMsg with
    | Some q =>
        let queryMonth := q.(month) in
        let queryYear := q.(year) in
        let startDate := startOfMonth h.(utcOfLocal) queryYear queryMonth in
        let endDate := endOfMonth h.(utcOfLocal) queryYear queryMonth in
        r <- await h (SelectRange startDate endDate) ;;
        let (data, error) := r in
        if error then
          emit (LogError "Database error:") ;;
          sendTwimlResponse
            "An error occurred while retrieving data. Please try again later."
        else
          monthlyTotal <- reduce data ;;
          sendTwimlResponse
            ("Total cash for " ++ format_MMMM_YYYY q ++ ": $"
             ++ toFixed2 monthlyTotal)
    | None =>
        sendTwimlResponse invalidInput
    end.

Definition sms (h : Host) (req : Request) : M unit :=
  tryCatch (smsBody h req)
    (fun err =>
       emit (LogError "Server error:") ;;
       sendTwimlResponse "An unexpected error occurred. Please try again later.").

(** *** The daily prompt *)

(** [!userPhoneNumber] is false for a non-empty string only. *)
Definition configured (v : option string) : option string :=
  match v with
  | Some (String c s) => Some (String c s)
  | _ => None
  end.

Definition prompt (h : Host) (userPhoneNumber : string) : Message :=
  mkMessage "How much cash did you make today?" h.(TWILIO_PHONE_NUMBER)
            userPhoneNumber.

(** [await twilioClient.messages.create(...)] *)
Definition create (h : Host) (m : Message) : M string :=
  emit (Sms m) ;;
  match h.(messagesCreate) m with
  | Some sid => ret sid
  | None => throw Rejection
  end.

(** [app.get('/send-sms', ...)] of [index.js] *)
Definition send_sms (h : Host) : M unit :=
  tryCatch
    (match configured h.(USER_PHONE_NUMBER) with
     | None => emit (Respond 500 "User phone number not configured.")
     | Some userPhoneNumber =>
         sid <- create h (prompt h userPhoneNumber) ;;
         emit (Log ("Scheduled SMS sent: " ++ sid)) ;;
         emit (Respond 200 "SMS sent.")
     end)
    (fun err =>
       emit (LogError "Error sending SMS:") ;;
       emit (Respond 500 "Error sending SMS.")).

(** The callback given to [cron.schedule] in the [node-cron] variant. *)
Definition cronCallback (h : Host) : M unit :=
  tryCatch
    (match configured h.(USER_PHONE_NUMBER) with
     | None => emit (LogError "USER_PHONE_NUMBER not configured.")
     | Some userPhoneNumber =>
         sid <- create h (prompt h userPhoneNumber) ;;
         emit (Log ("Scheduled SMS sent: " ++ sid))
     end)
    (fun err => emit (LogError "Error sending scheduled SMS:")).

(** *** The decision of the handler, as a value

    The handler has no separate classifier: which of its four branches
    runs is decided by the same tests, in the same order, as below. *)

Inductive Intent :=
| Total
| CashEntry (amount : Number)
| MonthQuery (y m : Z)          (* the year, and the month from 0 *)
| Invalid.

Definition classify (r : Release) (referenceYear : Z) (text : string)
  : Intent :=
  let incomingMsg := trim text in
  if String.eqb (toLowerCase incomingMsg) "total" then Total
  else if numberRegex_test incomingMsg then CashEntry (parseFloat incomingMsg)
  else
    match dateQuery r referenceYear incomingMsg with
    | Some q => MonthQuery q.(year) q.(month)
    | None => Invalid
    end.

(** The three rules, each taken on its own. *)
Definition keywordRule (msg : string) : bool :=
  String.eqb (toLowerCase msg) "total".

Definition numericRule (msg : string) : bool := numberRegex_test msg.

Definition dateRule (r : Release) (referenceYear : Z) (msg : string) : bool :=
  match dateQuery r referenceYear msg with Some _ => true | None => false end.

(** *** Reading a trace *)

Definition dbCalls (t : list Event) : list DbCall :=
  flat_map (fun e => match e with Db c => [c] | _ => [] end) t.

Definition replies (t : list Event) : list string :=
  flat_map (fun e => match e with Reply m => [m] | _ => [] end) t.

Definition messages (t : list Event) : list Message :=
  flat_map (fun e => match e with Sms m => [m] | _ => [] end) t.

Definition responses (t : list Event) : list (Z * string) :=
  flat_map (fun e => match e with Respond c b => [(c, b)] | _ => [] end) t.

Definition errorLogs (t : list Event) : list string :=
  flat_map (fun e => match e with LogError l => [l] | _ => [] end) t.

(** Whether the filter of a request keeps a row whose [created_at] is [t]
    microseconds after the epoch (the resolution of the column): [gte]
    and [lte] are both inclusive. *)
Definition keeps (c : DbCall) (t : Z) : bool :=
  match c with
  | SelectAll => true
  | SelectRange gte lte => (1000 * gte <=? t) && (t <=? 1000 * lte)
  | Insert _ _ => false
  end.

(** *** Vocabulary of the statements *)

Fixpoint allWhiteSpace (s : string) : bool :=
  match s with
  | EmptyString => true
  | String c s' => isWhiteSpace c && allWhiteSpace s'
  end.

Fixpoint allDigits (s : string) : bool :=
  match s with
  | EmptyString => true
  | String c s' => isDigit c && allDigits s'
  end.

(** A non-empty string of digits. *)
Definition digits (s : string) : bool := negb (isEmpty s) && allDigits s.

(** No character of the string satisfies [p]. *)
Fixpoint noneOf (p : ascii -> bool) (s : string) : bool :=
  match s with
  | EmptyString => true
  | String c s' => negb (p c) && noneOf p s'
  end.

Definition isChar (c : ascii) : ascii -> bool := fun a => Ascii.eqb a c.

(** The two tokens that read a month by its name. *)
Definition isMonthName (tok : Token) : Prop := tok = MMMM \/ tok = MMM.

(** The month after December is January of the next year. *)
Definition following (y m : Z) : Z * Z :=
  if m =? 11 then (y + 1, 0) else (y, m + 1).

Definition isLetter (c : ascii) : bool := between 65 90 c || between 97 122 c.

Fixpoint allLetters (s : string) : bool :=
  match s with
  | EmptyString => true
  | String c s' => isLetter c && allLetters s'
  end.

(** Whether an integer is written with four digits and read back from
    them. *)
Definition fourDigits (y : Z) : bool :=
  match showInt y with
  | String a (String b (String c (String d EmptyString))) =>
      isDigit a && isDigit b && isDigit c && isDigit d
      && (digitsValue (showInt y) =? y)
  | _ => false
  end.

(** A property of every element of a list together with its index,
    counted from [k]. *)
Fixpoint eachIndexed {A} (P : Z -> A -> Prop) (k : Z) (l : list A) : Prop :=
  match l with
  | [] => True
  | x :: xs => P k x /\ eachIndexed P (k + 1) xs
  end.

(** A decimal written with exactly two digits after the point: an
    optional minus sign, digits, a point, two digits. *)
Definition unsignedTwoDecimals (s : string) : bool :=
  let (ip, r) := spanDigits s in
  negb (isEmpty ip) &&
  match r with
  | String p (String a (String b EmptyString)) =>
      (code p =? 46) && isDigit a && isDigit b
  | _ => false
  end.

Definition isTwoDecimals (s : string) : bool :=
  match s with
  | String c t => if code c =? 45 then unsignedTwoDecimals t
                  else unsignedTwoDecimals s
  | EmptyString => false
  end.

(** A Number that is finite and below 10^21 in magnitude. *)
Definition belowLimit (x : Number) : bool :=
  match x with
  | S754_zero _ => true
  | S754_finite _ m e => negb (geInt m e (10 ^ 21))
  | _ => false
  end.

(** The strings of the pattern [^\d+(\.\d+)?$], each with the decimal
    [n / 10^k] it writes: digits, or digits, a point and digits. *)
Inductive Decimal : string -> Z -> nat -> Prop :=
| Decimal_int (ds : string) :
    digits ds = true -> Decimal ds (digitsValue ds) 0
| Decimal_frac (ds fs : string) :
    digits ds = true -> digits fs = true ->
    Decimal (ds ++ "." ++ fs) (digitsValue (ds ++ fs)) (String.length fs).

(** Equality of two strings up to the case of ASCII letters. *)
Definition sameIgnoringCase (s t : string) : bool :=
  String.eqb (upper s) (upper t).

(** The thirty-two spellings of the keyword. *)
Definition spellsTotal (t : string) : Prop :=
  exists c1 c2 c3 c4 c5,
    t = String c1 (String c2 (String c3 (String c4 (String c5 EmptyString))))
    /\ (c1 = "t" \/ c1 = "T")%char /\ (c2 = "o" \/ c2 = "O")%char
    /\ (c3 = "t" \/ c3 = "T")%char /\ (c4 = "a" \/ c4 = "A")%char
    /\ (c5 = "l" \/ c5 = "L")%char.

(** The sum the handler computes from the rows it received. *)
Definition total (rows : list Entry) : Number :=
  fold_left (fun sum entry => add sum entry.(amount)) rows zero.

(** Whether a Number is exactly the decimal [n / 10^k]. *)
Definition isExactly (x : Number) (n : Z) (k : nat) : bool :=
  match x with
  | S754_zero _ => n =? 0
  | S754_finite false m e =>
      if 0 <=? e then Zpos m * 2 ^ e * 10 ^ Z.of_nat k =? n
      else Zpos m * 10 ^ Z.of_nat k =? n * 2 ^ (- e)
  | _ => false
  end.

(** A host whose clock is UTC, whose store answers every request with the
    same response and whose messaging provider answers every message the
    same way. *)
Definition hostWith (r : Release) (year : Z) (answer : DbResponse)
  (phone : option string) (sent : option string) : Host :=
  mkHost r year (fun t => t) (fun _ => answer) phone (Some "+15550000000")
         (fun _ => sent).

(** *** Vocabulary of the further properties *)

(** A Number that is neither negative nor [NaN]: zero, a positive finite
    value or [Infinity]. *)
Definition isNonNegative (x : Number) : bool :=
  match x with
  | S754_zero _ => true
  | S754_finite false _ _ => true
  | S754_infinity false => true
  | _ => false
  end.

(** Whether [zeroFill(y, 4)] is four digits that read back as [y]. *)
Definition paddedToFour (y : Z) : bool :=
  match zeroFill4 y with
  | String a (String b (String c (String d EmptyString))) =>
      isDigit a && isDigit b && isDigit c && isDigit d
      && (digitsValue (zeroFill4 y) =? y)
  | _ => false
  end.

(** The label of the reply to a query for the month [m] of the year [y]. *)
Definition label (y m : Z) : string := format_MMMM_YYYY (mkParsed y m 1).

(** Whether the last event of a trace is a reply. *)
Definition endsWithReply (t : list Event) : bool :=
  match rev t with
  | Reply _ :: _ => true
  | _ => false
  end.

(** The acknowledgement of a cash entry. *)
Definition recorded : string := "Your cash entry has been recorded.".

(** The reply of the [catch] block. *)
Definition unexpected : string :=
  "An unexpected error occurred. Please try again later.".

(** The two replies to an error reported by the store. *)
Definition retrievalError : string :=
  "An error occurred while retrieving data. Please try again later.".

Definition savingError : string :=
  "An error occurred while saving your entry. Please try again later.".

(** Whether a request to the store reads rows. *)
Definition isSelect (c : DbCall) : bool :=
  match c with
  | Insert _ _ => false
  | _ => true
  end.

(** The message is, up to letter case, the full or the short name of the
    month [i]. *)
Definition namesMonth (i : nat) (msg : string) : Prop :=
  exists name,
    (nth_error months i = Some name \/ nth_error monthsShort i = Some name)
    /\ sameIgnoringCase msg name = true.

End App.

(** * Properties *)

Import JS Moment App.

(** ** Trimming *)

Lemma trimStart_allWhiteSpace (ws : string) :
  allWhiteSpace ws = true -> trimStart ws = EmptyString.
Proof.
  induction ws as [|c ws IH]; simpl; [reflexivity|].
  intros H. apply andb_prop in H as [Hc Hws]. now rewrite Hc, IH.
Qed.

Lemma trimEnd_allWhiteSpace (ws : string) :
  allWhiteSpace ws = true -> trimEnd ws = EmptyString.
Proof.
  induction ws as [|c ws IH]; simpl; [reflexivity|].
  intros H. apply andb_prop in H as [Hc Hws]. now rewrite IH, Hc.
Qed.

Lemma trimStart_ws_app (ws s : string) :
  allWhiteSpace ws = true -> trimStart (ws ++ s) = trimStart s.
Proof.
  induction ws as [|c ws IH]; simpl; [reflexivity|].
  intros H. apply andb_prop in H as [Hc Hws]. now rewrite Hc, IH.
Qed.

Lemma trimEnd_app_ws (s ws : string) :
  allWhiteSpace ws = true -> trimEnd (s ++ ws) = trimEnd s.
Proof.
  intros H. induction s as [|c s IH]; simpl.
  - now apply trimEnd_allWhiteSpace.
  - now rewrite IH.
Qed.

Lemma allWhiteSpace_app (a b : string) :
  allWhiteSpace (a ++ b) = allWhiteSpace a && allWhiteSpace b.
Proof.
  induction a as [|c a IH]; simpl; [reflexivity|].
  now rewrite IH, andb_assoc.
Qed.

(** Either the string is all white space, or its left trim keeps what is
    appended to it. *)
Lemma trimStart_app (s t : string) :
  allWhiteSpace s = false -> trimStart (s ++ t) = trimStart s ++ t.
Proof.
  induction s as [|c s IH]; simpl; [discriminate|].
  destruct (isWhiteSpace c); simpl; [exact IH | reflexivity].
Qed.

Lemma trim_pad (ws1 s ws2 : string) :
  allWhiteSpace ws1 = true -> allWhiteSpace ws2 = true ->
  trim (ws1 ++ s ++ ws2) = trim s.
Proof.
  intros H1 H2. unfold trim. rewrite trimStart_ws_app by assumption.
  destruct (allWhiteSpace s) eqn:Hs.
  - rewrite !trimStart_allWhiteSpace; trivial.
    now rewrite allWhiteSpace_app, Hs, H2.
  - rewrite trimStart_app by assumption. now apply trimEnd_app_ws.
Qed.

(** ** The shape of every run of the SMS handler *)

Ltac run_store h c :=
  unfold await; simpl; destruct (db h c) as [[rows|] [|]|]; simpl.

(** The body of the [try] block either completes after exactly one reply,
    or raises before any reply. *)
Lemma smsBody_cases (h : Host) (req : Request) :
  match smsBody h req with
  | (t, Normal _) => List.length (replies t) = 1%nat
  | (t, Throw _) => replies t = []
  end.
Proof.
  unfold smsBody. destruct (Body req) as [b|]; simpl; [|reflexivity].
  destruct (String.eqb (toLowerCase (trim b)) "total").
  { run_store h SelectAll; reflexivity. }
  destruct (numberRegex_test (trim b)).
  { run_store h (Insert (From req) (parseFloat (trim b))); reflexivity. }
  destruct (dateQuery (release h) (currentYear h) (trim b)) as [q|]; simpl;
    [|reflexivity].
  run_store h (SelectRange (startOfMonth (utcOfLocal h) (year q) (month q))
                 (endOfMonth (utcOfLocal h) (year q) (month q)));
    reflexivity.
Qed.

Lemma replies_app (t u : list Event) :
  replies (t ++ u) = (replies t ++ replies u)%list.
Proof. unfold replies. now rewrite flat_map_app. Qed.

(** C2. Every run of the handler of [POST /sms] completes normally and has
    sent exactly one reply.  When the body of its [try] block completes,
    the run is that body's; when the body raises an exception (a missing
    message text, a rejected store request, a store answer without rows),
    nothing had been replied yet, the exception is caught, logged as a
    server error and answered with the generic fixed error reply. *)
Theorem sms_always_one_reply (h : Host) (req : Request) :
  snd (sms h req) = Normal tt /\
  List.length (replies (fst (sms h req))) = 1%nat /\
  match smsBody h req with
  | (t, Normal _) => sms h req = (t, Normal tt)
  | (t, Throw _) =>
      replies t = [] /\
      sms h req =
        ((t ++ [LogError "Server error:";
                Reply "An unexpected error occurred. Please try again later."])%list,
         Normal tt)
  end.
Proof.
  pose proof (smsBody_cases h req) as Hc. unfold sms.
  destruct (smsBody h req) as [t [[]|e]]; simpl.
  - auto.
  - rewrite replies_app, Hc. simpl. auto.
Qed.

(** ** White space around the message *)

(** C10. White space added before or after the message text changes
    nothing: the run of the handler (its log lines, its request to the
    store and its reply) and the intent are those of the text itself,
    whichever branch the text takes. *)
Theorem whitespace_never_matters (h : Host) (sender : option string)
  (ws1 s ws2 : string) :
  allWhiteSpace ws1 = true -> allWhiteSpace ws2 = true ->
  sms h (mkRequest (Some (ws1 ++ s ++ ws2)) sender)
  = sms h (mkRequest (Some s) sender) /\
  forall r y, classify r y (ws1 ++ s ++ ws2) = classify r y s.
Proof.
  intros H1 H2. split.
  - unfold sms, smsBody. simpl. now rewrite trim_pad.
  - intros r y. unfold classify. now rewrite trim_pad.
Qed.

Lemma whitespace_never_matters_witness :
  let h := hostWith From_2_30 2024 (Response (Some []) false) None None in
  sms h (mkRequest (Some ("  " ++ "mar 2023" ++ " ")) (Some "+15551234567"))
  = sms h (mkRequest (Some "mar 2023") (Some "+15551234567")) /\
  forall r y, classify r y ("  " ++ "mar 2023" ++ " ") = classify r y "mar 2023".
Proof.
  exact (whitespace_never_matters
           (hostWith From_2_30 2024 (Response (Some []) false) None None)
           (Some "+15551234567") "  " "mar 2023" " " eq_refl eq_refl).
Defined.

(** ** The keyword *)

Ltac each_char c := destruct c as [[] [] [] [] [] [] [] []].

(** A character that is [t], [o], [a] or [l] up to case, be it by the
    lower-case mapping or by the upper-case one, is that letter in one of
    its two cases. *)
Lemma letter_of_total (c l : ascii) :
  In l ["t"; "o"; "a"; "l"]%char ->
  toLowerChar c = l \/ upperChar c = upperChar l ->
  c = l \/ c = upperChar l.
Proof.
  intros Hl H.
  assert (Hdec : Ascii.eqb c l || Ascii.eqb c (upperChar l) = true).
  { simpl in Hl.
    destruct Hl as [<-|[<-|[<-|[<-|[]]]]]; destruct H as [H|H];
      revert H; each_char c; vm_compute; intro H;
      solve [reflexivity | discriminate H]. }
  apply orb_prop in Hdec as [E|E]; apply Ascii.eqb_eq in E; auto.
Qed.

Ltac total_chars t H :=
  destruct t as [|c1 [|c2 [|c3 [|c4 [|c5 [|c6 t]]]]]]; simpl in H;
  try discriminate H;
  injection H as H1 H2 H3 H4 H5;
  exists c1, c2, c3, c4, c5; split; [reflexivity|];
  repeat split; eapply letter_of_total; simpl; eauto 6.

Lemma lower_total_spells (t : string) :
  toLowerCase t = "total" -> spellsTotal t.
Proof. intros H. total_chars t H. Qed.

Lemma upper_total_spells (t : string) :
  upper t = "TOTAL" -> spellsTotal t.
Proof. intros H. total_chars t H. Qed.

Ltac spellings H :=
  destruct H as (c1 & c2 & c3 & c4 & c5 & -> & [-> | ->] & [-> | ->]
                 & [-> | ->] & [-> | ->] & [-> | ->]).

Lemma spellsTotal_facts (t : string) :
  spellsTotal t ->
  trim t = t /\ toLowerCase t = "total" /\ upper t = "TOTAL"
  /\ numberRegex_test t = false.
Proof. intros H. spellings H; repeat split; reflexivity. Qed.

Lemma keywordRule_iff (msg : string) :
  keywordRule msg = true <-> sameIgnoringCase msg "total" = true.
Proof.
  unfold keywordRule, sameIgnoringCase. rewrite !String.eqb_eq. split; intros H.
  - apply lower_total_spells in H. now apply spellsTotal_facts in H.
  - apply upper_total_spells in H. now apply spellsTotal_facts in H.
Qed.

(** ** Numeric messages *)

Lemma append_empty (s : string) : s ++ EmptyString = s.
Proof. induction s; simpl; congruence. Qed.

Lemma string_length_app (a b : string) :
  String.length (a ++ b) = (String.length a + String.length b)%nat.
Proof. induction a as [|c a IH]; simpl; [reflexivity | now rewrite IH]. Qed.

Lemma substring_prefix (w rest : string) :
  substring 0 (String.length w) (w ++ rest) = w.
Proof.
  induction w as [|c w IH]; simpl.
  - now destruct rest.
  - now rewrite IH.
Qed.


Lemma spanDigits_allDigits (ds : string) :
  allDigits ds = true -> spanDigits ds = (ds, EmptyString).
Proof.
  induction ds as [|c ds IH]; simpl; [reflexivity|].
  intros H. apply andb_prop in H as [Hc Hds]. now rewrite Hc, IH.
Qed.

Lemma spanDigits_app (ds : string) (c : ascii) (r : string) :
  allDigits ds = true -> isDigit c = false ->
  spanDigits (ds ++ String c r) = (ds, String c r).
Proof.
  intros Hds Hc. induction ds as [|d ds IH]; simpl.
  - now rewrite Hc.
  - simpl in Hds. apply andb_prop in Hds as [Hd Hds]. now rewrite Hd, IH.
Qed.

(** What [spanDigits] returns: the string is cut in two, the first part is
    made of digits and the second does not start with one. *)
Lemma spanDigits_spec (s : string) :
  let (d, r) := spanDigits s in
  s = d ++ r /\ allDigits d = true /\
  match r with String c _ => isDigit c = false | EmptyString => True end.
Proof.
  induction s as [|c s IH]; simpl; [auto|].
  destruct (isDigit c) eqn:Hc.
  - destruct (spanDigits s) as [d r]. destruct IH as (-> & Hd & Hr).
    simpl. now rewrite Hc, Hd.
  - simpl. auto.
Qed.

Lemma digits_nonempty (ds : string) :
  digits ds = true -> isEmpty ds = false /\ allDigits ds = true.
Proof.
  unfold digits. intros H. apply andb_prop in H as [H1 H2].
  now apply negb_true_iff in H1.
Qed.

(** The pattern and the literal it reads, from the shape of the string. *)
Lemma Decimal_accepted (s : string) (n : Z) (k : nat) :
  Decimal s n k ->
  numberRegex_test s = true /\ parseFloat s = roundDecimal n k.
Proof.
  intros [ds Hds | ds fs Hds Hfs].
  - apply digits_nonempty in Hds as [Hne Hall].
    unfold numberRegex_test, parseFloat.
    rewrite spanDigits_allDigits by assumption. now rewrite Hne.
  - apply digits_nonempty in Hds as [Hne Hall].
    apply digits_nonempty in Hfs as [Hfne Hfall].
    unfold numberRegex_test, parseFloat. simpl.
    rewrite spanDigits_app by (assumption || reflexivity).
    rewrite Hne. simpl. rewrite spanDigits_allDigits by assumption.
    now rewrite Hfne.
Qed.

(** Conversely, what the pattern accepts has that shape. *)
Lemma accepted_Decimal (s : string) :
  numberRegex_test s = true -> exists n k, Decimal s n k.
Proof.
  unfold numberRegex_test. pose proof (spanDigits_spec s) as Hs.
  destruct (spanDigits s) as [d r]. destruct Hs as (-> & Hd & Hr).
  intros H. apply andb_prop in H as [Hne H].
  assert (Hdig : digits d = true) by (unfold digits; now rewrite Hne, Hd).
  destruct r as [|c r].
  - rewrite append_empty. eexists _, _. now apply Decimal_int.
  - destruct (code c =? 46) eqn:Hc; [|discriminate].
    pose proof (spanDigits_spec r) as Hr'.
    destruct (spanDigits r) as [f r']. destruct Hr' as (-> & Hf & _).
    apply andb_prop in H as [Hfne Hr']. destruct r'; [|discriminate].
    assert (c = "."%char) as ->.
    { revert Hc. clear. each_char c; vm_compute; intro H;
        solve [reflexivity | discriminate H]. }
    rewrite append_empty.
    eexists _, _. apply Decimal_frac; [assumption|].
    unfold digits. now rewrite Hfne, Hf.
Qed.

Lemma digit_not_keyword (c : ascii) (s : string) :
  isDigit c = true -> String.eqb (toLowerCase (String c s)) "total" = false.
Proof.
  simpl. intros H.
  replace (Ascii.eqb (toLowerChar c) "t") with false; [reflexivity|].
  revert H. each_char c; vm_compute; intro H;
    solve [reflexivity | discriminate H].
Qed.

Lemma Decimal_starts_with_digit (s : string) (n : Z) (k : nat) :
  Decimal s n k -> exists c s', s = String c s' /\ isDigit c = true.
Proof.
  intros [ds Hds | ds fs Hds Hfs];
    apply digits_nonempty in Hds as [Hne Hall];
    destruct ds as [|c ds]; try discriminate;
    simpl in Hall; apply andb_prop in Hall as [Hc _];
    eexists _, _; (split; [reflexivity | assumption]).
Qed.

Lemma Decimal_not_keyword (s : string) (n : Z) (k : nat) :
  Decimal s n k -> keywordRule s = false.
Proof.
  intros H. apply Decimal_starts_with_digit in H as (c & s' & -> & Hc).
  now apply digit_not_keyword.
Qed.

(** ** The reply to a total request *)

Lemma string_of_uint_digits (d : Decimal.uint) :
  allDigits (NilEmpty.string_of_uint d) = true.
Proof. induction d; simpl; trivial. Qed.

Lemma showInt_digits (n : Z) : 0 <= n -> digits (showInt n) = true.
Proof.
  intros Hn. unfold showInt, digits.
  assert (Hd : forall d, negb (isEmpty (NilZero.string_of_uint d))
                         && allDigits (NilZero.string_of_uint d) = true).
  { intros d. pose proof (string_of_uint_digits d) as H.
    destruct d; simpl in *; trivial. }
  destruct n as [|p|p]; [reflexivity | apply Hd | lia].
Qed.

Lemma allDigits_app (a b : string) :
  allDigits (a ++ b) = allDigits a && allDigits b.
Proof.
  induction a as [|c a IH]; simpl; [reflexivity|].
  now rewrite IH, andb_assoc.
Qed.

Lemma zeros_spec (k : nat) :
  allDigits (zeros k) = true /\ String.length (zeros k) = k.
Proof. induction k as [|k [IH1 IH2]]; simpl; auto. Qed.

(** A string of at least three characters ends with two of them. *)
Lemma last_two (p : string) :
  (3 <= String.length p)%nat ->
  exists a c d,
    p = a ++ String c (String d EmptyString)
    /\ String.length a = (String.length p - 2)%nat
    /\ (0 < String.length a)%nat.
Proof.
  induction p as [|x p IH]; simpl; [lia|]. intros Hlen.
  destruct p as [|y [|z p]]; simpl in *; try lia.
  - (* exactly three *) destruct p as [|w p].
    + exists (String x EmptyString), y, z. simpl. repeat split; lia.
    + destruct IH as (a & c & d & Hp & Ha & _); [simpl; lia|].
      exists (String x a), c, d. simpl. rewrite Hp. simpl in Ha.
      repeat split; lia.
Qed.

Lemma substring_suffix (a b : string) (n : nat) :
  substring (String.length a) n (a ++ b) = substring 0 n b.
Proof. induction a as [|c a IH]; simpl; [reflexivity | exact IH]. Qed.

Lemma withTwoDecimals_shape (n : Z) :
  0 <= n -> unsignedTwoDecimals (withTwoDecimals n) = true.
Proof.
  intros Hn. unfold withTwoDecimals.
  pose proof (showInt_digits n Hn) as Hd.
  apply digits_nonempty in Hd as [Hne Hall].
  set (ds := showInt n) in *.
  set (p := zeros (3 - String.length ds) ++ ds).
  assert (Hp : allDigits p = true)
    by (subst p; rewrite allDigits_app, Hall; now rewrite (proj1 (zeros_spec _))).
  assert (Hlen : (3 <= String.length p)%nat).
  { subst p. rewrite string_length_app, (proj2 (zeros_spec _)). lia. }
  destruct (last_two p Hlen) as (a & c & d & Hpa & Ha & Hpos).
  rewrite <- Ha. rewrite Hpa, substring_prefix, substring_suffix. simpl substring.
  rewrite Hpa, allDigits_app in Hp. apply andb_prop in Hp as [Hda Hcd].
  simpl in Hcd. apply andb_prop in Hcd as [Hc Hcd].
  apply andb_prop in Hcd as [Hdd _].
  unfold unsignedTwoDecimals.
  change (a ++ "." ++ String c (String d EmptyString))
    with (a ++ String "." (String c (String d EmptyString))).
  rewrite spanDigits_app by (assumption || reflexivity).
  destruct a; [simpl in Hpos; lia|]. simpl. now rewrite Hc, Hdd.
Qed.

Lemma toFixed2_shape (x : Number) :
  belowLimit x = true -> isTwoDecimals (toFixed2 x) = true.
Proof.
  destruct x as [s|s| |s m e]; unfold belowLimit, toFixed2;
    try discriminate; [reflexivity|].
  intros H. apply negb_true_iff in H. rewrite H.
  set (n := if 0 <=? e then 100 * Z.pos m * 2 ^ e
            else (200 * Z.pos m + 2 ^ (- e)) / 2 ^ (1 - e)).
  assert (Hn : 0 <= n).
  { subst n. destruct (Z.leb_spec 0 e).
    - pose proof (Z.pow_nonneg 2 e). nia.
    - apply Z.div_pos; [|apply Z.pow_pos_nonneg; lia].
      pose proof (Z.pow_nonneg 2 (- e)). lia. }
  pose proof (withTwoDecimals_shape n Hn) as Hs.
  destruct s; cbn [append].
  - exact Hs.
  - unfold isTwoDecimals.
    destruct (withTwoDecimals n) as [|c t] eqn:Hw; [discriminate Hs|].
    destruct (code c =? 45) eqn:Hc; [|exact Hs].
    exfalso. unfold unsignedTwoDecimals in Hs. cbn [spanDigits] in Hs.
    assert (isDigit c = false) as Hd.
    { revert Hc. clear. each_char c; vm_compute; intro H;
        solve [reflexivity | discriminate H]. }
    rewrite Hd in Hs. discriminate Hs.
Qed.

(** C3, as the code has it.  A message that is the word total, in any
    letter case and with any white space around it, is a [Total] request.
    The handler sends the store one unfiltered request for all amounts
    and completes normally.  When the store answers with rows, the reply
    is [Total cash collected: $] followed by [toFixed(2)] of their sum in
    double precision, which is written with exactly two decimals
    whenever the sum is finite and below 10^21 in magnitude; when the
    store answers with an error, the reply is the fixed retrieval-error
    text; when the request fails otherwise, the reply is the generic
    error text. *)
Theorem total_request (h : Host) (sender : option string) (ws1 t ws2 : string) :
  allWhiteSpace ws1 = true -> allWhiteSpace ws2 = true ->
  sameIgnoringCase t "total" = true ->
  let run := sms h (mkRequest (Some (ws1 ++ t ++ ws2)) sender) in
  classify (release h) (currentYear h) (ws1 ++ t ++ ws2) = Total /\
  dbCalls (fst run) = [SelectAll] /\
  snd run = Normal tt /\
  replies (fst run) =
    [match db h SelectAll with
     | Response _ true =>
         "An error occurred while retrieving data. Please try again later."
     | Response (Some rows) false =>
         "Total cash collected: $" ++ toFixed2 (total rows)
     | _ => "An unexpected error occurred. Please try again later."
     end] /\
  forall rows, belowLimit (total rows) = true ->
               isTwoDecimals (toFixed2 (total rows)) = true.
Proof.
  intros H1 H2 Ht.
  apply keywordRule_iff in Ht. unfold keywordRule in Ht.
  assert (Hs : spellsTotal t)
    by (apply lower_total_spells; now apply String.eqb_eq).
  apply spellsTotal_facts in Hs as (Htrim & _).
  unfold classify, sms, smsBody. simpl.
  rewrite trim_pad, Htrim, Ht by assumption.
  split; [reflexivity|].
  split; [|split; [|split]];
    try (intros rows; apply toFixed2_shape);
    run_store h SelectAll; reflexivity.
Qed.

(** The end-to-end example of the specification: entries that sum to
    125.5 are reported as $125.50. *)
Lemma total_request_witness :
  let h := hostWith From_2_30 2024
             (Response (Some [mkEntry (parseFloat "100"); mkEntry (parseFloat "25.5")])
                       false) None None in
  let run := sms h (mkRequest (Some "  ToTaL ") (Some "+15551234567")) in
  classify From_2_30 2024 "  ToTaL " = Total /\
  dbCalls (fst run) = [SelectAll] /\
  snd run = Normal tt /\
  replies (fst run) = ["Total cash collected: $125.50"] /\
  forall rows, belowLimit (total rows) = true ->
               isTwoDecimals (toFixed2 (total rows)) = true.
Proof.
  exact (total_request
           (hostWith From_2_30 2024
              (Response (Some [mkEntry (parseFloat "100"); mkEntry (parseFloat "25.5")])
                        false) None None)
           (Some "+15551234567") "  " "ToTaL" " " eq_refl eq_refl eq_refl).
Defined.

(** C3 as stated fails.  With a single stored amount of 10^21 (the
    amount that the text 1000000000000000000000 records), the reply to
    total is [Total cash collected: $1e+21]: the sum is not written with
    two decimals. *)
Lemma total_not_two_decimals :
  let h := hostWith From_2_30 2024
             (Response (Some [mkEntry (parseFloat "1000000000000000000000")])
                       false) None None in
  let run := sms h (mkRequest (Some "total") (Some "+15551234567")) in
  numberRegex_test "1000000000000000000000" = true /\
  replies (fst run) = ["Total cash collected: $1e+21"] /\
  isTwoDecimals "1e+21" = false.
Proof. repeat split; reflexivity. Qed.

(** ** The amount of a cash entry *)

Lemma digits2_size (p : positive) : digits2_pos p = Pos.size p.
Proof. induction p; simpl; congruence. Qed.

Lemma digits2_double (p : positive) (k : positive) :
  digits2_pos (Pos.iter xO p k) = (digits2_pos p + k)%positive.
Proof.
  induction k using Pos.peano_ind.
  - simpl. lia.
  - rewrite Pos.iter_succ. simpl. rewrite IHk. lia.
Qed.

Lemma shiftl_pos (p k : positive) :
  Z.shiftl (Zpos p) (Zpos k) = Zpos (Pos.iter xO p k).
Proof.
  unfold Z.shiftl. induction k using Pos.peano_ind.
  - reflexivity.
  - rewrite !Pos.iter_succ, IHk. reflexivity.
Qed.

Lemma iter_xO_value (p k : positive) :
  Zpos (Pos.iter xO p k) = Zpos p * 2 ^ Zpos k.
Proof.
  rewrite <- shiftl_pos. rewrite Z.shiftl_mul_pow2 by lia. reflexivity.
Qed.

(** An integer below 2^53 is a Number: rounding does not change it. *)
Lemma integer_exact (p : positive) :
  Zpos p < 2 ^ 53 -> isExactly (roundDecimal (Zpos p) 0) (Zpos p) 0 = true.
Proof.
  intros Hp.
  assert (Hd : Zpos (digits2_pos p) <= 53).
  { rewrite digits2_size.
    pose proof (Pos.size_le p) as Hle.
    destruct (Z.le_gt_cases (Zpos (Pos.size p)) 53) as [H|H]; [exact H|].
    exfalso.
    assert (2 ^ 54 <= 2 ^ Zpos (Pos.size p)) by (apply Z.pow_le_mono_r; lia).
    assert (Zpos (2 ^ Pos.size p) <= Zpos p~0) by (apply Pos2Z.pos_le_pos; exact Hle).
    rewrite Pos2Z.inj_pow in H1. change (Zpos p~0) with (2 * Zpos p) in H1.
    change (2 ^ 54) with (2 * 2 ^ 53) in H0. lia. }
  set (d := digits2_pos p) in *.
  unfold roundDecimal. change (Z.to_pos (10 ^ Z.of_nat 0)) with 1%positive.
  unfold SFdiv, SFdiv_core_binary.
  change (Zdigits2 (Zpos p)) with (Zpos d). change (Zdigits2 1) with 1.
  replace (Z.min (fexp 53 1024 (Zpos d + 0 - (1 + 0))) (0 - 0)) with (Zpos d - 54)
    by (unfold fexp, emin; lia).
  replace (0 - 0 - (Zpos d - 54)) with (54 - Zpos d) by lia.
  destruct (54 - Zpos d) as [|k|k] eqn:Hk; try lia.
  rewrite shiftl_pos.
  assert (Hdiv : Z.div_eucl (Zpos (Pos.iter xO p k)) 1 = (Zpos (Pos.iter xO p k), 0)).
  { pose proof (Z.div_1_r (Zpos (Pos.iter xO p k))) as H1.
    pose proof (Z.mod_1_r (Zpos (Pos.iter xO p k))) as H2.
    unfold Z.div, Z.modulo in H1, H2.
    destruct (Z.div_eucl (Zpos (Pos.iter xO p k)) 1). simpl in *. congruence. }
  rewrite Hdiv.
  change (new_location 1 0) with loc_Exact.
  unfold binary_round_aux, shr_fexp.
  change (Zdigits2 (Zpos (Pos.iter xO p k))) with (Zpos (digits2_pos (Pos.iter xO p k))).
  rewrite digits2_double. fold d.
  replace (fexp 53 1024 (Zpos (d + k) + (Zpos d - 54)) - (Zpos d - 54)) with 1
    by (unfold fexp, emin; lia).
  assert (Hq : exists q, Pos.iter xO p k = xO q /\ Zpos (digits2_pos q) = 53
                         /\ Zpos q * 2 = Zpos p * 2 ^ Zpos k).
  { exists (Pos.div2 (Pos.iter xO p k)).
    assert (Hx : Pos.iter xO p k = xO (Pos.div2 (Pos.iter xO p k))).
    { clear. induction k using Pos.peano_ind; [reflexivity|].
      rewrite Pos.iter_succ. reflexivity. }
    split; [exact Hx|]. split.
    - pose proof (digits2_double p k) as H2. rewrite Hx in H2. simpl in H2.
      fold d in H2. lia.
    - rewrite <- iter_xO_value. rewrite Hx at 2. lia. }
  destruct Hq as (q & Hx & Hq53 & Hval). rewrite Hx.
  cbn [shr shr_record_of_loc iter_pos shr_1 shr_m loc_of_shr_record
       round_nearest_even orb Zdigits2].
  rewrite Hq53.
  replace (fexp 53 1024 (53 + (Zpos d - 54 + 1)) - (Zpos d - 54 + 1)) with 0
    by (unfold fexp, emin; lia).
  cbn [shr shr_m xorb].
  replace (Zpos d - 54 + 1 <=? 1024 - 53) with true
    by (symmetry; apply Z.leb_le; lia).
  unfold isExactly. change (10 ^ Z.of_nat 0) with 1.
  destruct (Z.leb_spec 0 (Zpos d - 54 + 1)) as [He|He]; apply Z.eqb_eq.
  - assert (Zpos k = 1) by lia.
    replace (Zpos d - 54 + 1) with 0 by lia.
    rewrite H in Hval. change (2 ^ 1) with 2 in Hval. change (2 ^ 0) with 1. lia.
  - replace (- (Zpos d - 54 + 1)) with (Zpos k - 1) by lia.
    assert (Hpow : 2 ^ Zpos k = 2 * 2 ^ (Zpos k - 1))
      by (rewrite <- Z.pow_succ_r by lia; f_equal; lia).
    rewrite Hpow in Hval. lia.
Qed.

Lemma digitValue_range (c : ascii) :
  isDigit c = true -> 0 <= digitValue c <= 9.
Proof.
  unfold isDigit, between, digitValue. intros H.
  apply andb_prop in H as [H1 H2].
  apply Z.leb_le in H1. apply Z.leb_le in H2. lia.
Qed.

Lemma digitsValueFrom_nonneg (s : string) (acc : Z) :
  allDigits s = true -> 0 <= acc -> 0 <= digitsValueFrom acc s.
Proof.
  revert acc. induction s as [|c s IH]; intros acc Hs Hacc;
    cbn [digitsValueFrom]; [assumption|].
  cbn [allDigits] in Hs. apply andb_prop in Hs as [Hc Hs].
  apply IH; [assumption|]. pose proof (digitValue_range c Hc). lia.
Qed.

Lemma Decimal_nonneg (s : string) (n : Z) (k : nat) : Decimal s n k -> 0 <= n.
Proof.
  intros [ds Hds | ds fs Hds Hfs]; unfold digitsValue;
    apply digitsValueFrom_nonneg; try lia.
  - now apply digits_nonempty in Hds.
  - apply digits_nonempty in Hds as [_ Hds].
    apply digits_nonempty in Hfs as [_ Hfs].
    now rewrite allDigits_app, Hds, Hfs.
Qed.

Lemma integer_amount_exact (n : Z) :
  0 <= n < 2 ^ 53 -> isExactly (roundDecimal n 0) n 0 = true.
Proof.
  intros [H0 H53]. destruct n as [|p|p]; [reflexivity| |lia].
  now apply integer_exact.
Qed.

(** C4, as the code has it.  A message that, once trimmed, is written as
    digits, or digits, a point and digits, is a [CashEntry] whose amount
    is the Number nearest to the decimal written (the result of
    [parseFloat]); it is that decimal exactly when the text is an integer
    below 2^53.  The handler sends the store exactly one request, an
    insert of that amount under the sender's number, and completes
    normally; the reply is [Your cash entry has been recorded.] when the
    store reports no error, the fixed saving-error text when it reports
    one, and the generic error text when the request is rejected. *)
Theorem cash_entry_recorded (h : Host) (sender : option string) (b : string)
  (n : Z) (k : nat) :
  Decimal (trim b) n k ->
  let run := sms h (mkRequest (Some b) sender) in
  classify (release h) (currentYear h) b = CashEntry (roundDecimal n k) /\
  (k = 0%nat -> n < 2 ^ 53 -> isExactly (roundDecimal n k) n k = true) /\
  dbCalls (fst run) = [Insert sender (roundDecimal n k)] /\
  snd run = Normal tt /\
  replies (fst run) =
    [match db h (Insert sender (roundDecimal n k)) with
     | Response _ false => "Your cash entry has been recorded."
     | Response _ true =>
         "An error occurred while saving your entry. Please try again later."
     | Rejected => "An unexpected error occurred. Please try again later."
     end].
Proof.
  intros Hd.
  pose proof (Decimal_not_keyword _ _ _ Hd) as Hk. unfold keywordRule in Hk.
  pose proof (Decimal_nonneg _ _ _ Hd) as Hn.
  apply Decimal_accepted in Hd as [Hre Hpf].
  unfold classify, sms, smsBody. simpl. rewrite Hk, Hre, Hpf.
  split; [reflexivity|].
  split; [intros -> H53; apply integer_amount_exact; lia|].
  run_store h (Insert sender (roundDecimal n k)); repeat split; reflexivity.
Qed.

(** The end-to-end example of the specification: the text 50 stores the
    amount 50, exactly, and is acknowledged. *)
Lemma cash_entry_recorded_witness :
  let sender := Some "+15551234567" in
  let run :=
    sms (hostWith From_2_30 2024 (Response None false) None None)
        (mkRequest (Some "50") sender) in
  classify From_2_30 2024 "50" = CashEntry (roundDecimal 50 0) /\
  (0%nat = 0%nat -> 50 < 2 ^ 53 -> isExactly (roundDecimal 50 0) 50 0 = true) /\
  dbCalls (fst run) = [Insert sender (roundDecimal 50 0)] /\
  snd run = Normal tt /\
  replies (fst run) = ["Your cash entry has been recorded."].
Proof.
  exact (cash_entry_recorded
           (hostWith From_2_30 2024 (Response None false) None None)
           (Some "+15551234567") "50" 50 0
           (Decimal_int "50" eq_refl)).
Defined.

(** The amounts of the specification's examples are exact. *)
Lemma cash_entry_exact_examples :
  isExactly (parseFloat "12.5") 125 1 = true /\
  isExactly (parseFloat "50") 50 0 = true.
Proof. split; reflexivity. Qed.

(** C4 as stated fails: the text 9007199254740993 matches the pattern, and
    the amount inserted is 9007199254740992, not the decimal written. *)
Lemma cash_entry_not_exact :
  let sender := Some "+15551234567" in
  let run :=
    sms (hostWith From_2_30 2024 (Response None false) None None)
        (mkRequest (Some "9007199254740993") sender) in
  numberRegex_test (trim "9007199254740993") = true /\
  dbCalls (fst run) = [Insert sender (S754_finite false 4503599627370496 1)] /\
  isExactly (S754_finite false 4503599627370496 1) 9007199254740992 0 = true /\
  isExactly (S754_finite false 4503599627370496 1) 9007199254740993 0 = false.
Proof. repeat split; reflexivity. Qed.

(** ** The strict parser *)

Lemma addTimeToArray_keeps (tok : Token) (p : string) (c : Config) :
  input (addTimeToArray tok p c) = input c /\
  parsedLength (addTimeToArray tok p c) = parsedLength c /\
  unusedTokens (addTimeToArray tok p c) = unusedTokens c /\
  (invalidMonth c = true -> invalidMonth (addTimeToArray tok p c) = true).
Proof.
  destruct tok; unfold addTimeToArray, monthsParse;
    try destruct (findName _ p 0); simpl; auto.
Qed.

(** A step consumes a prefix of what is left. *)
Lemma step_input (r : Release) (c : Config) (tok : Token) :
  exists k, input (step r c tok) = drop k (input c).
Proof.
  unfold step. destruct (tokenMatch r tok (input c)) as [[i len]|].
  - exists (i + len)%nat.
    now destruct (addTimeToArray_keeps tok (substring i len (input c))
      (mkConfig (a_year c) (a_month c) (a_date c) (drop (i + len) (input c))
         (parsedLength c + len) (unusedTokens c) (empty c && isLit tok)
         (invalidMonth c))) as (-> & _).
  - now exists 0%nat.
Qed.

Lemma step_unusedTokens (r : Release) (c : Config) (tok : Token) :
  (unusedTokens c <= unusedTokens (step r c tok))%nat.
Proof.
  unfold step. destruct (tokenMatch r tok (input c)) as [[i len]|].
  - match goal with |- context [addTimeToArray ?t ?p ?c'] =>
      destruct (addTimeToArray_keeps t p c') as (_ & _ & -> & _) end.
    simpl. lia.
  - simpl. lia.
Qed.

Lemma step_unmatched (r : Release) (c : Config) (tok : Token) :
  tokenMatch r tok (input c) = None ->
  (0 < unusedTokens (step r c tok))%nat.
Proof. unfold step. intros ->. simpl. lia. Qed.

Lemma step_invalidMonth (r : Release) (c : Config) (tok : Token) :
  invalidMonth c = true -> invalidMonth (step r c tok) = true.
Proof.
  intros H. unfold step. destruct (tokenMatch r tok (input c)) as [[i len]|].
  - match goal with |- context [addTimeToArray ?t ?p ?c'] =>
      destruct (addTimeToArray_keeps t p c') as (_ & _ & _ & Hm) end.
    now apply Hm.
  - assumption.
Qed.

Lemma steps_unusedTokens (r : Release) (f : list Token) (c : Config) :
  (unusedTokens c <= unusedTokens (fold_left (step r) f c))%nat.
Proof.
  revert c. induction f as [|tok f IH]; intros c; simpl; [lia|].
  pose proof (step_unusedTokens r c tok). specialize (IH (step r c tok)). lia.
Qed.

Lemma steps_invalidMonth (r : Release) (f : list Token) (c : Config) :
  invalidMonth c = true -> invalidMonth (fold_left (step r) f c) = true.
Proof.
  revert c. induction f as [|tok f IH]; intros c H; simpl; [assumption|].
  now apply IH, step_invalidMonth.
Qed.

Lemma finish_unused (s : string) (c : Config) :
  (0 < unusedTokens c)%nat -> finish s c = None.
Proof.
  intros H. unfold finish.
  destruct (a_year c), (a_month c); trivial.
  destruct (unusedTokens c); [lia|].
  simpl. now rewrite !andb_false_r.
Qed.

Lemma finish_invalidMonth (s : string) (c : Config) :
  invalidMonth c = true -> finish s c = None.
Proof.
  intros H. unfold finish. rewrite H.
  destruct (a_year c), (a_month c); trivial.
  simpl. now rewrite !andb_false_r.
Qed.

(** *** Patterns that cannot match *)

Lemma noneOf_drop (p : ascii -> bool) (k : nat) (s : string) :
  noneOf p s = true -> noneOf p (drop k s) = true.
Proof.
  revert s. induction k as [|k IH]; intros [|c s]; simpl; trivial.
  intros H. apply andb_prop in H as [_ H]. now apply IH.
Qed.

Lemma noneOf_app (p : ascii -> bool) (a b : string) :
  noneOf p (a ++ b) = noneOf p a && noneOf p b.
Proof.
  induction a as [|c a IH]; simpl; [reflexivity|].
  now rewrite IH, andb_assoc.
Qed.

Lemma search_none (m : string -> option nat) (p : ascii -> bool) :
  (forall s, noneOf p s = true -> m s = None) ->
  forall s, noneOf p s = true -> search m s = None.
Proof.
  intros Hm s. induction s as [|c s IH]; simpl; intros H.
  - now rewrite Hm.
  - rewrite Hm by exact H. apply andb_prop in H as [_ Hs]. now rewrite IH.
Qed.

Lemma search_at_start (m : string -> option nat) (s : string) (n : nat) :
  m s = Some n -> search m s = Some (0%nat, n).
Proof. intros H. destruct s; simpl; now rewrite H. Qed.

Lemma search_literal_none (c : ascii) (s : string) :
  noneOf (isChar c) s = true -> search (matchLit c) s = None.
Proof.
  apply search_none. intros [|a t]; simpl; [reflexivity|].
  unfold isChar. intros H. apply andb_prop in H as [H _].
  apply negb_true_iff in H. now rewrite H.
Qed.

Lemma spanWord_nonword (limit : nat) (s : string) :
  match s with String c _ => isWordChar c = false | _ => True end ->
  spanWord limit s = 0%nat.
Proof. destruct limit, s; simpl; trivial. now intros ->. Qed.

Lemma search_word_none (s : string) :
  noneOf isWordChar s = true -> search matchWord s = None.
Proof.
  apply search_none. clear s. intros s Hs. unfold matchWord.
  pose proof (spanDigits_spec s) as Hsp.
  destruct (spanDigits s) as [d r]. destruct Hsp as (-> & Hd & Hr).
  destruct (String.length d <=? 256)%nat; [|reflexivity].
  rewrite spanWord_nonword; [reflexivity|].
  rewrite noneOf_app in Hs. apply andb_prop in Hs as [_ Hs].
  destruct r as [|c r]; simpl in *; trivial.
  apply andb_prop in Hs as [Hs _]. now apply negb_true_iff in Hs.
Qed.

(** *** Formats that cannot succeed *)

Lemma literal_unused (r : Release) (c : ascii) (f : list Token) (cfg : Config) :
  In (Lit c) f -> noneOf (isChar c) (input cfg) = true ->
  (0 < unusedTokens (fold_left (step r) f cfg))%nat.
Proof.
  revert cfg. induction f as [|tok f IH]; intros cfg Hin Hnone; simpl.
  - destruct Hin.
  - destruct Hin as [-> | Hin].
    + pose proof (steps_unusedTokens r f (step r cfg (Lit c))) as Hle.
      assert (0 < unusedTokens (step r cfg (Lit c)))%nat; [|lia].
      apply step_unmatched. simpl. now apply search_literal_none.
    + apply IH; [assumption|].
      destruct (step_input r cfg tok) as [k ->]. now apply noneOf_drop.
Qed.

(** A format with a literal character that the string does not contain
    leaves that token unused, and is not valid. *)
Lemma literal_missing (r : Release) (c : ascii) (s : string) (f : list Token) :
  In (Lit c) f -> noneOf (isChar c) s = true -> parseFormat r s f = None.
Proof.
  intros Hin Hnone. unfold parseFormat. apply finish_unused.
  now apply literal_unused with (c := c).
Qed.

(** A month-name format on a string without any word character. *)
Lemma no_word_char (r : Release) (s : string) (tok : Token) (f : list Token) :
  isMonthName tok -> noneOf isWordChar s = true ->
  parseFormat r s (tok :: f) = None.
Proof.
  intros Htok Hs. unfold parseFormat. simpl. apply finish_unused.
  pose proof (steps_unusedTokens r f (step r (initial s) tok)) as Hle.
  assert (0 < unusedTokens (step r (initial s) tok))%nat; [|lia].
  apply step_unmatched. simpl.
  destruct Htok as [-> | ->]; simpl; now apply search_word_none.
Qed.

(** A month-name format on a string that starts with a word that is not
    the name of a month. *)
Lemma rejected_name (r : Release) (s : string) (tok : Token) (f : list Token)
  (n : nat) :
  isMonthName tok -> matchWord s = Some n ->
  monthsParse (substring 0 n s) tok = None ->
  parseFormat r s (tok :: f) = None.
Proof.
  intros Htok Hw Hm. unfold parseFormat. simpl.
  apply finish_invalidMonth, steps_invalidMonth.
  unfold step. change (input (initial s)) with s.
  replace (tokenMatch r tok s) with (Some (0%nat, n))
    by (destruct Htok as [-> | ->]; simpl; now rewrite (search_at_start _ _ _ Hw)).
  destruct Htok as [-> | ->]; unfold addTimeToArray; now rewrite Hm.
Qed.

(** *** The digits of an integer *)

Lemma string_of_uint_noneOf (p : ascii -> bool) (d : Decimal.uint) :
  noneOf p "0123456789" = true ->
  noneOf p (NilEmpty.string_of_uint d) = true.
Proof.
  intros H. simpl in H.
  repeat (apply andb_prop in H as [? H]).
  induction d; simpl; trivial; rewrite IHd; simpl;
    rewrite ?andb_true_r; assumption.
Qed.

Lemma showInt_noneOf (p : ascii -> bool) (n : Z) :
  noneOf p "-0123456789" = true -> noneOf p (showInt n) = true.
Proof.
  intros H.
  assert (Hm : negb (p "-"%char) = true /\ noneOf p "0123456789" = true)
    by (now apply andb_prop in H).
  destruct Hm as [Hm H0].
  assert (Hd : forall d, noneOf p (NilZero.string_of_uint d) = true).
  { intros d. pose proof (string_of_uint_noneOf p d H0) as Hd.
    destruct d; try exact Hd.
    simpl in *. apply andb_prop in H0 as [-> _]. reflexivity. }
  unfold showInt, NilZero.string_of_int.
  destruct (Z.to_int n) as [d|d]; [apply Hd|].
  simpl. now rewrite Hm, Hd.
Qed.

(** ** The three rules exclude one another *)

Lemma formats_need_separator (r : Release) (s : string) :
  noneOf (isChar " ") s = true -> noneOf (isChar "/") s = true ->
  parseFormats r s formats = None.
Proof.
  intros Hsp Hsl. unfold formats, parseFormats.
  rewrite (literal_missing r " " s fmt_MMMM_YYYY) by (simpl; auto).
  rewrite (literal_missing r " " s fmt_MMM_YYYY) by (simpl; auto).
  rewrite (literal_missing r "/" s fmt_MM_YYYY) by (simpl; auto).
  rewrite (literal_missing r "/" s fmt_M_YYYY) by (simpl; auto).
  rewrite (literal_missing r "/" s fmt_MM_DD_YYYY) by (simpl; auto).
  rewrite (literal_missing r "/" s fmt_M_D_YYYY) by (simpl; auto).
  reflexivity.
Qed.

(** The retry on a string that starts with a word that names no month. *)
Lemma retry_rejected (r : Release) (w rest : string) :
  matchWord (w ++ rest) = Some (String.length w) ->
  monthsParse w MMMM = None -> monthsParse w MMM = None ->
  parseFormats r (w ++ rest) [fmt_MMMM_YYYY; fmt_MMM_YYYY] = None.
Proof.
  intros Hw H1 H2. unfold parseFormats, fmt_MMMM_YYYY, fmt_MMM_YYYY.
  rewrite (rejected_name r _ MMMM _ _ (or_introl eq_refl) Hw)
    by now rewrite substring_prefix.
  rewrite (rejected_name r _ MMM _ _ (or_intror eq_refl) Hw)
    by now rewrite substring_prefix.
  reflexivity.
Qed.

Lemma allDigits_noneOf (p : ascii -> bool) (ds : string) :
  (forall c, isDigit c = true -> p c = false) ->
  allDigits ds = true -> noneOf p ds = true.
Proof.
  intros Hp. induction ds as [|c ds IH]; simpl; [reflexivity|].
  intros H. apply andb_prop in H as [Hc Hds]. now rewrite (Hp c Hc), IH.
Qed.

Lemma Decimal_noneOf (p : ascii -> bool) (s : string) (n : Z) (k : nat) :
  (forall c, isDigit c = true -> p c = false) -> p "."%char = false ->
  Decimal s n k -> noneOf p s = true.
Proof.
  intros Hp Hdot [ds Hds | ds fs Hds Hfs].
  - apply digits_nonempty in Hds as [_ Hds]. now apply allDigits_noneOf.
  - apply digits_nonempty in Hds as [_ Hds].
    apply digits_nonempty in Hfs as [_ Hfs].
    rewrite noneOf_app. simpl. rewrite Hdot. simpl.
    now rewrite !allDigits_noneOf.
Qed.

Lemma digit_is_not (c : ascii) :
  isDigit c = true ->
  isChar " " c = false /\ isChar "/" c = false /\ isWordChar c = false.
Proof.
  each_char c; vm_compute; intro H;
    solve [repeat split; reflexivity | discriminate H].
Qed.

(** A numeric message is not a date, whatever the reference year. *)
Lemma numeric_not_date (r : Release) (y : Z) (s : string) (n : Z) (k : nat) :
  Decimal s n k -> dateRule r y s = false.
Proof.
  intros Hd. unfold dateRule, dateQuery.
  rewrite formats_need_separator;
    try (apply (Decimal_noneOf _ _ _ _) with (3 := Hd);
         [intros c Hc; now apply digit_is_not in Hc | reflexivity]).
  unfold parseFormats, fmt_MMMM_YYYY, fmt_MMM_YYYY.
  assert (Hw : noneOf isWordChar (s ++ " " ++ showInt y) = true).
  { rewrite !noneOf_app.
    rewrite (Decimal_noneOf isWordChar _ _ _) with (3 := Hd);
      [|intros c Hc; now apply digit_is_not in Hc | reflexivity].
    now rewrite showInt_noneOf. }
  rewrite !no_word_char; try assumption; [reflexivity | now right | now left].
Qed.

(** Neither is the keyword, in any of its spellings. *)
Lemma keyword_not_date (r : Release) (y : Z) (s : string) :
  spellsTotal s -> dateRule r y s = false.
Proof.
  intros Hs. unfold dateRule, dateQuery.
  rewrite formats_need_separator; [|spellings Hs; reflexivity..].
  rewrite retry_rejected; [reflexivity|..]; spellings Hs; reflexivity.
Qed.

Lemma keyword_excludes (r : Release) (y : Z) (msg : string) :
  keywordRule msg = true ->
  numericRule msg = false /\ dateRule r y msg = false.
Proof.
  unfold keywordRule. intros H. apply String.eqb_eq, lower_total_spells in H.
  split; [now apply spellsTotal_facts in H | now apply keyword_not_date].
Qed.

Lemma numeric_excludes (r : Release) (y : Z) (msg : string) :
  numericRule msg = true ->
  keywordRule msg = false /\ dateRule r y msg = false.
Proof.
  intros H. apply accepted_Decimal in H as (n & k & H).
  split; [now apply Decimal_not_keyword in H|].
  now apply (numeric_not_date r y) in H.
Qed.

(** What the handler asks of the store is fixed by the intent. *)
Lemma sms_follows_classify (h : Host) (sender : option string) (text : string) :
  dbCalls (fst (sms h (mkRequest (Some text) sender))) =
  match classify (release h) (currentYear h) text with
  | Total => [SelectAll]
  | CashEntry a => [Insert sender a]
  | MonthQuery y m =>
      [SelectRange (startOfMonth (utcOfLocal h) y m)
                   (endOfMonth (utcOfLocal h) y m)]
  | Invalid => []
  end.
Proof.
  unfold classify, sms, smsBody. simpl.
  destruct (String.eqb (toLowerCase (trim text)) "total").
  { run_store h SelectAll; reflexivity. }
  destruct (numberRegex_test (trim text)).
  { run_store h (Insert sender (parseFloat (trim text))); reflexivity. }
  destruct (dateQuery (release h) (currentYear h) (trim text)) as [q|]; simpl;
    [|reflexivity].
  run_store h (SelectRange (startOfMonth (utcOfLocal h) (year q) (month q))
                 (endOfMonth (utcOfLocal h) (year q) (month q)));
    reflexivity.
Qed.

(** C9. The intent is a function of the message text and the reference
    year alone, defined for every text.  No trimmed text satisfies two of
    the three rules (keyword, numeric pattern, date), so the intent is
    [Total], a [CashEntry], a [MonthQuery] or [Invalid] exactly when the
    keyword rule, the numeric rule, the date rule or none of them
    matches; and whatever the sender, the store and the time zone, the
    request the handler sends to the store is the one of that intent. *)
Theorem classification_exactly_one (h : Host) (sender : option string)
  (text : string) :
  let r := release h in
  let y := currentYear h in
  let msg := trim text in
  (keywordRule msg && numericRule msg = false) /\
  (keywordRule msg && dateRule r y msg = false) /\
  (numericRule msg && dateRule r y msg = false) /\
  (classify r y text = Total <-> keywordRule msg = true) /\
  ((exists a, classify r y text = CashEntry a) <-> numericRule msg = true) /\
  ((exists yy mm, classify r y text = MonthQuery yy mm)
   <-> dateRule r y msg = true) /\
  (classify r y text = Invalid
   <-> keywordRule msg = false /\ numericRule msg = false
       /\ dateRule r y msg = false) /\
  dbCalls (fst (sms h (mkRequest (Some text) sender))) =
    match classify r y text with
    | Total => [SelectAll]
    | CashEntry a => [Insert sender a]
    | MonthQuery yy mm =>
        [SelectRange (startOfMonth (utcOfLocal h) yy mm)
                     (endOfMonth (utcOfLocal h) yy mm)]
    | Invalid => []
    end.
Proof.
  intros r y msg.
  pose proof (keyword_excludes r y msg) as Hk.
  pose proof (numeric_excludes r y msg) as Hn.
  pose proof (sms_follows_classify h sender text) as Hrun.
  fold r y in Hrun.
  assert (Hc : classify r y text =
               if keywordRule msg then Total
               else if numericRule msg then CashEntry (parseFloat msg)
               else match dateQuery r y msg with
                    | Some q => MonthQuery (year q) (month q)
                    | None => Invalid
                    end) by reflexivity.
  rewrite Hrun, Hc. clear Hrun Hc. unfold dateRule in *.
  destruct (keywordRule msg).
  { destruct Hk as [-> ->]; [reflexivity|].
    repeat split; trivial; try discriminate;
      try (intros [a Ha]; discriminate Ha);
      try (intros [yy [mm Ha]]; discriminate Ha);
      intros (Ha & _); discriminate Ha. }
  destruct (numericRule msg).
  { destruct Hn as [_ ->]; [reflexivity|].
    repeat split; trivial; try discriminate; eauto;
      try (intros [yy [mm Ha]]; discriminate Ha);
      intros (_ & Ha & _); discriminate Ha. }
  destruct (dateQuery r y msg) as [q|].
  - repeat split; trivial; try discriminate; eauto;
      try (intros [a Ha]; discriminate Ha);
      intros (_ & _ & Ha); discriminate Ha.
  - repeat split; trivial; try discriminate;
      try (intros [a Ha]; discriminate Ha);
      intros [yy [mm Ha]]; discriminate Ha.
Qed.

(** ** Unrecognised messages *)

(** The two examples of the specification match no rule, whatever the
    release of the parser and the reference year. *)
Lemma examples_match_no_rule (r : Release) (y : Z) (s : string) :
  s = "hello" \/ s = "12.5.3" ->
  keywordRule s = false /\ numericRule s = false /\ dateRule r y s = false.
Proof.
  intros [-> | ->]; (split; [reflexivity|]); (split; [reflexivity|]);
    unfold dateRule, dateQuery;
    rewrite formats_need_separator by reflexivity.
  - change ("hello" ++ " " ++ showInt y) with ("hello" ++ (" " ++ showInt y)).
    now rewrite retry_rejected.
  - unfold parseFormats, fmt_MMMM_YYYY, fmt_MMM_YYYY.
    assert (Hw : noneOf isWordChar ("12.5.3" ++ " " ++ showInt y) = true).
    { rewrite !noneOf_app. now rewrite showInt_noneOf. }
    rewrite !no_word_char; try assumption; [reflexivity | now right | now left].
Qed.

(** C7. A message that, once trimmed, is not the keyword, does not match
    the numeric pattern and is not read as a date by either parse, is
    [Invalid]: the handler logs the message, sends nothing to the store
    and replies with the fixed guidance text. *)
Theorem unrecognised_is_invalid (h : Host) (sender : option string)
  (b : string) :
  keywordRule (trim b) = false ->
  numericRule (trim b) = false ->
  dateRule (release h) (currentYear h) (trim b) = false ->
  let run := sms h (mkRequest (Some b) sender) in
  classify (release h) (currentYear h) b = Invalid /\
  dbCalls (fst run) = [] /\
  replies (fst run) = [invalidInput] /\
  snd run = Normal tt.
Proof.
  unfold keywordRule, numericRule, dateRule, classify, sms, smsBody.
  intros Hk Hn Hd. simpl. rewrite Hk, Hn.
  destruct (dateQuery (release h) (currentYear h) (trim b)); [discriminate|].
  repeat split; reflexivity.
Qed.

Lemma unrecognised_is_invalid_witness :
  let h := hostWith From_2_30 2024 Rejected None None in
  let run := sms h (mkRequest (Some "12.5.3") (Some "+15551234567")) in
  classify From_2_30 2024 "12.5.3" = Invalid /\
  dbCalls (fst run) = [] /\
  replies (fst run) = [invalidInput] /\
  snd run = Normal tt.
Proof.
  exact (unrecognised_is_invalid (hostWith From_2_30 2024 Rejected None None)
           (Some "+15551234567") "12.5.3" eq_refl eq_refl eq_refl).
Defined.

(** Both examples of the specification are [Invalid] on every host. *)
Lemma hello_is_invalid (h : Host) (sender : option string) (b : string) :
  b = "hello" \/ b = "12.5.3" ->
  classify (release h) (currentYear h) b = Invalid /\
  dbCalls (fst (sms h (mkRequest (Some b) sender))) = [] /\
  replies (fst (sms h (mkRequest (Some b) sender))) = [invalidInput].
Proof.
  intros Hb.
  assert (Ht : trim b = b) by (destruct Hb as [-> | ->]; reflexivity).
  destruct (examples_match_no_rule (release h) (currentYear h) b Hb)
    as (Hk & Hn & Hd).
  unfold keywordRule, numericRule, dateRule in *.
  unfold classify, sms, smsBody. simpl. rewrite Ht, Hk, Hn.
  destruct (dateQuery (release h) (currentYear h) b); [discriminate|].
  repeat split; reflexivity.
Qed.

(** ** Month queries *)

Lemma classify_MonthQuery (r : Release) (y0 : Z) (b : string) (y m : Z) :
  classify r y0 b = MonthQuery y m ->
  String.eqb (toLowerCase (trim b)) "total" = false /\
  numberRegex_test (trim b) = false /\
  exists q, dateQuery r y0 (trim b) = Some q /\ year q = y /\ month q = m.
Proof.
  unfold classify.
  destruct (String.eqb (toLowerCase (trim b)) "total"); [discriminate|].
  destruct (numberRegex_test (trim b)); [discriminate|].
  destruct (dateQuery r y0 (trim b)) as [q|]; [|discriminate].
  intros [= <- <-]. split; [reflexivity|]. split; [reflexivity|].
  exists q. auto.
Qed.

(** The run of the handler on a month query. *)
Lemma month_query_run (h : Host) (sender : option string) (b : string)
  (q : Parsed) :
  String.eqb (toLowerCase (trim b)) "total" = false ->
  numberRegex_test (trim b) = false ->
  dateQuery (release h) (currentYear h) (trim b) = Some q ->
  let ask := SelectRange (startOfMonth (utcOfLocal h) (year q) (month q))
                         (endOfMonth (utcOfLocal h) (year q) (month q)) in
  let run := sms h (mkRequest (Some b) sender) in
  dbCalls (fst run) = [ask] /\
  snd run = Normal tt /\
  replies (fst run) =
    [match db h ask with
     | Response _ true =>
         "An error occurred while retrieving data. Please try again later."
     | Response (Some rows) false =>
         "Total cash for " ++ format_MMMM_YYYY q ++ ": $" ++ toFixed2 (total rows)
     | _ => "An unexpected error occurred. Please try again later."
     end].
Proof.
  intros Hk Hn Hq. unfold sms, smsBody. simpl. rewrite Hk, Hn, Hq.
  run_store h (SelectRange (startOfMonth (utcOfLocal h) (year q) (month q))
                 (endOfMonth (utcOfLocal h) (year q) (month q)));
    repeat split; reflexivity.
Qed.

(** A valid parse has its month in 0..11. *)
Lemma finish_month (s : string) (c : Config) (q : Parsed) :
  finish s c = Some q -> 0 <= month q <= 11.
Proof.
  unfold finish. destruct (a_year c) as [y|], (a_month c) as [m|];
    try discriminate.
  match goal with |- context [if ?b then _ else _] => destruct b eqn:Hb end;
    [|discriminate].
  intros [= <-]. simpl.
  repeat (apply andb_prop in Hb as [Hb ?]). lia.
Qed.

Lemma parseFormats_month (r : Release) (s : string) (fs : list (list Token))
  (q : Parsed) :
  parseFormats r s fs = Some q -> 0 <= month q <= 11.
Proof.
  induction fs as [|f fs IH]; simpl; [discriminate|].
  destruct (parseFormat r s f) as [p|] eqn:Hp; [|exact IH].
  intros [= <-]. unfold parseFormat in Hp. now apply finish_month in Hp.
Qed.

Lemma dateQuery_month (r : Release) (y : Z) (s : string) (q : Parsed) :
  dateQuery r y s = Some q -> 0 <= month q <= 11.
Proof.
  unfold dateQuery.
  destruct (parseFormats r s formats) as [p|] eqn:Hp.
  - intros [= <-]. now apply parseFormats_month in Hp.
  - apply parseFormats_month.
Qed.

Lemma MakeDay_month_12 (y d : Z) : MakeDay y 12 d = MakeDay (y + 1) 0 d.
Proof.
  unfold MakeDay.
  change (12 / 12) with 1. change (12 mod 12) with 0.
  change (0 / 12) with 0. change (0 mod 12) with 0.
  now rewrite (Z.add_0_r (y + 1)).
Qed.

Lemma endOfMonth_following (tz : Z -> Z) (y m : Z) :
  endOfMonth tz y m
  = startOfMonth tz (fst (following y m)) (snd (following y m)) - 1.
Proof.
  unfold following, endOfMonth, startOfMonth, localStartOfDate.
  destruct (Z.eqb_spec m 11) as [-> | Hne]; [|reflexivity].
  cbn [fst snd]. change (11 + 1) with 12. now rewrite MakeDay_month_12.
Qed.

(** *** The calendar *)

Lemma DayFromYear_succ (y : Z) :
  DayFromYear (y + 1) = DayFromYear y + 365 + (if isLeapYear y then 1 else 0).
Proof.
  unfold DayFromYear, isLeapYear.
  replace (y + 1 - 1969) with (y - 1968) by lia.
  replace (y + 1 - 1901) with (y - 1900) by lia.
  replace (y + 1 - 1601) with (y - 1600) by lia.
  replace (y + 1 - 1970) with (y - 1969) by lia.
  destruct (Z.eqb_spec (y mod 4) 0) as [H4|H4];
    destruct (Z.eqb_spec (y mod 100) 0) as [H100|H100];
    destruct (Z.eqb_spec (y mod 400) 0) as [H400|H400]; cbn [andb orb negb];
    Z.div_mod_to_equations; lia.
Qed.

Ltac months_arith :=
  repeat match goal with
    | |- context [?a / 12] =>
        let v := eval vm_compute in (a / 12) in change (a / 12) with v
    | |- context [?a mod 12] =>
        let v := eval vm_compute in (a mod 12) in change (a mod 12) with v
    end.

(** Day 1 of the following month comes [daysInMonth] days after day 1 of
    the month: ECMAScript's day numbers and moment's month lengths agree. *)
Lemma month_length (y m : Z) :
  0 <= m <= 11 -> MakeDay y (m + 1) 1 = MakeDay y m 1 + daysInMonth y m.
Proof.
  intros Hm.
  assert (Hcases : m = 0 \/ m = 1 \/ m = 2 \/ m = 3 \/ m = 4 \/ m = 5 \/ m = 6
                   \/ m = 7 \/ m = 8 \/ m = 9 \/ m = 10 \/ m = 11) by lia.
  clear Hm.
  repeat (destruct Hcases as [-> | Hcases]); try subst m;
    try (unfold MakeDay, daysInMonth; months_arith;
         rewrite ?Z.add_0_r; destruct (isLeapYear y); cbn; lia).
  change (11 + 1) with 12. rewrite MakeDay_month_12.
  unfold MakeDay, daysInMonth. months_arith.
  rewrite !Z.add_0_r, DayFromYear_succ. destruct (isLeapYear y); cbn; lia.
Qed.

(** The first instant of the following month is the start of the day
    after the last day of the month. *)
Lemma following_starts_after_last_day (tz : Z -> Z) (y m : Z) :
  0 <= m <= 11 ->
  startOfMonth tz (fst (following y m)) (snd (following y m))
  = localStartOfDate tz y m (daysInMonth y m + 1).
Proof.
  intros Hm.
  pose proof (endOfMonth_following tz y m) as He.
  assert (Hs : startOfMonth tz (fst (following y m)) (snd (following y m))
               = endOfMonth tz y m + 1) by lia.
  rewrite Hs. unfold endOfMonth, localStartOfDate.
  rewrite month_length by assumption.
  replace (MakeDay y m (daysInMonth y m + 1))
    with (MakeDay y m 1 + daysInMonth y m) by (unfold MakeDay; lia).
  lia.
Qed.

(** C1, as the code has it.  For every message taken as a month query, the
    month is one of the twelve and the handler sends the store exactly one
    request, whose lower bound is the first instant of that month in the
    host's time zone and whose upper bound is one millisecond before the
    first instant of the following month (the start of the day after the
    month's last day).  Both bounds are inclusive: a row is kept when its
    time of creation lies in the closed interval, which for times that
    are whole milliseconds is the half-open interval up to the first
    instant of the following month. *)
Theorem month_query_range (h : Host) (sender : option string) (b : string)
  (y m : Z) :
  classify (release h) (currentYear h) b = MonthQuery y m ->
  let tz := utcOfLocal h in
  let start := startOfMonth tz y m in
  let next := startOfMonth tz (fst (following y m)) (snd (following y m)) in
  0 <= m <= 11 /\
  next = localStartOfDate tz y m (daysInMonth y m + 1) /\
  dbCalls (fst (sms h (mkRequest (Some b) sender)))
  = [SelectRange start (next - 1)] /\
  (forall t, keeps (SelectRange start (next - 1)) t
             = (1000 * start <=? t) && (t <=? 1000 * (next - 1))) /\
  (forall u, keeps (SelectRange start (next - 1)) (1000 * u)
             = (start <=? u) && (u <? next)).
Proof.
  intros Hc tz start next.
  apply classify_MonthQuery in Hc as (Hk & Hn & q & Hq & <- & <-).
  pose proof (dateQuery_month _ _ _ _ Hq) as Hm.
  destruct (month_query_run h sender b q Hk Hn Hq) as (Hcalls & _).
  split; [exact Hm|].
  split; [now apply following_starts_after_last_day|].
  split.
  { rewrite Hcalls. subst start next tz.
    now rewrite endOfMonth_following. }
  split; [reflexivity|].
  intros u. unfold keeps.
  destruct (Z.leb_spec start u), (Z.ltb_spec u next),
    (Z.leb_spec (1000 * start) (1000 * u)),
    (Z.leb_spec (1000 * u) (1000 * (next - 1))); simpl; trivial; lia.
Qed.

(** March 2023 on a host in UTC: from 2023-03-01T00:00:00.000Z to
    2023-03-31T23:59:59.999Z, both included. *)
Lemma month_query_range_witness :
  let h := hostWith From_2_30 2024 (Response (Some []) false) None None in
  0 <= 2 <= 11 /\
  1680307200000 = localStartOfDate (fun t => t) 2023 2 (31 + 1) /\
  dbCalls (fst (sms h (mkRequest (Some "March 2023") (Some "+15551234567"))))
  = [SelectRange 1677628800000 (1680307200000 - 1)] /\
  (forall t, keeps (SelectRange 1677628800000 (1680307200000 - 1)) t
             = (1000 * 1677628800000 <=? t)
               && (t <=? 1000 * (1680307200000 - 1))) /\
  (forall u, keeps (SelectRange 1677628800000 (1680307200000 - 1)) (1000 * u)
             = (1677628800000 <=? u) && (u <? 1680307200000)).
Proof.
  exact (month_query_range
           (hostWith From_2_30 2024 (Response (Some []) false) None None)
           (Some "+15551234567") "March 2023" 2023 2 eq_refl).
Defined.

(** C1 as stated fails.  For the message March 2023 on a host in UTC the
    upper bound sent to the store is 2023-03-31T23:59:59.999Z, not the
    first instant of April, and it is inclusive: a row created half a
    millisecond later, still in March and so inside the half-open
    interval of the claim, is not kept. *)
Lemma month_query_end_is_inclusive :
  let h := hostWith From_2_30 2024 (Response (Some []) false) None None in
  let run := sms h (mkRequest (Some "March 2023") (Some "+15551234567")) in
  classify From_2_30 2024 "March 2023" = MonthQuery 2023 2 /\
  startOfMonth (utcOfLocal h) 2023 2 = 1677628800000 /\
  startOfMonth (utcOfLocal h) 2023 3 = 1680307200000 /\
  dbCalls (fst run) = [SelectRange 1677628800000 1680307199999] /\
  1680307199999 <> 1680307200000 /\
  (1000 * 1677628800000 <=? 1680307199999500) = true /\
  (1680307199999500 <? 1000 * 1680307200000) = true /\
  keeps (SelectRange 1677628800000 1680307199999) 1680307199999500 = false.
Proof. repeat split; try reflexivity. discriminate. Qed.

(** ** A month name without a year *)

Lemma letter_upper (c : ascii) :
  (isLetter c = true -> between 65 90 (upperChar c) = true) /\
  (between 65 90 (upperChar c) = true -> isLetter c = true) /\
  (isLetter c = true ->
   isDigit c = false /\ isWordChar c = true /\ isWhiteSpace c = false
   /\ isChar " " c = false /\ isChar "/" c = false).
Proof.
  each_char c; vm_compute; repeat (split || intro); discriminate.
Qed.

Lemma upper_allLetters (w v : string) :
  upper w = upper v -> allLetters v = true -> allLetters w = true.
Proof.
  revert v. induction w as [|a w IH]; intros [|b v]; simpl; trivial;
    try discriminate.
  intros [= Hc Hs] H. apply andb_prop in H as [Hb Hv].
  rewrite (IH v Hs Hv), andb_true_r.
  apply letter_upper. rewrite Hc. now apply letter_upper.
Qed.

Lemma upper_length (w v : string) :
  upper w = upper v -> String.length w = String.length v.
Proof.
  revert v. induction w as [|a w IH]; intros [|b v]; simpl; trivial;
    try discriminate.
  intros [= _ Hs]. now rewrite (IH v Hs).
Qed.

Lemma allLetters_noneOf (p : ascii -> bool) (w : string) :
  (forall c, isLetter c = true -> p c = false) ->
  allLetters w = true -> noneOf p w = true.
Proof.
  intros Hp. induction w as [|c w IH]; simpl; [reflexivity|].
  intros H. apply andb_prop in H as [Hc Hw]. now rewrite (Hp c Hc), IH.
Qed.

Lemma trimEnd_id (w : string) : noneOf isWhiteSpace w = true -> trimEnd w = w.
Proof.
  induction w as [|c w IH]; simpl; [reflexivity|].
  intros H. apply andb_prop in H as [Hc Hw]. apply negb_true_iff in Hc.
  rewrite (IH Hw), Hc. now destruct w.
Qed.

Lemma trim_id (w : string) : noneOf isWhiteSpace w = true -> trim w = w.
Proof.
  intros H. unfold trim.
  replace (trimStart w) with w; [now apply trimEnd_id|].
  destruct w as [|c w]; simpl in *; [reflexivity|].
  apply andb_prop in H as [Hc _]. apply negb_true_iff in Hc. now rewrite Hc.
Qed.

Lemma spanWord_letters (limit : nat) (w : string) (c : ascii) (rest : string) :
  allLetters w = true -> (String.length w <= limit)%nat ->
  isWordChar c = false ->
  spanWord limit (w ++ String c rest) = String.length w.
Proof.
  intros Hw Hlen Hc. revert limit Hlen.
  induction w as [|a w IH]; intros limit Hlen; simpl in *.
  - destruct limit; simpl; [reflexivity | now rewrite Hc].
  - apply andb_prop in Hw as [Ha Hw].
    destruct limit as [|limit]; [lia|]. simpl.
    replace (isWordChar a) with true by (symmetry; now apply letter_upper).
    rewrite IH by (assumption || lia). reflexivity.
Qed.

(** [matchWord] on a word of letters followed by something else. *)
Lemma matchWord_letters (w : string) (c : ascii) (rest : string) :
  allLetters w = true -> (0 < String.length w <= 256)%nat ->
  isWordChar c = false ->
  matchWord (w ++ String c rest) = Some (String.length w).
Proof.
  intros Hw Hlen Hc. unfold matchWord.
  destruct w as [|a w]; [simpl in Hlen; lia|].
  pose proof Hw as Hw'. simpl in Hw'. apply andb_prop in Hw' as [Ha _].
  assert (isDigit a = false) as Hd by now apply letter_upper.
  replace (spanDigits (String a w ++ String c rest))
    with (EmptyString, String a w ++ String c rest)
    by (simpl; now rewrite Hd).
  change (String.length EmptyString <=? 256)%nat with true. cbv iota.
  rewrite spanWord_letters by (assumption || lia). reflexivity.
Qed.

Lemma drop_app (w rest : string) : drop (String.length w) (w ++ rest) = rest.
Proof. induction w as [|c w IH]; simpl; [reflexivity | exact IH]. Qed.

Lemma findName_upper (names : list string) (a b : string) (i : Z) :
  upper a = upper b -> findName names a i = findName names b i.
Proof.
  intros H. revert i. induction names as [|n names IH]; intros i; simpl;
    [reflexivity|].
  unfold nameTest. now rewrite H, IH.
Qed.

Lemma daysInMonth_pos (y m : Z) : 1 <= daysInMonth y m.
Proof.
  unfold daysInMonth. destruct (m =? 1); [destruct (isLeapYear y); lia|].
  pose proof (Z.mod_pos_bound (m mod 7) 2). lia.
Qed.

(** The token [YYYY] on exactly four digits. *)
Lemma step_year (r : Release) (c : Config) (d1 d2 d3 d4 : ascii) :
  input c = String d1 (String d2 (String d3 (String d4 EmptyString))) ->
  isDigit d1 && isDigit d2 && isDigit d3 && isDigit d4 = true ->
  step r c YYYY
  = mkConfig (Some (digitsValue (input c))) (a_month c) (a_date c) EmptyString
             (parsedLength c + 4) (unusedTokens c) false (invalidMonth c).
Proof.
  intros Hin Hd. unfold step. rewrite Hin.
  replace (tokenMatch r YYYY
             (String d1 (String d2 (String d3 (String d4 EmptyString)))))
    with (Some (0%nat, 4%nat))
    by (symmetry; apply search_at_start; simpl; now rewrite Hd).
  simpl. now rewrite andb_false_r.
Qed.

(** A month-name format on a month name, a space and four digits. *)
Lemma name_format_valid (r : Release) (tok : Token) (w : string) (i : Z)
  (d1 d2 d3 d4 : ascii) :
  isMonthName tok ->
  allLetters w = true -> (0 < String.length w <= 256)%nat ->
  monthsParse w tok = Some i -> 0 <= i <= 11 ->
  isDigit d1 && isDigit d2 && isDigit d3 && isDigit d4 = true ->
  let yyyy := String d1 (String d2 (String d3 (String d4 EmptyString))) in
  parseFormat r (w ++ String " " yyyy) [tok; Lit " "; YYYY]
  = Some (mkParsed (digitsValue yyyy) i 1).
Proof.
  intros Htok Hw Hlen Hm Hi Hd yyyy.
  set (s := w ++ String " " yyyy).
  assert (H1 : step r (initial s) tok
               = mkConfig None (Some i) None (String " " yyyy)
                          (String.length w) 0 false false).
  { unfold step. change (input (initial s)) with s.
    replace (tokenMatch r tok s) with (Some (0%nat, String.length w)).
    - subst s. rewrite substring_prefix. simpl (0 + _)%nat. rewrite drop_app.
      destruct Htok as [-> | ->]; unfold addTimeToArray; rewrite Hm;
        reflexivity.
    - symmetry. destruct Htok as [-> | ->]; simpl; apply search_at_start;
        now apply matchWord_letters. }
  assert (H2 : step r (mkConfig None (Some i) None (String " " yyyy)
                         (String.length w) 0 false false) (Lit " ")
               = mkConfig None (Some i) None yyyy
                          (String.length w + 1) 0 false false)
    by reflexivity.
  unfold parseFormat. simpl fold_left. rewrite H1, H2.
  rewrite (step_year r _ d1 d2 d3 d4) by (reflexivity || assumption).
  unfold finish. cbn [a_year a_month a_date empty invalidMonth parsedLength
                      unusedTokens input negb andb].
  subst s. rewrite string_length_app. simpl String.length.
  replace (String.length w + 5 =? String.length w + 1 + 4)%nat with true
    by (symmetry; apply Nat.eqb_eq; lia).
  replace (0 <=? i) with true by (symmetry; apply Z.leb_le; lia).
  replace (i <=? 11) with true by (symmetry; apply Z.leb_le; lia).
  replace (1 <=? daysInMonth (digitsValue yyyy) i) with true
    by (symmetry; apply Z.leb_le, daysInMonth_pos).
  reflexivity.
Qed.

Lemma fourDigits_checked :
  forallb fourDigits
    (map (fun n => 1000 + Z.of_nat n) (seq 0 (Z.to_nat 9000))) = true.
Proof. vm_compute. reflexivity. Qed.

Lemma fourDigits_year (y : Z) : 1000 <= y <= 9999 -> fourDigits y = true.
Proof.
  intros Hy. pose proof fourDigits_checked as H.
  rewrite forallb_forall in H. apply H.
  replace y with (1000 + Z.of_nat (Z.to_nat (y - 1000))) by lia.
  apply (in_map (fun n => 1000 + Z.of_nat n)), in_seq. lia.
Qed.

Lemma letters_not_numeric (w : string) :
  allLetters w = true -> numberRegex_test w = false.
Proof.
  destruct w as [|a w]; [reflexivity|]. simpl. intros H.
  apply andb_prop in H as [Ha _]. unfold numberRegex_test. simpl.
  replace (isDigit a) with false by (symmetry; now apply letter_upper).
  reflexivity.
Qed.

(** A word that is, up to letter case, the full or the short name of the
    month [i]: the six formats reject it, and with a four-digit reference
    year appended one of the two month-name formats reads it. *)
Lemma bare_month_core (r : Release) (y : Z) (w name : string) (i : Z) :
  allLetters name = true -> (0 < String.length name <= 256)%nat ->
  upper name <> "TOTAL" ->
  findName months name 0 = Some i
  \/ (findName months name 0 = None /\ findName monthsShort name 0 = Some i) ->
  0 <= i <= 11 -> 1000 <= y <= 9999 ->
  upper w = upper name ->
  parseFormats r w formats = None /\ classify r y w = MonthQuery y i.
Proof.
  intros Hname Hlen Hnot Hfind Hi Hy Hw.
  assert (Hlet : allLetters w = true) by now apply (upper_allLetters w name).
  assert (Hwlen : (0 < String.length w <= 256)%nat)
    by now rewrite (upper_length w name).
  assert (Hnone : forall p, (forall c, isLetter c = true -> p c = false) ->
                            noneOf p w = true)
    by (intros p Hp; now apply allLetters_noneOf).
  assert (Hsix : parseFormats r w formats = None).
  { apply formats_need_separator; apply Hnone; intros c Hc;
      now apply letter_upper in Hc. }
  split; [exact Hsix|].
  unfold classify.
  rewrite trim_id
    by (apply Hnone; intros c Hc; now apply letter_upper in Hc).
  destruct (String.eqb (toLowerCase w) "total") eqn:Hk.
  { exfalso. apply Hnot. rewrite <- Hw.
    apply String.eqb_eq, lower_total_spells in Hk.
    now apply spellsTotal_facts in Hk. }
  rewrite letters_not_numeric by assumption.
  unfold dateQuery. rewrite Hsix.
  pose proof (fourDigits_year y Hy) as H4. unfold fourDigits in H4.
  destruct (showInt y) as [|d1 [|d2 [|d3 [|d4 [|d5 rest]]]]] eqn:Hshow;
    try discriminate H4.
  apply andb_prop in H4 as [Hd Hval]. apply Z.eqb_eq in Hval.
  change (w ++ " " ++
          String d1 (String d2 (String d3 (String d4 EmptyString))))
    with (w ++ String " "
            (String d1 (String d2 (String d3 (String d4 EmptyString))))).
  unfold parseFormats, fmt_MMMM_YYYY, fmt_MMM_YYYY.
  destruct Hfind as [Hfull | [Hfull Hshort]].
  - rewrite (name_format_valid r MMMM w i d1 d2 d3 d4); trivial;
      [now rewrite Hval | now left|].
    unfold monthsParse. now rewrite (findName_upper months w name).
  - rewrite (rejected_name r _ MMMM _ (String.length w)).
    + rewrite (name_format_valid r MMM w i d1 d2 d3 d4); trivial;
        [now rewrite Hval | now right|].
      unfold monthsParse. now rewrite (findName_upper monthsShort w name).
    + now left.
    + now apply matchWord_letters.
    + rewrite substring_prefix. unfold monthsParse.
      now rewrite (findName_upper months w name).
Qed.

Lemma eachIndexed_nth {A} (P : Z -> A -> Prop) (l : list A) (k : Z) :
  eachIndexed P k l ->
  forall i a, nth_error l i = Some a -> P (k + Z.of_nat i) a.
Proof.
  revert k. induction l as [|x l IH]; intros k H i a Hi.
  - destruct i; discriminate Hi.
  - destruct H as [Hx Hl]. destruct i as [|i]; simpl in Hi.
    + injection Hi as <-. now rewrite Z.add_0_r.
    + replace (k + Z.of_nat (S i)) with (k + 1 + Z.of_nat i) by lia.
      now apply (IH (k + 1)).
Qed.

Ltac month_name_facts Hy Hu :=
  match type of Hu with
  | upper _ = upper ?name => apply (fun r y w => bare_month_core r y w name)
  end;
  [ reflexivity
  | simpl String.length; lia
  | vm_compute; discriminate
  | (left; reflexivity) || (right; split; reflexivity)
  | lia
  | exact Hy
  | exact Hu ].

(** C6. When the six formats do not read a message, the date parse of the
    handler is the strict parse of the message followed by a space and
    the reference year, against the full-name and the short-name format
    only.  So a message that is, up to letter case, the full or the short
    English name of a month is rejected by the six formats and is a
    [MonthQuery] for that month of the reference year, for every
    reference year written with four digits; in particular March with
    the reference year 2024 is a query for March 2024. *)
Theorem bare_month_uses_reference_year (r : Release) (y : Z) (msg : string) :
  (parseFormats r msg formats = None ->
   dateQuery r y msg
   = parseFormats r (msg ++ " " ++ showInt y) [fmt_MMMM_YYYY; fmt_MMM_YYYY])
  /\
  (forall (i : nat) (name : string),
     1000 <= y <= 9999 ->
     nth_error months i = Some name \/ nth_error monthsShort i = Some name ->
     sameIgnoringCase msg name = true ->
     parseFormats r msg formats = None /\
     classify r y msg = MonthQuery y (Z.of_nat i))
  /\
  (parseFormats r "March" formats = None /\
   classify r 2024 "March" = MonthQuery 2024 2).
Proof.
  split; [|split].
  - unfold dateQuery. now intros ->.
  - intros i name Hy Hname Hsame.
    unfold sameIgnoringCase in Hsame. apply String.eqb_eq in Hsame.
    set (P := fun (k : Z) (n : string) =>
                upper msg = upper n ->
                parseFormats r msg formats = None /\
                classify r y msg = MonthQuery y k).
    assert (Hall : eachIndexed P 0 months /\ eachIndexed P 0 monthsShort)
      by (subst P; cbn [eachIndexed months monthsShort];
          repeat match goal with |- _ /\ _ => split end;
          (exact I || (intros Hu; month_name_facts Hy Hu))).
    destruct Hall as [Hfull Hshort].
    destruct Hname as [Hname | Hname].
    + apply (eachIndexed_nth P months 0 Hfull i name Hname Hsame).
    + apply (eachIndexed_nth P monthsShort 0 Hshort i name Hname Hsame).
  - assert (Hy : 1000 <= 2024 <= 9999) by lia.
    assert (Hu : upper "March" = upper "March") by reflexivity.
    month_name_facts Hy Hu.
Qed.

Lemma bare_month_uses_reference_year_witness :
  parseFormats From_2_30 "march" formats = None /\
  dateQuery From_2_30 2024 "march"
  = parseFormats From_2_30 ("march" ++ " " ++ showInt 2024)
                 [fmt_MMMM_YYYY; fmt_MMM_YYYY] /\
  classify From_2_30 2024 "march" = MonthQuery 2024 2.
Proof.
  pose proof (bare_month_uses_reference_year From_2_30 2024 "march")
    as (Hretry & Hname & _).
  destruct (Hname 2%nat "March" ltac:(lia) (or_introl eq_refl) eq_refl)
    as [Hsix Hc].
  exact (conj Hsix (conj (Hretry Hsix) Hc)).
Defined.

(** ** Spellings of one month *)

Lemma classify_of_dateQuery (r : Release) (y : Z) (b : string) (q : Parsed) :
  String.eqb (toLowerCase (trim b)) "total" = false ->
  numberRegex_test (trim b) = false ->
  dateQuery r y (trim b) = Some q ->
  classify r y b = MonthQuery (year q) (month q).
Proof. intros Hk Hn Hq. unfold classify. now rewrite Hk, Hn, Hq. Qed.

(** C5. March 2023, Mar 2023, 03/2023, 3/2023 and 03/15/2023 are all
    month queries for March 2023: for each of them the handler sends the
    store the same single request, with the bounds of March 2023, and its
    reply names March 2023; the day of the last one plays no part. *)
Theorem march_2023_spellings (h : Host) (sender : option string) :
  let ask := SelectRange (startOfMonth (utcOfLocal h) 2023 2)
                         (endOfMonth (utcOfLocal h) 2023 2) in
  Forall
    (fun text =>
       let run := sms h (mkRequest (Some text) sender) in
       classify (release h) (currentYear h) text = MonthQuery 2023 2 /\
       dbCalls (fst run) = [ask] /\
       replies (fst run) =
         [match db h ask with
          | Response _ true =>
              "An error occurred while retrieving data. Please try again later."
          | Response (Some rows) false =>
              "Total cash for March 2023: $" ++ toFixed2 (total rows)
          | _ => "An unexpected error occurred. Please try again later."
          end])
    ["March 2023"; "Mar 2023"; "03/2023"; "3/2023"; "03/15/2023"].
Proof.
  intros ask.
  assert (Hone : forall text d,
            String.eqb (toLowerCase (trim text)) "total" = false ->
            numberRegex_test (trim text) = false ->
            dateQuery (release h) (currentYear h) (trim text)
            = Some (mkParsed 2023 2 d) ->
            classify (release h) (currentYear h) text = MonthQuery 2023 2 /\
            dbCalls (fst (sms h (mkRequest (Some text) sender))) = [ask] /\
            replies (fst (sms h (mkRequest (Some text) sender))) =
              [match db h ask with
               | Response _ true =>
                   "An error occurred while retrieving data. Please try again later."
               | Response (Some rows) false =>
                   "Total cash for March 2023: $" ++ toFixed2 (total rows)
               | _ => "An unexpected error occurred. Please try again later."
               end]).
  { intros text d Hk Hn Hq.
    split; [exact (classify_of_dateQuery _ _ _ _ Hk Hn Hq)|].
    destruct (month_query_run h sender text _ Hk Hn Hq) as (Hc & _ & Hr).
    split; [exact Hc | exact Hr]. }
  repeat constructor;
    (eapply Hone; [reflexivity | reflexivity |
                   destruct (release h); reflexivity]).
Qed.

(** ** The daily prompt *)

(** C8, as the code has it.  With a destination number configured, the
    handler of [GET /send-sms] sends exactly one message, the fixed
    prompt, to that number, and answers its caller with status 200 when
    the provider accepts the message and with status 500 when it does
    not; the callback of the in-process schedule sends the same single
    message, answers nobody, and only logs a failure.  Without a
    destination number no message is sent: the HTTP handler answers with
    status 500 and the callback logs.  All four runs complete normally. *)
Theorem daily_prompt (h : Host) :
  snd (send_sms h) = Normal tt /\ snd (cronCallback h) = Normal tt /\
  responses (fst (cronCallback h)) = [] /\
  match configured (USER_PHONE_NUMBER h) with
  | Some number =>
      let m := mkMessage "How much cash did you make today?"
                         (TWILIO_PHONE_NUMBER h) number in
      messages (fst (send_sms h)) = [m] /\
      messages (fst (cronCallback h)) = [m] /\
      match messagesCreate h m with
      | Some sid =>
          responses (fst (send_sms h)) = [(200, "SMS sent.")] /\
          errorLogs (fst (send_sms h)) = [] /\
          errorLogs (fst (cronCallback h)) = []
      | None =>
          responses (fst (send_sms h)) = [(500, "Error sending SMS.")] /\
          errorLogs (fst (send_sms h)) = ["Error sending SMS:"] /\
          errorLogs (fst (cronCallback h)) = ["Error sending scheduled SMS:"]
      end
  | None =>
      messages (fst (send_sms h)) = [] /\
      messages (fst (cronCallback h)) = [] /\
      responses (fst (send_sms h)) = [(500, "User phone number not configured.")] /\
      errorLogs (fst (cronCallback h)) = ["USER_PHONE_NUMBER not configured."]
  end.
Proof.
  unfold send_sms, cronCallback, create, prompt.
  destruct (configured (USER_PHONE_NUMBER h)) as [number|]; simpl.
  - destruct (messagesCreate h _) as [sid|]; simpl; repeat split; reflexivity.
  - repeat split; reflexivity.
Qed.

(** C8 as stated fails for the scheduled callback: when the provider
    rejects the message, the run ends as a successful one does, with no
    answer to anybody; the failure is only written to the error log. *)
Lemma scheduled_prompt_swallows_failure :
  let h := hostWith From_2_30 2024 Rejected (Some "+15557654321") None in
  messagesCreate h (prompt h "+15557654321") = None /\
  cronCallback h
  = ([Sms (mkMessage "How much cash did you make today?"
                     (Some "+15550000000") "+15557654321");
      LogError "Error sending scheduled SMS:"],
     Normal tt) /\
  snd (cronCallback h)
  = snd (cronCallback
           (hostWith From_2_30 2024 Rejected (Some "+15557654321")
                     (Some "SM1"))) /\
  responses (fst (cronCallback h)) = [].
Proof. repeat split; reflexivity. Qed.

(** * Further properties of the code *)

(** ** Strict parsing matches in place *)

Lemma length_drop (n : nat) (s : string) :
  String.length (drop n s) = (String.length s - n)%nat.
Proof.
  revert s. induction n as [|n IH]; intros [|c s]; simpl; trivial.
Qed.

Lemma spanWord_le (limit : nat) (s : string) :
  (spanWord limit s <= String.length s)%nat.
Proof.
  revert s. induction limit as [|limit IH]; intros [|c s]; simpl; try lia.
  destruct (isWordChar c); [|lia]. specialize (IH s). lia.
Qed.

(** A match at the start of a string lies inside the string. *)
Lemma tokenAt_bound (r : Release) (tok : Token) (s : string) (len : nat) :
  tokenAt r tok s = Some len -> (len <= String.length s)%nat.
Proof.
  destruct tok; simpl;
    try (destruct r);
    try (unfold matchWord; pose proof (spanDigits_spec s) as Hs;
         destruct (spanDigits s) as [d w]; destruct Hs as (-> & _ & _);
         destruct (String.length d <=? 256)%nat; [|discriminate];
         pose proof (spanWord_le 256 w);
         destruct (spanWord 256 w); [discriminate|];
         intros [= <-]; rewrite string_length_app; lia);
    unfold match2, match1to2, match1to2NoLeadingZero, match4, matchLit;
    repeat match goal with
      | |- context [match ?x with String _ _ => _ | EmptyString => _ end] =>
          is_var x; destruct x; simpl
      | |- context [if ?b then _ else _] => destruct b
      end;
    try discriminate; intros [= <-]; lia.
Qed.

Lemma search_bound (m : string -> option nat) (s : string) (i len : nat) :
  (forall t n, m t = Some n -> (n <= String.length t)%nat) ->
  search m s = Some (i, len) -> (i + len <= String.length s)%nat.
Proof.
  intros Hm. revert i. induction s as [|c s IH]; intros i; simpl.
  - destruct (m EmptyString) as [n|] eqn:H0; [|discriminate].
    intros [= <- <-]. now apply Hm in H0.
  - destruct (m (String c s)) as [n|] eqn:H0.
    + intros [= <- <-]. now apply Hm in H0.
    + destruct (search m s) as [[j n]|]; [|discriminate].
      intros [= <- <-]. specialize (IH j eq_refl). lia.
Qed.

Lemma search_later (m : string -> option nat) (s : string) (i len : nat) :
  m s = None -> search m s = Some (i, len) -> (0 < i)%nat.
Proof.
  intros H0. destruct s as [|c s]; simpl; rewrite H0; [discriminate|].
  destruct (search m s) as [[j n]|]; [|discriminate].
  intros [= <- <-]. lia.
Qed.

(** The parser's match of a token is the match in place when there is one;
    otherwise it is no match, or a match further on, inside the string. *)
Lemma tokenMatch_cases (r : Release) (tok : Token) (s : string) :
  match tokenAt r tok s with
  | Some len => tokenMatch r tok s = Some (0%nat, len)
  | None =>
      tokenMatch r tok s = None \/
      exists i len, tokenMatch r tok s = Some (i, len)
                    /\ (0 < i)%nat /\ (i + len <= String.length s)%nat
  end.
Proof.
  assert (Hs : forall m,
             (forall t n, m t = Some n -> (n <= String.length t)%nat) ->
             match m s with
             | Some len => search m s = Some (0%nat, len)
             | None =>
                 search m s = None \/
                 exists i len, search m s = Some (i, len)
                               /\ (0 < i)%nat
                               /\ (i + len <= String.length s)%nat
             end).
  { intros m Hm. destruct (m s) as [len|] eqn:H0;
      [now apply search_at_start|].
    destruct (search m s) as [[i len]|] eqn:Hse; [right | now left].
    exists i, len. split; [reflexivity|]. split.
    - now apply (search_later m s i len).
    - now apply (search_bound m s i len). }
  destruct tok; simpl;
    try (apply Hs; intros t n; apply (tokenAt_bound r MMMM t n));
    try (apply Hs; intros t n; apply (tokenAt_bound r MM t n));
    try (apply Hs; intros t n; apply (tokenAt_bound r YYYY t n));
    try (apply Hs; intros t n; apply (tokenAt_bound r (Lit c) t n)).
  - destruct r; simpl.
    + apply Hs. intros t n. apply (tokenAt_bound Before_2_30 Moment.M t n).
    + unfold searchAnchored. destruct (match1to2NoLeadingZero s); auto.
  - destruct r; simpl.
    + apply Hs. intros t n. apply (tokenAt_bound Before_2_30 Moment.D t n).
    + unfold searchAnchored. destruct (match1to2NoLeadingZero s); auto.
Qed.

Lemma stepAt_keeps (r : Release) (c : Config) (tok : Token) :
  match tokenAt r tok (input c) with
  | Some len =>
      input (stepAt r c tok) = drop len (input c) /\
      parsedLength (stepAt r c tok) = (parsedLength c + len)%nat /\
      unusedTokens (stepAt r c tok) = unusedTokens c /\
      (invalidMonth c = true -> invalidMonth (stepAt r c tok) = true)
  | None =>
      input (stepAt r c tok) = input c /\
      parsedLength (stepAt r c tok) = parsedLength c /\
      unusedTokens (stepAt r c tok) = S (unusedTokens c) /\
      (invalidMonth c = true -> invalidMonth (stepAt r c tok) = true)
  end.
Proof.
  unfold stepAt. destruct (tokenAt r tok (input c)) as [len|].
  - match goal with |- context [addTimeToArray ?t ?p ?c'] =>
      destruct (addTimeToArray_keeps t p c') as (-> & -> & -> & Hm) end.
    simpl in *. auto.
  - simpl. auto.
Qed.

(** What a step of the parser does, against the step in place: they
    agree, or the parser has skipped characters for good. *)
Lemma step_cases (r : Release) (c : Config) (tok : Token) :
  (step r c tok = stepAt r c tok /\
   (parsedLength (step r c tok) + String.length (input (step r c tok))
    <= parsedLength c + String.length (input c))%nat)
  \/
  ((parsedLength (step r c tok) + String.length (input (step r c tok))
    < parsedLength c + String.length (input c))%nat /\
   (0 < unusedTokens (stepAt r c tok))%nat).
Proof.
  pose proof (tokenMatch_cases r tok (input c)) as Hm.
  pose proof (stepAt_keeps r c tok) as Hk.
  pose proof (tokenAt_bound r tok (input c)) as Hb.
  destruct (tokenAt r tok (input c)) as [len|] eqn:Hat.
  - left. specialize (Hb len eq_refl).
    assert (Heq : step r c tok = stepAt r c tok)
      by (unfold step, stepAt; now rewrite Hm, Hat).
    split; [exact Heq|]. rewrite Heq.
    destruct Hk as (-> & -> & _). rewrite length_drop. lia.
  - destruct Hm as [Hm | (i & len & Hm & Hi & Hlen)].
    + left.
      assert (Heq : step r c tok = stepAt r c tok)
        by (unfold step, stepAt; now rewrite Hm, Hat).
      split; [exact Heq|]. rewrite Heq. destruct Hk as (-> & -> & _). lia.
    + right. split; [|destruct Hk as (_ & _ & -> & _); lia].
      unfold step. rewrite Hm.
      match goal with |- context [addTimeToArray ?t ?p ?c'] =>
        destruct (addTimeToArray_keeps t p c') as (-> & -> & _) end.
      simpl. rewrite length_drop. lia.
Qed.

Lemma steps_budget (r : Release) (f : list Token) (c : Config) :
  (parsedLength (fold_left (step r) f c)
   + String.length (input (fold_left (step r) f c))
   <= parsedLength c + String.length (input c))%nat.
Proof.
  revert c. induction f as [|tok f IH]; intros c; simpl; [lia|].
  specialize (IH (step r c tok)).
  destruct (step_cases r c tok) as [[_ H] | [H _]]; lia.
Qed.

Lemma stepsAt_unusedTokens (r : Release) (f : list Token) (c : Config) :
  (unusedTokens c <= unusedTokens (fold_left (stepAt r) f c))%nat.
Proof.
  revert c. induction f as [|tok f IH]; intros c; simpl; [lia|].
  specialize (IH (stepAt r c tok)). pose proof (stepAt_keeps r c tok) as Hk.
  destruct (tokenAt r tok (input c)); destruct Hk as (_ & _ & Hu & _); lia.
Qed.

Lemma stepsAt_invalidMonth (r : Release) (f : list Token) (c : Config) :
  invalidMonth c = true -> invalidMonth (fold_left (stepAt r) f c) = true.
Proof.
  revert c. induction f as [|tok f IH]; intros c H; simpl; [assumption|].
  apply IH. pose proof (stepAt_keeps r c tok) as Hk.
  destruct (tokenAt r tok (input c)); destruct Hk as (_ & _ & _ & Hm); auto.
Qed.

Lemma finish_short (s : string) (c : Config) :
  (parsedLength c < String.length s)%nat -> finish s c = None.
Proof.
  intros H. unfold finish. destruct (a_year c), (a_month c); trivial.
  replace (String.length s =? parsedLength c)%nat with false
    by (symmetry; apply Nat.eqb_neq; lia).
  now rewrite !andb_false_r.
Qed.

Lemma steps_in_place (r : Release) (s : string) (f : list Token) (c : Config) :
  (parsedLength c + String.length (input c) <= String.length s)%nat ->
  finish s (fold_left (step r) f c) = finish s (fold_left (stepAt r) f c).
Proof.
  revert c. induction f as [|tok f IH]; intros c Hc; simpl; [reflexivity|].
  destruct (step_cases r c tok) as [[Heq Hle] | [Hlt Hun]].
  - rewrite <- Heq. apply IH. lia.
  - rewrite finish_short, finish_unused; trivial.
    + pose proof (stepsAt_unusedTokens r f (stepAt r c tok)). lia.
    + pose proof (steps_budget r f (step r c tok)). lia.
Qed.

(** X1. In strict mode the parser accepts a string for a format exactly
    when every token of the format matches in place, one after the other,
    down to the end of the string, and it reads the same date: searching
    the patterns anywhere in the rest of the string, as the parser does,
    lets nothing more through. *)
Theorem strict_parse_matches_in_place (r : Release) (s : string)
  (f : list Token) :
  parseFormat r s f = parseAnchored r s f.
Proof.
  unfold parseFormat, parseAnchored. apply steps_in_place. simpl. lia.
Qed.

(** ** What a month query can be *)

Lemma four_digits_value (a b c d : ascii) (rest : string) :
  isDigit a && isDigit b && isDigit c && isDigit d = true ->
  0 <= digitsValue
         (substring 0 4 (String a (String b (String c (String d rest)))))
    <= 9999.
Proof.
  intros H. apply andb_prop in H as [H Hd]. apply andb_prop in H as [H Hc].
  apply andb_prop in H as [Ha Hb].
  apply digitValue_range in Ha, Hb, Hc, Hd.
  assert (Hs : forall s, substring 0 0 s = EmptyString) by (now intros []).
  cbn [substring]. rewrite Hs. unfold digitsValue. cbn [digitsValueFrom]. lia.
Qed.

Lemma stepAt_yearInRange (r : Release) (c : Config) (tok : Token) :
  yearInRange c -> yearInRange (stepAt r c tok).
Proof.
  unfold yearInRange, stepAt. intros H.
  destruct (tokenAt r tok (input c)) as [len|] eqn:Hat; [|exact H].
  destruct tok; unfold addTimeToArray; try exact H;
    try (destruct (monthsParse _ _); exact H).
  cbn [a_year]. cbn [tokenAt] in Hat. unfold match4 in Hat.
  destruct (input c) as [|a [|b [|x [|d rest]]]]; try discriminate Hat.
  destruct (isDigit a && isDigit b && isDigit x && isDigit d) eqn:Hd;
    [|discriminate Hat].
  injection Hat as <-. now apply four_digits_value.
Qed.

Lemma stepsAt_yearInRange (r : Release) (f : list Token) (c : Config) :
  yearInRange c -> yearInRange (fold_left (stepAt r) f c).
Proof.
  revert c. induction f as [|tok f IH]; intros c H; simpl; [exact H|].
  now apply IH, stepAt_yearInRange.
Qed.

Lemma finish_in_range (s : string) (c : Config) (q : Parsed) :
  yearInRange c -> finish s c = Some q ->
  0 <= year q <= 9999 /\ 0 <= month q <= 11
  /\ 1 <= date q <= daysInMonth (year q) (month q).
Proof.
  unfold yearInRange, finish. destruct (a_year c) as [y|]; [|discriminate].
  destruct (a_month c) as [m|]; [|discriminate]. intros Hy.
  match goal with |- (if ?b then _ else _) = _ -> _ =>
    destruct b eqn:Hb; [|discriminate] end.
  intros [= <-]. cbn [year month date].
  repeat (apply andb_prop in Hb as [Hb ?]).
  repeat match goal with H : (_ <=? _) = true |- _ => apply Z.leb_le in H end.
  lia.
Qed.

Lemma parseFormat_in_range (r : Release) (s : string) (f : list Token)
  (q : Parsed) :
  parseFormat r s f = Some q ->
  0 <= year q <= 9999 /\ 0 <= month q <= 11
  /\ 1 <= date q <= daysInMonth (year q) (month q).
Proof.
  unfold parseFormat. rewrite steps_in_place by (simpl; lia).
  apply finish_in_range, stepsAt_yearInRange. exact I.
Qed.

Lemma parseFormats_in_range (r : Release) (s : string)
  (fs : list (list Token)) (q : Parsed) :
  parseFormats r s fs = Some q ->
  0 <= year q <= 9999 /\ 0 <= month q <= 11
  /\ 1 <= date q <= daysInMonth (year q) (month q).
Proof.
  induction fs as [|f fs IH]; simpl; [discriminate|].
  destruct (parseFormat r s f) as [p|] eqn:Hp; [|exact IH].
  intros [= <-]. exact (parseFormat_in_range r s f p Hp).
Qed.

(** X2. Whatever the message and the reference year, a date that the
    handler accepts is a date of the calendar: its year is between 0 and
    9999, its month between 0 and 11, and its day between 1 and the number
    of days of that month in that year. *)
Theorem accepted_date_is_in_range (r : Release) (y : Z) (msg : string)
  (q : Parsed) :
  dateQuery r y msg = Some q ->
  0 <= year q <= 9999 /\ 0 <= month q <= 11
  /\ 1 <= date q <= daysInMonth (year q) (month q).
Proof.
  unfold dateQuery.
  destruct (parseFormats r msg formats) as [p|] eqn:Hp.
  - intros [= <-]. exact (parseFormats_in_range r msg formats p Hp).
  - apply parseFormats_in_range.
Qed.

Lemma accepted_date_is_in_range_witness :
  dateQuery From_2_30 2024 "02/29/2024" = Some (mkParsed 2024 1 29) /\
  0 <= 2024 <= 9999 /\ 0 <= 1 <= 11 /\ 1 <= 29 <= daysInMonth 2024 1.
Proof.
  split; [reflexivity|].
  exact (accepted_date_is_in_range From_2_30 2024 "02/29/2024"
           (mkParsed 2024 1 29) eq_refl).
Defined.

(** ** The retry with the reference year *)

Lemma stepsAt_rejected (r : Release) (s : string) (f : list Token)
  (c : Config) :
  (0 < unusedTokens c)%nat \/ invalidMonth c = true ->
  finish s (fold_left (stepAt r) f c) = None.
Proof.
  intros [H | H].
  - apply finish_unused. pose proof (stepsAt_unusedTokens r f c). lia.
  - now apply finish_invalidMonth, stepsAt_invalidMonth.
Qed.

Lemma substring_drop (n : nat) (s : string) :
  substring 0 n s ++ drop n s = s.
Proof.
  revert s. induction n as [|n IH]; intros [|c s]; simpl; trivial.
  now rewrite IH.
Qed.

Lemma length_substring (n : nat) (s : string) :
  (n <= String.length s)%nat -> String.length (substring 0 n s) = n.
Proof.
  revert s. induction n as [|n IH]; intros [|c s]; simpl; trivial; try lia.
  intros H. rewrite IH; lia.
Qed.

Lemma app_same_length (a b c d : string) :
  a ++ b = c ++ d -> String.length a = String.length c -> a = c /\ b = d.
Proof.
  revert c. induction a as [|x a IH]; intros [|y c]; simpl; try discriminate.
  - auto.
  - intros [= -> H] [= Hl]. destruct (IH c H Hl) as [-> ->]. auto.
Qed.

Lemma findName_sound (names : list string) (w : string) (k i : Z) :
  findName names w k = Some i ->
  k <= i /\
  exists name, nth_error names (Z.to_nat (i - k)) = Some name
               /\ nameTest name w = true.
Proof.
  revert k. induction names as [|n names IH]; intros k; simpl; [discriminate|].
  destruct (nameTest n w) eqn:Hn.
  - intros [= <-]. split; [lia|]. exists n. now rewrite Z.sub_diag.
  - intros H. apply IH in H as (Hk & name & Hnth & Ht). split; [lia|].
    exists name. split; [|exact Ht].
    replace (Z.to_nat (i - k)) with (S (Z.to_nat (i - (k + 1)))) by lia.
    exact Hnth.
Qed.

(** What a month-name format accepts: a word that the locale knows as a
    month, one space, and four digits up to the end. *)
Lemma name_format_accepts (r : Release) (tok : Token) (s : string)
  (q : Parsed) :
  isMonthName tok ->
  parseFormat r s [tok; Lit " "; YYYY] = Some q ->
  exists w yyyy,
    s = w ++ " " ++ yyyy /\ String.length yyyy = 4%nat /\
    monthsParse w tok = Some (month q) /\
    year q = digitsValue yyyy /\ date q = 1.
Proof.
  intros Htok. unfold parseFormat. rewrite steps_in_place by (simpl; lia).
  assert (Hcons : forall t f c, fold_left (stepAt r) (t :: f) c
                                = fold_left (stepAt r) f (stepAt r c t))
    by reflexivity.
  assert (Hat : tokenAt r tok s = matchWord s)
    by (now destruct Htok as [-> | ->]).
  (* the month name *)
  rewrite Hcons. set (c1 := stepAt r (initial s) tok).
  destruct (matchWord s) as [len|] eqn:Hw.
  2:{ rewrite stepsAt_rejected; [discriminate|]. left. subst c1.
      unfold stepAt. change (input (initial s)) with s. rewrite Hat.
      simpl. lia. }
  assert (Hlen : (len <= String.length s)%nat)
    by (now apply (tokenAt_bound r tok)).
  set (w := substring 0 len s).
  destruct (monthsParse w tok) as [i|] eqn:Hm.
  2:{ rewrite stepsAt_rejected; [discriminate|]. right. subst c1.
      unfold stepAt. change (input (initial s)) with s. rewrite Hat.
      fold w. destruct Htok as [-> | ->]; unfold addTimeToArray;
        now rewrite Hm. }
  assert (Hc1 : c1 = mkConfig None (Some i) None (drop len s) len 0 false
                              false).
  { subst c1. unfold stepAt. change (input (initial s)) with s.
    rewrite Hat. fold w. destruct Htok as [-> | ->];
      unfold addTimeToArray; now rewrite Hm. }
  rewrite Hc1. clear c1 Hc1.
  (* the space *)
  rewrite Hcons.
  set (c2 := stepAt r (mkConfig None (Some i) None (drop len s) len 0 false
                                false) (Lit " ")).
  destruct (drop len s) as [|sp rest] eqn:Hdrop.
  { rewrite stepsAt_rejected; [discriminate|]. left. subst c2.
    unfold stepAt. simpl. lia. }
  destruct (Ascii.eqb sp " ") eqn:Hsp.
  2:{ rewrite stepsAt_rejected; [discriminate|]. left. subst c2.
      unfold stepAt. cbn [input tokenAt matchLit]. rewrite Hsp. simpl. lia. }
  assert (Hc2 : c2 = mkConfig None (Some i) None rest (len + 1) 0 false false).
  { subst c2. unfold stepAt. cbn [input tokenAt matchLit]. rewrite Hsp.
    reflexivity. }
  apply Ascii.eqb_eq in Hsp. subst sp. rewrite Hc2. clear c2 Hc2.
  (* the year *)
  rewrite Hcons. cbn [fold_left].
  set (c3 := stepAt r (mkConfig None (Some i) None rest (len + 1) 0 false
                                false) YYYY).
  destruct (match4 rest) as [n|] eqn:H4.
  2:{ rewrite finish_unused; [discriminate|]. subst c3.
      unfold stepAt. cbn [input tokenAt]. rewrite H4. simpl. lia. }
  unfold match4 in H4.
  destruct rest as [|a [|b [|c [|d rest]]]]; try discriminate H4.
  destruct (isDigit a && isDigit b && isDigit c && isDigit d) eqn:Hd;
    [|discriminate H4].
  assert (Hs0 : forall t, substring 0 0 t = EmptyString) by (now intros []).
  assert (Hc3 : c3 = mkConfig
                       (Some (digitsValue
                                (String a (String b (String c (String d
                                   EmptyString))))))
                       (Some i) None rest (len + 1 + 4) 0 false false).
  { subst c3. unfold stepAt. cbn [input tokenAt]. unfold match4. rewrite Hd.
    cbn [addTimeToArray a_year a_month a_date parsedLength unusedTokens empty
         invalidMonth isLit andb drop input substring].
    now rewrite Hs0. }
  rewrite Hc3. clear c3 Hc3.
  unfold finish.
  cbn [a_year a_month a_date parsedLength unusedTokens empty invalidMonth].
  match goal with |- (if ?b then _ else _) = _ -> _ =>
    destruct b eqn:Hb; [|discriminate] end.
  intros [= <-]. cbn [year month date].
  repeat (apply andb_prop in Hb as [Hb ?]).
  match goal with H : (String.length s =? _)%nat = true |- _ =>
    apply Nat.eqb_eq in H; rename H into Hall end.
  pose proof (length_drop len s) as Hrest. rewrite Hdrop in Hrest.
  cbn [String.length] in Hrest.
  assert (rest = EmptyString) as ->
    by (destruct rest; [reflexivity | simpl in Hrest; lia]).
  exists w, (String a (String b (String c (String d EmptyString)))).
  repeat match goal with |- _ /\ _ => split end; trivial.
  rewrite <- (substring_drop len s) at 1. fold w. now rewrite Hdrop.
Qed.

(** X3. The retry accepts nothing but a month name.  When the handler
    falls back on the message followed by a space and a reference year of
    four digits, the date it reads, if any, is the first day of a month
    of that very year, and the message is, up to letter case, the full or
    the short English name of that month, with nothing before or after
    it. *)
Theorem retry_reads_only_month_names (r : Release) (y : Z) (msg : string)
  (q : Parsed) :
  1000 <= y <= 9999 ->
  parseFormats r msg formats = None ->
  dateQuery r y msg = Some q ->
  year q = y /\ date q = 1 /\ 0 <= month q <= 11
  /\ namesMonth (Z.to_nat (month q)) msg.
Proof.
  intros Hy Hsix. unfold dateQuery. rewrite Hsix.
  pose proof (fourDigits_year y Hy) as H4. unfold fourDigits in H4.
  destruct (showInt y) as [|d1 [|d2 [|d3 [|d4 [|d5 more]]]]] eqn:Hshow;
    try discriminate H4.
  apply andb_prop in H4 as [_ Hval]. apply Z.eqb_eq in Hval.
  assert (Hinv : forall tok names,
             isMonthName tok ->
             (forall w, monthsParse w tok = findName names w 0) ->
             (names = months \/ names = monthsShort) ->
             parseFormat r (msg ++ " " ++ showInt y) [tok; Lit " "; YYYY]
             = Some q ->
             year q = y /\ date q = 1 /\ 0 <= month q <= 11
             /\ namesMonth (Z.to_nat (month q)) msg).
  { intros tok names Htok Hparse Hnames Hq.
    pose proof (parseFormat_in_range _ _ _ _ Hq) as (_ & Hmonth & _).
    apply name_format_accepts in Hq as (w & yyyy & Hs & Hlen & Hm & Hyear & Hdate);
      [|exact Htok].
    rewrite Hshow in Hs.
    assert (Hsplit : msg = w /\
              String " " (String d1 (String d2 (String d3 (String d4 EmptyString))))
              = String " " yyyy).
    { apply app_same_length; [exact Hs|].
      apply (f_equal String.length) in Hs.
      rewrite !string_length_app in Hs. cbn [String.length append] in Hs.
      rewrite Hlen in Hs. lia. }
    destruct Hsplit as [<- [= <-]].
    split; [now rewrite Hyear|]. split; [exact Hdate|].
    split; [exact Hmonth|].
    rewrite Hparse in Hm.
    apply findName_sound in Hm as (_ & name & Hnth & Ht).
    rewrite Z.sub_0_r in Hnth. exists name. split; [|exact Ht].
    destruct Hnames as [-> | ->]; auto. }
  unfold parseFormats, fmt_MMMM_YYYY, fmt_MMM_YYYY. rewrite <- Hshow.
  destruct (parseFormat r (msg ++ " " ++ showInt y) [MMMM; Lit " "; YYYY])
    as [p|] eqn:Hfull.
  - intros [= <-].
    exact (Hinv MMMM months (or_introl eq_refl) (fun w => eq_refl)
                (or_introl eq_refl) Hfull).
  - destruct (parseFormat r (msg ++ " " ++ showInt y) [MMM; Lit " "; YYYY])
      as [p|] eqn:Hshort; [|discriminate].
    intros [= <-].
    exact (Hinv MMM monthsShort (or_intror eq_refl) (fun w => eq_refl)
                (or_intror eq_refl) Hshort).
Qed.

Lemma retry_reads_only_month_names_witness :
  year (mkParsed 2024 8 1) = 2024 /\ date (mkParsed 2024 8 1) = 1
  /\ 0 <= month (mkParsed 2024 8 1) <= 11
  /\ namesMonth (Z.to_nat (month (mkParsed 2024 8 1))) "sep".
Proof.
  exact (retry_reads_only_month_names From_2_30 2024 "sep"
           (mkParsed 2024 8 1) ltac:(lia) eq_refl eq_refl).
Defined.

(** ** The label of a reply, read as a message *)

Lemma paddedToFour_checked :
  forallb paddedToFour (map Z.of_nat (seq 0 (Z.to_nat 10000))) = true.
Proof. vm_compute. reflexivity. Qed.

Lemma paddedToFour_year (y : Z) : 0 <= y <= 9999 -> paddedToFour y = true.
Proof.
  intros Hy. pose proof paddedToFour_checked as H.
  rewrite forallb_forall in H. apply H.
  replace y with (Z.of_nat (Z.to_nat y)) by lia.
  apply (in_map Z.of_nat), in_seq. lia.
Qed.

Lemma digit_not_space (c : ascii) : isDigit c = true -> isWhiteSpace c = false.
Proof.
  each_char c; vm_compute; intro H; solve [reflexivity | discriminate H].
Qed.

Lemma trimEnd_app (a b : string) :
  b <> EmptyString -> trimEnd b = b -> trimEnd (a ++ b) = a ++ b.
Proof.
  intros Hne Hb. induction a as [|c a IH]; cbn [append trimEnd]; [exact Hb|].
  rewrite IH. destruct (a ++ b) eqn:Hab; [|reflexivity].
  destruct a; [now elim Hne | discriminate Hab].
Qed.

(** The label of a month: an English month name, a space and the year on
    four digits. *)
Lemma label_parts (y m : Z) :
  0 <= y <= 9999 -> 0 <= m <= 11 ->
  exists name d1 d2 d3 d4,
    label y m
    = name ++ String " " (String d1 (String d2 (String d3 (String d4
                                                            EmptyString))))
    /\ allLetters name = true /\ (0 < String.length name <= 256)%nat
    /\ monthsParse name MMMM = Some m
    /\ isDigit d1 && isDigit d2 && isDigit d3 && isDigit d4 = true
    /\ digitsValue (String d1 (String d2 (String d3 (String d4 EmptyString))))
       = y.
Proof.
  intros Hy Hm. pose proof (paddedToFour_year y Hy) as H4.
  unfold paddedToFour in H4. unfold label, format_MMMM_YYYY. cbn [month year].
  destruct (zeroFill4 y) as [|d1 [|d2 [|d3 [|d4 [|d5 more]]]]];
    try discriminate H4.
  apply andb_prop in H4 as [Hd Hval]. apply Z.eqb_eq in Hval.
  assert (Hcases : m = 0 \/ m = 1 \/ m = 2 \/ m = 3 \/ m = 4 \/ m = 5 \/ m = 6
                   \/ m = 7 \/ m = 8 \/ m = 9 \/ m = 10 \/ m = 11) by lia.
  repeat destruct Hcases as [-> | Hcases]; try subst m;
    (eexists; exists d1, d2, d3, d4;
     split; [reflexivity|];
     split; [reflexivity|];
     split; [simpl String.length; lia|];
     split; [reflexivity|];
     split; [exact Hd | exact Hval]).
Qed.

(** X4. The label of a reply to a month query, sent back as a message,
    asks for the same month: whatever the message that was read as a
    date, the text that [format('MMMM YYYY')] writes for it is neither
    the keyword nor a number, is read by the first of the six formats,
    and is a query for the month and the year of that date, whatever the
    reference year. *)
Theorem label_is_read_back (r : Release) (y0 y1 : Z) (msg : string)
  (q : Parsed) :
  dateQuery r y0 msg = Some q ->
  parseFormat r (format_MMMM_YYYY q) fmt_MMMM_YYYY
  = Some (mkParsed (year q) (month q) 1) /\
  classify r y1 (format_MMMM_YYYY q) = MonthQuery (year q) (month q).
Proof.
  intros Hq.
  assert (Hrange : 0 <= year q <= 9999 /\ 0 <= month q <= 11).
  { unfold dateQuery in Hq.
    destruct (parseFormats r msg formats) as [p|] eqn:Hp.
    - injection Hq as <-. now apply parseFormats_in_range in Hp.
    - now apply parseFormats_in_range in Hq. }
  destruct Hrange as [Hy Hm].
  change (format_MMMM_YYYY q) with (label (year q) (month q)).
  destruct (label_parts (year q) (month q) Hy Hm)
    as (name & d1 & d2 & d3 & d4 & -> & Hname & Hlen & Hparse & Hd & Hval).
  set (yyyy := String d1 (String d2 (String d3 (String d4 EmptyString)))) in *.
  assert (Hfull : parseFormat r (name ++ String " " yyyy) fmt_MMMM_YYYY
                  = Some (mkParsed (year q) (month q) 1)).
  { unfold fmt_MMMM_YYYY. subst yyyy.
    rewrite (name_format_valid r MMMM name (month q) d1 d2 d3 d4); trivial;
      [now rewrite Hval | now left]. }
  split; [exact Hfull|].
  destruct name as [|a name]; [simpl in Hlen; lia|].
  pose proof Hname as Ha. cbn [allLetters] in Ha.
  apply andb_prop in Ha as [Ha _].
  apply letter_upper in Ha as (Hdig & _ & Hws & _).
  assert (Htrim : trim (String a name ++ String " " yyyy)
                  = String a name ++ String " " yyyy).
  { unfold trim. cbn [append trimStart]. rewrite Hws.
    change (String a (name ++ String " " yyyy))
      with (String a name ++ String " " yyyy).
    apply trimEnd_app; [discriminate|].
    assert (Hy4 : trimEnd yyyy = yyyy).
    { apply trimEnd_id. subst yyyy. cbn [noneOf].
      apply andb_prop in Hd as [Hd H4]. apply andb_prop in Hd as [Hd H3].
      apply andb_prop in Hd as [H1 H2].
      now rewrite !digit_not_space. }
    cbn [trimEnd]. rewrite Hy4. reflexivity. }
  unfold classify. rewrite Htrim.
  destruct (String.eqb (toLowerCase (String a name ++ String " " yyyy))
              "total") eqn:Hk.
  { exfalso. apply String.eqb_eq, lower_total_spells in Hk.
    destruct Hk as (c1 & c2 & c3 & c4 & c5 & Hk & _).
    apply (f_equal String.length) in Hk. rewrite string_length_app in Hk.
    simpl in Hk. lia. }
  replace (numberRegex_test (String a name ++ String " " yyyy)) with false
    by (unfold numberRegex_test; cbn [append spanDigits]; now rewrite Hdig).
  unfold dateQuery, formats. cbn [parseFormats]. rewrite Hfull. reflexivity.
Qed.

Lemma label_is_read_back_witness :
  parseFormat Before_2_30 (format_MMMM_YYYY (mkParsed 2023 2 15)) fmt_MMMM_YYYY
  = Some (mkParsed 2023 2 1) /\
  classify Before_2_30 1999 (format_MMMM_YYYY (mkParsed 2023 2 15))
  = MonthQuery 2023 2.
Proof.
  exact (label_is_read_back Before_2_30 2024 1999 "03/15/2023"
           (mkParsed 2023 2 15) eq_refl).
Defined.

(** ** The ranges of different months *)

(** A month counted from January of the year 0. *)
Lemma MakeDay_index (y m d : Z) : MakeDay y m d = MakeDay 0 (12 * y + m) d.
Proof.
  unfold MakeDay.
  replace ((12 * y + m) / 12) with (y + m / 12)
    by (Z.div_mod_to_equations; lia).
  replace ((12 * y + m) mod 12) with (m mod 12)
    by (Z.div_mod_to_equations; lia).
  reflexivity.
Qed.

Lemma MakeDay_next (k : Z) : MakeDay 0 k 1 < MakeDay 0 (k + 1) 1.
Proof.
  assert (Hm : 0 <= k mod 12 <= 11)
    by (pose proof (Z.mod_pos_bound k 12); lia).
  pose proof (month_length (k / 12) (k mod 12) Hm) as H.
  pose proof (daysInMonth_pos (k / 12) (k mod 12)) as Hd.
  rewrite (MakeDay_index (k / 12) (k mod 12 + 1)) in H.
  rewrite (MakeDay_index (k / 12) (k mod 12)) in H.
  replace (12 * (k / 12) + (k mod 12 + 1)) with (k + 1) in H
    by (Z.div_mod_to_equations; lia).
  replace (12 * (k / 12) + k mod 12) with k in H
    by (Z.div_mod_to_equations; lia).
  lia.
Qed.

Lemma MakeDay_increasing (k n : Z) :
  0 <= n -> MakeDay 0 (k + 1) 1 <= MakeDay 0 (k + 1 + n) 1.
Proof.
  intros Hn. revert n Hn. apply natlike_ind.
  - rewrite Z.add_0_r. lia.
  - intros n Hn IH. pose proof (MakeDay_next (k + 1 + n)).
    replace (k + 1 + Z.succ n) with (k + 1 + n + 1) by lia. lia.
Qed.

(** The range of a month ends before the range of any later month
    starts. *)
Lemma earlier_month_ends_first (tz : Z -> Z) (y m y' m' : Z) :
  (forall a b, a < b -> tz a < tz b) ->
  12 * y + m < 12 * y' + m' ->
  endOfMonth tz y m < startOfMonth tz y' m'.
Proof.
  intros Htz Hlt. unfold endOfMonth, startOfMonth, localStartOfDate.
  rewrite (MakeDay_index y (m + 1)), (MakeDay_index y' m').
  pose proof (MakeDay_increasing (12 * y + m)
                (12 * y' + m' - (12 * y + m) - 1) ltac:(lia)) as H.
  replace (12 * y + m + 1 + (12 * y' + m' - (12 * y + m) - 1))
    with (12 * y' + m') in H by lia.
  replace (12 * y + (m + 1)) with (12 * y + m + 1) by lia.
  unfold msPerDay.
  destruct (Z.eq_dec (MakeDay 0 (12 * y + m + 1) 1) (MakeDay 0 (12 * y' + m') 1))
    as [-> | Hne]; [lia|].
  specialize (Htz (86400000 * MakeDay 0 (12 * y + m + 1) 1)
                  (86400000 * MakeDay 0 (12 * y' + m') 1) ltac:(lia)).
  lia.
Qed.

(** X5. No row is counted in two months.  On a host whose conversion from
    local time to UTC is increasing, a time of creation that the range of
    one month keeps and the range of another month keeps as well does not
    exist: the two months are the same. *)
Theorem no_row_in_two_months (tz : Z -> Z) (y m y' m' t : Z) :
  (forall a b, a < b -> tz a < tz b) ->
  0 <= m <= 11 -> 0 <= m' <= 11 ->
  keeps (SelectRange (startOfMonth tz y m) (endOfMonth tz y m)) t = true ->
  keeps (SelectRange (startOfMonth tz y' m') (endOfMonth tz y' m')) t = true ->
  y = y' /\ m = m'.
Proof.
  intros Htz Hm Hm' H1 H2. unfold keeps in H1, H2.
  apply andb_prop in H1 as [Ha Hb]. apply andb_prop in H2 as [Hc Hd].
  apply Z.leb_le in Ha, Hb, Hc, Hd.
  destruct (Z.lt_trichotomy (12 * y + m) (12 * y' + m')) as [Hlt | [Heq | Hgt]].
  - pose proof (earlier_month_ends_first tz y m y' m' Htz Hlt). lia.
  - lia.
  - pose proof (earlier_month_ends_first tz y' m' y m Htz ltac:(lia)). lia.
Qed.

Lemma no_row_in_two_months_witness :
  let march := SelectRange (startOfMonth (fun t => t) 2023 2)
                           (endOfMonth (fun t => t) 2023 2) in
  keeps march 1679000000000000 = true /\ 2023 = 2023 /\ 2 = 2.
Proof.
  split; [reflexivity|].
  exact (no_row_in_two_months (fun t => t) 2023 2 2023 2 1679000000000000
           ltac:(intros a b H; exact H) ltac:(lia) ltac:(lia)
           eq_refl eq_refl).
Defined.

(** ** Amounts *)

(** X6. The pattern of a cash entry accepts exactly the texts written as
    digits, or as digits, a point and digits; nothing else, and in
    particular no sign, no exponent, no separator and no white space. *)
Theorem numeric_pattern_accepts (s : string) :
  numberRegex_test s = true <->
  exists ds, digits ds = true /\
             (s = ds \/ exists fs, digits fs = true /\ s = ds ++ "." ++ fs).
Proof.
  split.
  - intros H. apply accepted_Decimal in H as (n & k & H).
    destruct H as [ds Hds | ds fs Hds Hfs]; exists ds; split; trivial;
      [now left | right; now exists fs].
  - intros (ds & Hds & [-> | (fs & Hfs & ->)]).
    + exact (proj1 (Decimal_accepted _ _ _ (Decimal_int ds Hds))).
    + exact (proj1 (Decimal_accepted _ _ _ (Decimal_frac ds fs Hds Hfs))).
Qed.

Lemma shr_1_nonneg (mrs : shr_record) :
  0 <= shr_m mrs -> 0 <= shr_m (shr_1 mrs).
Proof.
  destruct mrs as [m rb sb]. cbn [shr_m]. unfold shr_1.
  destruct m as [|[p|p|]|p]; cbn [shr_m]; lia.
Qed.

Lemma iter_shr_1_nonneg (p : positive) (mrs : shr_record) :
  0 <= shr_m mrs -> 0 <= shr_m (iter_pos shr_1 p mrs).
Proof.
  revert mrs. induction p as [p IH|p IH|]; intros mrs H; cbn [iter_pos].
  - now apply IH, IH, shr_1_nonneg.
  - now apply IH, IH.
  - now apply shr_1_nonneg.
Qed.

Lemma shr_fexp_nonneg (m e : Z) (l : location) :
  0 <= m -> 0 <= shr_m (fst (shr_fexp 53 1024 m e l)).
Proof.
  intros H. unfold shr_fexp, shr.
  assert (H0 : 0 <= shr_m (shr_record_of_loc m l))
    by (destruct l as [|[]]; exact H).
  destruct (fexp 53 1024 (Zdigits2 m + e) - e); cbn [fst]; trivial.
  now apply iter_shr_1_nonneg.
Qed.

Lemma round_nearest_even_nonneg (m : Z) (l : location) :
  0 <= m -> 0 <= round_nearest_even m l.
Proof.
  intros H. unfold round_nearest_even.
  destruct l as [|[]]; try destruct (Z.even m); lia.
Qed.

(** Rounding a non-negative mantissa under a positive sign gives zero, a
    positive Number or [Infinity]. *)
Lemma binary_round_aux_nonneg (m e : Z) (l : location) :
  0 <= m -> isNonNegative (binary_round_aux 53 1024 false m e l) = true.
Proof.
  intros H. unfold binary_round_aux.
  pose proof (shr_fexp_nonneg m e l H) as H1.
  destruct (shr_fexp 53 1024 m e l) as [mrs1 e1]. cbn [fst] in H1.
  pose proof (shr_fexp_nonneg
                (round_nearest_even (shr_m mrs1) (loc_of_shr_record mrs1))
                e1 loc_Exact (round_nearest_even_nonneg _ _ H1)) as H2.
  destruct (shr_fexp 53 1024 _ e1 loc_Exact) as [mrs2 e2]. cbn [fst] in H2.
  destruct (shr_m mrs2) as [|p|p]; [reflexivity| |lia].
  now destruct (e2 <=? 1024 - 53).
Qed.

Lemma roundDecimal_nonneg (n : Z) (k : nat) :
  isNonNegative (roundDecimal n k) = true.
Proof.
  unfold roundDecimal. destruct n as [|p|p]; try reflexivity.
  unfold SFdiv, SFdiv_core_binary.
  set (den := Z.to_pos (10 ^ Z.of_nat k)).
  match goal with |- context [Z.div_eucl ?a ?b] =>
    pose proof (Z_div_mod a b ltac:(lia)) as Hdiv;
    assert (Ha : 0 <= a);
    [|destruct (Z.div_eucl a b) as [q rem]] end.
  { match goal with |- 0 <= match ?s with _ => _ end =>
      destruct s eqn:Hs; try lia end.
    apply Z.shiftl_nonneg. lia. }
  cbn [xorb]. apply binary_round_aux_nonneg.
  destruct Hdiv as [Hq Hr]. nia.
Qed.

Lemma parseFloat_nonneg (s : string) :
  numberRegex_test s = true -> isNonNegative (parseFloat s) = true.
Proof.
  intros H. apply accepted_Decimal in H as (n & k & H).
  apply Decimal_accepted in H as [_ ->]. apply roundDecimal_nonneg.
Qed.

Lemma add_nonneg (x y : Number) :
  isNonNegative x = true -> isNonNegative y = true ->
  isNonNegative (add x y) = true.
Proof.
  unfold add.
  destruct x as [[]|[]| |[] mx ex]; destruct y as [[]|[]| |[] my ey];
    try discriminate; try reflexivity.
  intros _ _. unfold SFadd, cond_Zopp, binary_normalize.
  match goal with |- context [Z.pos ?a + Z.pos ?b] =>
    change (Z.pos a + Z.pos b) with (Z.pos (a + b)) end.
  cbv iota. unfold binary_round.
  match goal with |- context [shl_align ?a ?b ?c] =>
    destruct (shl_align a b c) as [mz ez] end.
  apply binary_round_aux_nonneg. lia.
Qed.

(** X7. Whatever the request and the host, what the handler inserts in
    the store is the amount of a numeric message under the number of its
    sender, and that amount is never negative and never [NaN]: it is
    zero, a positive Number or, for a text of several hundred digits,
    [Infinity]. *)
Theorem inserted_amount_is_non_negative (h : Host) (req : Request)
  (p : option string) (a : Number) :
  In (Insert p a) (dbCalls (fst (sms h req))) ->
  p = From req /\ isNonNegative a = true /\
  exists b, Body req = Some b /\ numberRegex_test (trim b) = true
            /\ a = parseFloat (trim b).
Proof.
  unfold sms, smsBody. destruct (Body req) as [b|]; simpl; [|intros []].
  destruct (String.eqb (toLowerCase (trim b)) "total").
  { run_store h SelectAll; intros [H|[]]; discriminate H. }
  destruct (numberRegex_test (trim b)) eqn:Hn.
  { assert (Hgoal : Insert (From req) (parseFloat (trim b)) = Insert p a ->
                    p = From req /\ isNonNegative a = true /\
                    exists b0, Some b = Some b0
                               /\ numberRegex_test (trim b0) = true
                               /\ a = parseFloat (trim b0)).
    { intros [= <- <-]. split; [reflexivity|].
      split; [now apply parseFloat_nonneg|]. now exists b. }
    run_store h (Insert (From req) (parseFloat (trim b)));
      intros [H|[]]; now apply Hgoal. }
  destruct (dateQuery (release h) (currentYear h) (trim b)) as [q|]; simpl;
    [|intros []].
  run_store h (SelectRange (startOfMonth (utcOfLocal h) (year q) (month q))
                 (endOfMonth (utcOfLocal h) (year q) (month q)));
    intros [H|[]]; discriminate H.
Qed.

Lemma inserted_amount_is_non_negative_witness :
  let req := mkRequest (Some " 12.50 ") (Some "+15551234567") in
  Some "+15551234567" = From req /\
  isNonNegative (parseFloat "12.50") = true /\
  exists b, Body req = Some b /\ numberRegex_test (trim b) = true
            /\ parseFloat "12.50" = parseFloat (trim b).
Proof.
  exact (inserted_amount_is_non_negative
           (hostWith From_2_30 2024 (Response None false) None None)
           (mkRequest (Some " 12.50 ") (Some "+15551234567"))
           (Some "+15551234567") (parseFloat "12.50") (or_introl eq_refl)).
Defined.

Lemma fold_add_nonneg (rows : list Entry) (acc : Number) :
  Forall (fun entry => isNonNegative (amount entry) = true) rows ->
  isNonNegative acc = true ->
  isNonNegative (fold_left (fun sum entry => add sum (amount entry)) rows acc)
  = true.
Proof.
  intros Hrows. revert acc. induction Hrows as [|e rows He _ IH]; intros acc H;
    cbn [fold_left]; [exact H|].
  now apply IH, add_nonneg.
Qed.

(** X8. The sum that the handler reports is never negative and never
    [NaN] when no row it received is: adding amounts that are zero,
    positive or [Infinity], from zero, stays among them.  When that sum is
    below 10^21, what the reply shows of it is digits, a point and two
    digits, with no sign. *)
Theorem total_is_non_negative (rows : list Entry) :
  Forall (fun entry => isNonNegative (amount entry) = true) rows ->
  isNonNegative (total rows) = true /\
  (belowLimit (total rows) = true ->
   unsignedTwoDecimals (toFixed2 (total rows)) = true).
Proof.
  intros H. assert (Hn : isNonNegative (total rows) = true)
    by (now apply fold_add_nonneg).
  split; [exact Hn|].
  destruct (total rows) as [s|[]| |[] m e]; try discriminate Hn;
    try discriminate; [reflexivity|].
  unfold belowLimit, toFixed2. intros Hb. apply negb_true_iff in Hb.
  rewrite Hb. cbn [append]. apply withTwoDecimals_shape.
  destruct (Z.leb_spec 0 e).
  - pose proof (Z.pow_nonneg 2 e). nia.
  - apply Z.div_pos; [|apply Z.pow_pos_nonneg; lia].
    pose proof (Z.pow_nonneg 2 (- e)). lia.
Qed.

Lemma total_is_non_negative_witness :
  let rows := [mkEntry (parseFloat "100"); mkEntry (parseFloat "25.5")] in
  isNonNegative (total rows) = true /\
  (belowLimit (total rows) = true ->
   unsignedTwoDecimals (toFixed2 (total rows)) = true).
Proof.
  apply total_is_non_negative. repeat constructor.
Defined.

(** ** Every run of the SMS handler *)

(** X9. Whatever the request and the host, the reply is the last thing a
    run of the SMS handler does, after at most one request to the store;
    the handler sends no message of its own through the messaging client
    and no plain HTTP response; and a request without a message text
    never reaches the store. *)
Theorem reply_comes_last (h : Host) (req : Request) :
  endsWithReply (fst (sms h req)) = true /\
  (List.length (dbCalls (fst (sms h req))) <= 1)%nat /\
  messages (fst (sms h req)) = [] /\
  responses (fst (sms h req)) = [] /\
  match Body req with
  | None => dbCalls (fst (sms h req)) = []
  | Some _ => True
  end.
Proof.
  unfold sms, smsBody. destruct (Body req) as [b|]; simpl;
    [|repeat split; reflexivity || lia].
  destruct (String.eqb (toLowerCase (trim b)) "total").
  { run_store h SelectAll; repeat split; reflexivity || lia. }
  destruct (numberRegex_test (trim b)).
  { run_store h (Insert (From req) (parseFloat (trim b)));
      repeat split; reflexivity || lia. }
  destruct (dateQuery (release h) (currentYear h) (trim b)) as [q|]; simpl;
    [|repeat split; reflexivity || lia].
  run_store h (SelectRange (startOfMonth (utcOfLocal h) (year q) (month q))
                 (endOfMonth (utcOfLocal h) (year q) (month q)));
    repeat split; reflexivity || lia.
Qed.

(** X10. The handler acknowledges a cash entry only when the store has
    taken it: a run that replies with the acknowledgement has sent the
    store exactly one request, the insert of the amount of a numeric
    message under its sender's number, and the store has answered it
    without an error. *)
Theorem acknowledged_means_stored (h : Host) (req : Request) :
  In recorded (replies (fst (sms h req))) ->
  exists b data,
    Body req = Some b /\ numberRegex_test (trim b) = true /\
    dbCalls (fst (sms h req)) = [Insert (From req) (parseFloat (trim b))] /\
    db h (Insert (From req) (parseFloat (trim b))) = Response data false.
Proof.
  unfold sms, smsBody, recorded.
  destruct (Body req) as [b|]; simpl; [|intros [H|[]]; discriminate H].
  destruct (String.eqb (toLowerCase (trim b)) "total").
  { run_store h SelectAll; intros [H|[]]; discriminate H. }
  destruct (numberRegex_test (trim b)) eqn:Hn.
  { unfold await. simpl.
    destruct (db h (Insert (From req) (parseFloat (trim b))))
      as [data [|]|] eqn:Hdb; simpl; intros [H|[]]; try discriminate H.
    exists b, data. auto. }
  destruct (dateQuery (release h) (currentYear h) (trim b)) as [q|]; simpl;
    [|unfold invalidInput, quote; simpl; intros [H|[]]; discriminate H].
  run_store h (SelectRange (startOfMonth (utcOfLocal h) (year q) (month q))
                 (endOfMonth (utcOfLocal h) (year q) (month q)));
    intros [H|[]]; discriminate H.
Qed.

Lemma acknowledged_means_stored_witness :
  let h := hostWith From_2_30 2024 (Response None false) None None in
  let req := mkRequest (Some "50") (Some "+15551234567") in
  In recorded (replies (fst (sms h req))) /\
  exists b data,
    Body req = Some b /\ numberRegex_test (trim b) = true /\
    dbCalls (fst (sms h req)) = [Insert (From req) (parseFloat (trim b))] /\
    db h (Insert (From req) (parseFloat (trim b))) = Response data false.
Proof.
  split; [left; reflexivity|].
  exact (acknowledged_means_stored
           (hostWith From_2_30 2024 (Response None false) None None)
           (mkRequest (Some "50") (Some "+15551234567"))
           (or_introl eq_refl)).
Defined.

(** X11. The reply to a month query.  For a message taken as a query for
    the month [m] of the year [y], the run completes normally whatever
    the store does.  When the store answers with rows, the reply names
    the month by its English name and the year on four digits, whatever
    the spelling and the day of the message, and shows the sum of the
    rows; when the store answers with an error, the reply is the fixed
    retrieval-error text and the error is logged; when the request is
    rejected or the answer has no rows, the reply is the generic error
    text. *)
Theorem month_query_reply (h : Host) (sender : option string) (b : string)
  (y m : Z) :
  classify (release h) (currentYear h) b = MonthQuery y m ->
  let ask := SelectRange (startOfMonth (utcOfLocal h) y m)
                         (endOfMonth (utcOfLocal h) y m) in
  let run := sms h (mkRequest (Some b) sender) in
  snd run = Normal tt /\
  replies (fst run) =
    [match db h ask with
     | Response _ true =>
         "An error occurred while retrieving data. Please try again later."
     | Response (Some rows) false =>
         "Total cash for " ++ label y m ++ ": $" ++ toFixed2 (total rows)
     | _ => "An unexpected error occurred. Please try again later."
     end] /\
  errorLogs (fst run) =
    match db h ask with
    | Response _ true => ["Database error:"]
    | Response (Some _) false => []
    | _ => ["Server error:"]
    end.
Proof.
  intros Hc ask run.
  apply classify_MonthQuery in Hc as (Hk & Hn & q & Hq & <- & <-).
  subst ask run. unfold sms, smsBody, label. simpl. rewrite Hk, Hn, Hq.
  run_store h (SelectRange (startOfMonth (utcOfLocal h) (year q) (month q))
                 (endOfMonth (utcOfLocal h) (year q) (month q)));
    repeat split; reflexivity.
Qed.

Lemma month_query_reply_witness :
  let h := hostWith From_2_30 2024 (Response None true) None None in
  let run := sms h (mkRequest (Some "3/5/2023") (Some "+15551234567")) in
  snd run = Normal tt /\
  replies (fst run) =
    ["An error occurred while retrieving data. Please try again later."] /\
  errorLogs (fst run) = ["Database error:"].
Proof.
  exact (month_query_reply
           (hostWith From_2_30 2024 (Response None true) None None)
           (Some "+15551234567") "3/5/2023" 2023 2 eq_refl).
Defined.

(** ** The two prompt handlers *)

(** X12. The prompt goes out exactly when the destination number is set
    and not empty: for the HTTP trigger and for the scheduled callback
    alike, no message is handed to the messaging client when
    [USER_PHONE_NUMBER] is missing or is the empty string, and one is in
    every other case.  Neither of the two ever touches the store or sends
    a TwiML reply, and the HTTP trigger answers exactly once. *)
Theorem prompt_needs_a_number (h : Host) :
  (messages (fst (send_sms h)) = [] <->
   USER_PHONE_NUMBER h = None \/ USER_PHONE_NUMBER h = Some EmptyString) /\
  messages (fst (cronCallback h)) = messages (fst (send_sms h)) /\
  (List.length (messages (fst (send_sms h))) <= 1)%nat /\
  dbCalls (fst (send_sms h)) = [] /\ replies (fst (send_sms h)) = [] /\
  dbCalls (fst (cronCallback h)) = [] /\ replies (fst (cronCallback h)) = [] /\
  List.length (responses (fst (send_sms h))) = 1%nat.
Proof.
  unfold send_sms, cronCallback, create, prompt, configured.
  destruct (USER_PHONE_NUMBER h) as [[|c number]|]; simpl.
  - repeat split; auto.
  - destruct (messagesCreate h _) as [sid|]; simpl; repeat split;
      try reflexivity; try lia; try discriminate;
      intros [H | H]; discriminate H.
  - repeat split; auto.
Qed.

(** ** Letter case *)

Lemma upperChar_facts (c : ascii) :
  isDigit (upperChar c) = isDigit c /\
  isWordChar (upperChar c) = isWordChar c /\
  isWhiteSpace (upperChar c) = isWhiteSpace c /\
  between 49 57 (upperChar c) = between 49 57 c /\
  Ascii.eqb (upperChar c) " " = Ascii.eqb c " " /\
  Ascii.eqb (upperChar c) "/" = Ascii.eqb c "/" /\
  (code (upperChar c) =? 46) = (code c =? 46) /\
  toLowerChar (upperChar c) = toLowerChar c /\
  upperChar (upperChar c) = upperChar c /\
  (isDigit c = true -> upperChar c = c).
Proof.
  each_char c; vm_compute; repeat split; intro H; discriminate H.
Qed.

Ltac upper_facts c :=
  destruct (upperChar_facts c)
    as (Hdig & Hword & Hws & Hnz & Hsp & Hsl & Hdot & Hlow & Hidem & Hfix).

Lemma upper_upper (s : string) : upper (upper s) = upper s.
Proof.
  induction s as [|c s IH]; simpl; [reflexivity|].
  rewrite IH. upper_facts c. now rewrite Hidem.
Qed.

Lemma upper_app (a b : string) : upper (a ++ b) = upper a ++ upper b.
Proof. induction a as [|c a IH]; simpl; [reflexivity | now rewrite IH]. Qed.

Lemma upper_digits (ds : string) : allDigits ds = true -> upper ds = ds.
Proof.
  induction ds as [|c ds IH]; simpl; [reflexivity|].
  intros H. apply andb_prop in H as [Hc Hds]. rewrite IH by assumption.
  upper_facts c. now rewrite (Hfix Hc).
Qed.

Lemma upper_drop (n : nat) (s : string) : drop n (upper s) = upper (drop n s).
Proof.
  revert s. induction n as [|n IH]; intros [|c s]; simpl; trivial.
Qed.

Lemma upper_substring (n : nat) (s : string) :
  substring 0 n (upper s) = upper (substring 0 n s).
Proof.
  revert s. induction n as [|n IH]; intros [|c s]; simpl; trivial.
  now rewrite IH.
Qed.

Lemma length_upper (s : string) : String.length (upper s) = String.length s.
Proof. induction s as [|c s IH]; simpl; [reflexivity | now rewrite IH]. Qed.

Lemma spanDigits_upper (s : string) :
  spanDigits (upper s) = (fst (spanDigits s), upper (snd (spanDigits s))).
Proof.
  induction s as [|c s IH]; simpl; [reflexivity|].
  destruct (upperChar_facts c) as (-> & _ & _ & _ & _ & _ & _ & _ & _ & Hid).
  destruct (isDigit c) eqn:Hc; [|reflexivity].
  rewrite IH, (Hid eq_refl). now destruct (spanDigits s).
Qed.

Lemma spanWord_upper (limit : nat) (s : string) :
  spanWord limit (upper s) = spanWord limit s.
Proof.
  revert s. induction limit as [|limit IH]; intros [|c s]; simpl; trivial.
  destruct (upperChar_facts c) as (_ & -> & _). now rewrite IH.
Qed.

Lemma trimStart_upper (s : string) : trimStart (upper s) = upper (trimStart s).
Proof.
  induction s as [|c s IH]; simpl; [reflexivity|].
  destruct (upperChar_facts c) as (_ & _ & -> & _).
  now destruct (isWhiteSpace c).
Qed.

Lemma trimEnd_upper (s : string) : trimEnd (upper s) = upper (trimEnd s).
Proof.
  induction s as [|c s IH]; simpl; [reflexivity|].
  rewrite IH. destruct (upperChar_facts c) as (_ & _ & -> & _).
  destruct (trimEnd s); simpl; [now destruct (isWhiteSpace c) | reflexivity].
Qed.

Lemma trim_upper (s : string) : trim (upper s) = upper (trim s).
Proof. unfold trim. now rewrite trimStart_upper, trimEnd_upper. Qed.

Lemma toLowerCase_upper (s : string) : toLowerCase (upper s) = toLowerCase s.
Proof.
  induction s as [|c s IH]; simpl; [reflexivity|].
  rewrite IH. upper_facts c. now rewrite Hlow.
Qed.

Lemma numeric_upper (s : string) :
  numberRegex_test (upper s) = numberRegex_test s /\
  parseFloat (upper s) = parseFloat s.
Proof.
  unfold numberRegex_test, parseFloat. rewrite spanDigits_upper.
  destruct (spanDigits s) as [d rest]. cbn [fst snd].
  destruct rest as [|c rest]; cbn [upper]; [split; reflexivity|].
  destruct (upperChar_facts c) as (_ & _ & _ & _ & _ & _ & -> & _).
  rewrite spanDigits_upper. destruct (spanDigits rest) as [f more].
  cbn [fst snd]. split; [|reflexivity].
  now destruct more.
Qed.

Lemma tokenAt_upper (r : Release) (tok : Token) (s : string) :
  isSeparator tok -> tokenAt r tok (upper s) = tokenAt r tok s.
Proof.
  assert (Hd : forall c, isDigit (upperChar c) = isDigit c)
    by (intros c; apply upperChar_facts).
  assert (Hn : forall c, between 49 57 (upperChar c) = between 49 57 c)
    by (intros c; apply upperChar_facts).
  assert (Hword : matchWord (upper s) = matchWord s).
  { unfold matchWord. rewrite spanDigits_upper.
    destruct (spanDigits s) as [d rest]. cbn [fst snd].
    now rewrite spanWord_upper. }
  assert (H2 : match2 (upper s) = match2 s)
    by (destruct s as [|a [|b rest]]; simpl; trivial; now rewrite !Hd).
  assert (H12 : match1to2 (upper s) = match1to2 s)
    by (destruct s as [|a [|b rest]]; simpl; trivial; now rewrite !Hd).
  assert (H12' : match1to2NoLeadingZero (upper s) = match1to2NoLeadingZero s)
    by (destruct s as [|a [|b rest]]; simpl; trivial; now rewrite ?Hd, Hn).
  assert (H4 : match4 (upper s) = match4 s)
    by (destruct s as [|a [|b [|c [|d rest]]]]; simpl; trivial;
        now rewrite !Hd).
  intros Hsep. destruct tok; cbn [tokenAt]; trivial; try (now destruct r).
  cbn [isSeparator] in Hsep. unfold matchLit.
  destruct s as [|a rest]; cbn [upper]; [reflexivity|].
  destruct (upperChar_facts a) as (_ & _ & _ & _ & Hsp & Hsl & _).
  destruct Hsep as [-> | ->]; [now rewrite Hsp | now rewrite Hsl].
Qed.

(** What a numeric token matches is digits. *)
Lemma tokenAt_digits (r : Release) (tok : Token) (s : string) (len : nat) :
  tokenAt r tok s = Some len ->
  match tok with
  | MMMM | MMM | Lit _ => True
  | _ => allDigits (substring 0 len s) = true
  end.
Proof.
  assert (Hs0 : forall t, substring 0 0 t = EmptyString) by (now intros []).
  assert (Hnz : forall c, between 49 57 c = true -> isDigit c = true).
  { intros c. unfold isDigit, between. intros H.
    apply andb_prop in H as [H1 H2]. apply Z.leb_le in H1.
    rewrite H2, andb_true_r. apply Z.leb_le. lia. }
  assert (H2 : match2 s = Some len -> allDigits (substring 0 len s) = true).
  { unfold match2. destruct s as [|a [|b rest]]; try discriminate.
    destruct (isDigit a) eqn:Ha, (isDigit b) eqn:Hb; try discriminate.
    intros [= <-]. cbn [substring allDigits]. now rewrite Hs0, Ha, Hb. }
  assert (H12 : match1to2 s = Some len -> allDigits (substring 0 len s) = true).
  { unfold match1to2. destruct s as [|a rest]; try discriminate.
    destruct (isDigit a) eqn:Ha; try discriminate.
    destruct rest as [|b rest]; [|destruct (isDigit b) eqn:Hb];
      intros [= <-]; cbn [substring allDigits]; rewrite ?Hs0, Ha, ?Hb;
      reflexivity. }
  assert (H12' : match1to2NoLeadingZero s = Some len ->
                 allDigits (substring 0 len s) = true).
  { unfold match1to2NoLeadingZero. destruct s as [|a rest]; try discriminate.
    destruct (between 49 57 a) eqn:Ha; try discriminate.
    apply Hnz in Ha.
    destruct rest as [|b rest]; [|destruct (isDigit b) eqn:Hb];
      intros [= <-]; cbn [substring allDigits]; rewrite ?Hs0, Ha, ?Hb;
      reflexivity. }
  assert (H4 : match4 s = Some len -> allDigits (substring 0 len s) = true).
  { unfold match4. destruct s as [|a [|b [|c [|d rest]]]]; try discriminate.
    destruct (isDigit a) eqn:Ha, (isDigit b) eqn:Hb, (isDigit c) eqn:Hc,
      (isDigit d) eqn:Hd; try discriminate.
    intros [= <-]. cbn [substring allDigits]. now rewrite Hs0, Ha, Hb, Hc, Hd. }
  destruct tok; cbn [tokenAt]; trivial; now destruct r.
Qed.

Lemma stepAt_upper (r : Release) (c : Config) (tok : Token) :
  isSeparator tok -> stepAt r (upperInput c) tok = upperInput (stepAt r c tok).
Proof.
  intros Hsep. unfold stepAt. cbn [input upperInput a_year a_month a_date
    parsedLength unusedTokens empty invalidMonth].
  rewrite tokenAt_upper by assumption.
  pose proof (tokenAt_digits r tok (input c)) as Hdig.
  destruct (tokenAt r tok (input c)) as [len|]; [|reflexivity].
  specialize (Hdig len eq_refl).
  rewrite upper_substring, upper_drop.
  destruct tok; unfold addTimeToArray;
    try (rewrite (upper_digits _ Hdig); reflexivity);
    try reflexivity;
    unfold monthsParse;
    match goal with |- context [findName ?names (upper ?w) 0] =>
      rewrite (findName_upper names (upper w) w) by apply upper_upper;
      destruct (findName names w 0); reflexivity end.
Qed.

Lemma stepsAt_upper (r : Release) (f : list Token) (c : Config) :
  Forall isSeparator f ->
  fold_left (stepAt r) f (upperInput c)
  = upperInput (fold_left (stepAt r) f c).
Proof.
  intros Hf. revert c. induction Hf as [|tok f Htok _ IH]; intros c;
    cbn [fold_left]; [reflexivity|].
  now rewrite stepAt_upper, IH.
Qed.

Lemma parseFormat_upper (r : Release) (s : string) (f : list Token) :
  Forall isSeparator f -> parseFormat r (upper s) f = parseFormat r s f.
Proof.
  intros Hf. unfold parseFormat. rewrite !steps_in_place by (simpl; lia).
  change (initial (upper s)) with (upperInput (initial s)).
  rewrite stepsAt_upper by assumption.
  unfold finish, upperInput. cbn [a_year a_month a_date parsedLength
    unusedTokens empty invalidMonth]. now rewrite length_upper.
Qed.

Lemma parseFormats_upper (r : Release) (s : string) (fs : list (list Token)) :
  Forall (Forall isSeparator) fs ->
  parseFormats r (upper s) fs = parseFormats r s fs.
Proof.
  intros Hfs. induction Hfs as [|f fs Hf _ IH]; cbn [parseFormats];
    [reflexivity|].
  now rewrite parseFormat_upper, IH.
Qed.

Lemma formats_separators :
  Forall (Forall isSeparator) formats /\
  Forall (Forall isSeparator) [fmt_MMMM_YYYY; fmt_MMM_YYYY].
Proof.
  unfold formats, fmt_MMMM_YYYY, fmt_MMM_YYYY, fmt_MM_YYYY, fmt_M_YYYY,
    fmt_MM_DD_YYYY, fmt_M_D_YYYY.
  split; repeat (apply Forall_cons || apply Forall_nil);
    cbn [isSeparator]; auto.
Qed.

Lemma dateQuery_upper (r : Release) (y : Z) (s : string) :
  dateQuery r y (upper s) = dateQuery r y s.
Proof.
  destruct formats_separators as [Hsix Htwo]. unfold dateQuery.
  rewrite parseFormats_upper by assumption.
  replace (upper s ++ " " ++ showInt y) with (upper (s ++ " " ++ showInt y)).
  - now rewrite parseFormats_upper.
  - rewrite !upper_app. do 2 f_equal.
    assert (Hn : noneOf (fun c => negb (Ascii.eqb (upperChar c) c)) (showInt y)
                 = true)
      by (apply showInt_noneOf; reflexivity).
    induction (showInt y) as [|c t IH]; cbn [upper noneOf] in *;
      [reflexivity|].
    apply andb_prop in Hn as [Hc Ht]. rewrite (IH Ht). f_equal.
    rewrite negb_involutive in Hc. now apply Ascii.eqb_eq in Hc.
Qed.

Lemma classify_upper (r : Release) (y : Z) (s : string) :
  classify r y (upper s) = classify r y s.
Proof.
  unfold classify. rewrite trim_upper, toLowerCase_upper.
  destruct (numeric_upper (trim s)) as [-> ->].
  now rewrite dateQuery_upper.
Qed.

(** X13. The case of ASCII letters never matters: two messages that differ
    only in the case of their letters have the same intent, whatever the
    reference year; the keyword, the month names and their short forms
    are taken in any mixture of upper and lower case. *)
Theorem letter_case_never_matters (r : Release) (y : Z) (s t : string) :
  sameIgnoringCase s t = true -> classify r y s = classify r y t.
Proof.
  unfold sameIgnoringCase. intros H. apply String.eqb_eq in H.
  rewrite <- (classify_upper r y s), <- (classify_upper r y t).
  now rewrite H.
Qed.

Lemma letter_case_never_matters_witness :
  classify From_2_30 2024 "mARch 2023" = classify From_2_30 2024 "March 2023".
Proof.
  exact (letter_case_never_matters From_2_30 2024 "mARch 2023" "March 2023"
           eq_refl).
Defined.

(** ** The order of the formats *)

(** A format that ends in a valid date has matched its first token, and
    no month name was rejected. *)
Lemma stepAt_accepts (r : Release) (s : string) (tok : Token)
  (f : list Token) (c : Config) (q : Parsed) :
  finish s (fold_left (stepAt r) (tok :: f) c) = Some q ->
  exists len,
    tokenAt r tok (input c) = Some len /\
    stepAt r c tok
    = addTimeToArray tok (substring 0 len (input c)) (consumed c tok len) /\
    invalidMonth (stepAt r c tok) = false /\
    finish s (fold_left (stepAt r) f (stepAt r c tok)) = Some q.
Proof.
  cbn [fold_left]. intros H.
  destruct (tokenAt r tok (input c)) as [len|] eqn:Hat.
  - exists len. split; [reflexivity|].
    split; [unfold stepAt, consumed; now rewrite Hat|].
    split; [|exact H].
    destruct (invalidMonth (stepAt r c tok)) eqn:Hm; [|reflexivity].
    rewrite stepsAt_rejected in H by now right. discriminate H.
  - rewrite stepsAt_rejected in H; [discriminate H|].
    left. unfold stepAt. rewrite Hat. simpl. lia.
Qed.

Lemma tokenAt_sameClass (r : Release) (a b : Token) (s : string)
  (la lb : nat) :
  sameClass a b -> tokenAt r a s = Some la -> tokenAt r b s = Some lb ->
  la = lb.
Proof.
  destruct a, b; cbn [sameClass]; try contradiction; intros Hc;
    cbn [tokenAt]; try congruence;
    try (subst; congruence);
    destruct r; try congruence;
    unfold match2, match1to2, match1to2NoLeadingZero;
    destruct s as [|x [|y rest]]; try discriminate;
    destruct (isDigit x), (isDigit y), (between 49 57 x); cbn [andb];
    congruence.
Qed.

Lemma names_agree_checked :
  forallb (fun i =>
     forallb (fun j =>
        implb (String.eqb (upper (nth i months EmptyString))
                          (upper (nth j monthsShort EmptyString)))
              (Nat.eqb i j))
       (seq 0 12))
    (seq 0 12) = true.
Proof. vm_compute. reflexivity. Qed.

(** A word that is both the full name of a month and the short name of a
    month names the same month twice (May). *)
Lemma names_agree (w : string) (i j : Z) :
  findName months w 0 = Some i -> findName monthsShort w 0 = Some j -> i = j.
Proof.
  intros Hi Hj.
  apply findName_sound in Hi as (Hi0 & n1 & Hn1 & Ht1).
  apply findName_sound in Hj as (Hj0 & n2 & Hn2 & Ht2).
  rewrite Z.sub_0_r in Hn1, Hn2. unfold nameTest in Ht1, Ht2.
  apply String.eqb_eq in Ht1, Ht2.
  assert (Hlt1 : (Z.to_nat i < 12)%nat)
    by (change 12%nat with (List.length months); apply nth_error_Some;
        congruence).
  assert (Hlt2 : (Z.to_nat j < 12)%nat)
    by (change 12%nat with (List.length monthsShort); apply nth_error_Some;
        congruence).
  pose proof names_agree_checked as Hall.
  rewrite forallb_forall in Hall.
  specialize (Hall (Z.to_nat i) ltac:(apply in_seq; lia)).
  rewrite forallb_forall in Hall.
  specialize (Hall (Z.to_nat j) ltac:(apply in_seq; lia)).
  rewrite (nth_error_nth _ _ _ Hn1), (nth_error_nth _ _ _ Hn2) in Hall.
  rewrite <- Ht1, <- Ht2, String.eqb_refl in Hall. cbn [implb] in Hall.
  apply Nat.eqb_eq in Hall. lia.
Qed.

Lemma addTimeToArray_sameClass (a b : Token) (w : string) (c c' : Config) :
  sameClass a b ->
  a_year c = a_year c' -> a_month c = a_month c' -> a_date c = a_date c' ->
  input c = input c' -> parsedLength c = parsedLength c' ->
  unusedTokens c = unusedTokens c' -> empty c = empty c' ->
  invalidMonth c = invalidMonth c' ->
  invalidMonth (addTimeToArray a w c) = false ->
  invalidMonth (addTimeToArray b w c') = false ->
  addTimeToArray a w c = addTimeToArray b w c'.
Proof.
  intros Hc Hy Hm Hd Hin Hp Hu He Hi.
  destruct c as [y m d inp pl un em im], c' as [y' m' d' inp' pl' un' em' im'].
  cbn [a_year a_month a_date input parsedLength unusedTokens empty
       invalidMonth] in *. subst y' m' d' inp' pl' un' em' im'.
  destruct a, b; cbn [sameClass] in Hc; try contradiction;
    unfold addTimeToArray, monthsParse;
    cbn [a_year a_month a_date input parsedLength unusedTokens empty
         invalidMonth];
    try reflexivity;
    try (destruct (findName months w 0) as [i|] eqn:Hfull;
         destruct (findName monthsShort w 0) as [j|] eqn:Hshort;
         cbn [invalidMonth]; try discriminate; intros _ _;
         try reflexivity;
         (rewrite (names_agree w i j Hfull Hshort)
          || rewrite (names_agree w j i Hshort Hfull)); reflexivity).
Qed.

(** Two formats whose first tokens are of the same class, one by one,
    when both end in a valid date, have gone through the same states. *)
Lemma prefix_agree (r : Release) (s : string) (pre pre' : list Token) :
  Forall2 sameClass pre pre' ->
  forall (f g : list Token) (c : Config) (p q : Parsed),
    finish s (fold_left (stepAt r) (pre ++ f) c) = Some p ->
    finish s (fold_left (stepAt r) (pre' ++ g) c) = Some q ->
    fold_left (stepAt r) pre c = fold_left (stepAt r) pre' c.
Proof.
  induction 1 as [|a b pre pre' Hab _ IH]; intros f g c p q Hp Hq;
    [reflexivity|].
  cbn [app] in Hp, Hq.
  destruct (stepAt_accepts r s a (pre ++ f) c p Hp)
    as (la & Hla & Hsa & Hia & Hp').
  destruct (stepAt_accepts r s b (pre' ++ g) c q Hq)
    as (lb & Hlb & Hsb & Hib & Hq').
  assert (la = lb) as <- by exact (tokenAt_sameClass r a b _ _ _ Hab Hla Hlb).
  assert (Hsame : stepAt r c a = stepAt r c b).
  { rewrite Hsa, Hsb. rewrite Hsa in Hia. rewrite Hsb in Hib.
    apply addTimeToArray_sameClass; trivial.
    unfold consumed. cbn [empty]. f_equal.
    destruct a, b; cbn [sameClass] in Hab; try contradiction; reflexivity. }
  cbn [fold_left]. rewrite Hsame in Hp' |- *.
  exact (IH f g (stepAt r c b) p q Hp' Hq').
Qed.

Lemma alike_agree (r : Release) (s : string) (f g : list Token)
  (p q : Parsed) :
  Forall2 sameClass f g ->
  parseFormat r s f = Some p -> parseFormat r s g = Some q -> p = q.
Proof.
  intros Hfg. unfold parseFormat. rewrite !steps_in_place by (simpl; lia).
  intros Hp Hq.
  pose proof (prefix_agree r s f g Hfg [] [] (initial s) p q) as H.
  rewrite !app_nil_r in H. specialize (H Hp Hq).
  rewrite H in Hp. congruence.
Qed.

(** A numeric token matches at a digit only. *)
Lemma tokenAt_starts_with_digit (r : Release) (tok : Token) (s : string)
  (len : nat) :
  tokenAt r tok s = Some len ->
  match tok with
  | MMMM | MMM | Lit _ => True
  | _ => exists a rest, s = String a rest /\ isDigit a = true
  end.
Proof.
  intros Hat. pose proof (tokenAt_digits r tok s len Hat) as Hd.
  destruct tok; trivial;
    (destruct s as [|a rest];
     [destruct r; cbn in Hat; discriminate Hat|];
     destruct len as [|len];
     [destruct r; cbn [tokenAt] in Hat;
      unfold match2, match1to2, match1to2NoLeadingZero, match4 in Hat;
      repeat match type of Hat with
        | context [match ?x with _ => _ end] => destruct x
        end; discriminate Hat|];
     cbn [substring allDigits] in Hd; apply andb_prop in Hd as [Ha _];
     now exists a, rest).
Qed.

Lemma month_names_are_letters :
  forallb (fun name => allLetters name && negb (isEmpty name))
    (months ++ monthsShort) = true.
Proof. reflexivity. Qed.

(** A month-name format and a format that starts with a number never
    both accept the same text. *)
Lemma name_excludes_number (r : Release) (s : string) (tok num : Token)
  (g : list Token) (p q : Parsed) :
  isMonthName tok -> num = MM \/ num = Moment.M ->
  parseFormat r s [tok; Lit " "; YYYY] = Some p ->
  parseFormat r s (num :: g) = Some q -> False.
Proof.
  intros Htok Hnum Hp Hq.
  apply name_format_accepts in Hp as (w & yyyy & -> & _ & Hm & _);
    [|exact Htok].
  assert (Hw : exists name, In name (months ++ monthsShort)
                            /\ upper w = upper name).
  { destruct Htok as [-> | ->]; cbn [monthsParse] in Hm;
      apply findName_sound in Hm as (_ & name & Hnth & Ht);
      apply nth_error_In in Hnth; unfold nameTest in Ht;
      apply String.eqb_eq in Ht; exists name; split; trivial;
      apply in_or_app; auto. }
  destruct Hw as (name & Hin & Hup).
  pose proof month_names_are_letters as Hall.
  rewrite forallb_forall in Hall. specialize (Hall name Hin).
  apply andb_prop in Hall as [Hlet Hne].
  pose proof (upper_allLetters w name Hup Hlet) as Hwl.
  pose proof (upper_length w name Hup) as Hlen.
  destruct w as [|a w]; [destruct name; discriminate|].
  cbn [allLetters] in Hwl. apply andb_prop in Hwl as [Ha _].
  apply letter_upper in Ha as (Hnd & _).
  unfold parseFormat in Hq. rewrite steps_in_place in Hq by (simpl; lia).
  apply stepAt_accepts in Hq as (len & Hat & _).
  apply tokenAt_starts_with_digit in Hat.
  destruct Hnum as [-> | ->]; destruct Hat as (a' & rest & [= <- _] & Hd);
    congruence.
Qed.

(** A month-and-year format and a month-day-and-year format never both
    accept the same text. *)
Lemma short_excludes_long (r : Release) (s : string) (m m' d : Token)
  (p q : Parsed) :
  sameClass MM m -> sameClass MM m' -> sameClass DD d ->
  parseFormat r s [m; Lit "/"; YYYY] = Some p ->
  parseFormat r s [m'; Lit "/"; d; Lit "/"; YYYY] = Some q -> False.
Proof.
  intros Hm Hm' Hd. unfold parseFormat.
  rewrite !steps_in_place by (simpl; lia). intros Hp Hq.
  assert (Hpre : Forall2 sameClass [m; Lit "/"] [m'; Lit "/"]).
  { repeat constructor.
    destruct m, m'; cbn [sameClass] in *; trivial; contradiction. }
  pose proof (prefix_agree r s _ _ Hpre [YYYY] [d; Lit "/"; YYYY]
                (initial s) p q Hp Hq) as Hsame.
  change [m; Lit "/"; YYYY] with ([m; Lit "/"] ++ [YYYY])%list in Hp.
  change [m'; Lit "/"; d; Lit "/"; YYYY]
    with ([m'; Lit "/"] ++ [d; Lit "/"; YYYY])%list in Hq.
  rewrite fold_left_app in Hp, Hq. rewrite <- Hsame in Hq.
  set (c2 := fold_left (stepAt r) [m; Lit "/"] (initial s)) in *.
  apply stepAt_accepts in Hp as (l4 & H4 & _).
  apply stepAt_accepts in Hq as (ld & Hld & Hsd & _ & Hq).
  apply stepAt_accepts in Hq as (l1 & Hl1 & _).
  cbn [tokenAt] in H4. unfold match4 in H4.
  destruct (input c2) as [|x1 [|x2 [|x3 [|x4 rest]]]] eqn:Hin;
    try discriminate H4.
  destruct (isDigit x1) eqn:H1, (isDigit x2) eqn:H2, (isDigit x3) eqn:H3;
    try discriminate H4.
  assert (ld = 2%nat) as ->.
  { destruct d; cbn [sameClass] in Hd; try contradiction;
      destruct r; cbn [tokenAt] in Hld;
      unfold match2, match1to2, match1to2NoLeadingZero in Hld;
      rewrite ?H1, ?H2 in Hld; cbn [andb] in Hld;
      try destruct (between 49 57 x1); congruence. }
  rewrite Hsd in Hl1.
  destruct (addTimeToArray_keeps d
              (substring 0 2 (String x1 (String x2 (String x3 (String x4 rest)))))
              (consumed c2 d 2)) as (Hi & _).
  rewrite Hi in Hl1. unfold consumed in Hl1. cbn [input] in Hl1.
  rewrite Hin in Hl1. cbn [drop tokenAt matchLit] in Hl1.
  apply digit_is_not in H3 as (_ & Hsl & _). unfold isChar in Hsl.
  rewrite Hsl in Hl1. discriminate Hl1.
Qed.

Lemma parseFormats_some (r : Release) (s : string) (fs : list (list Token))
  (p : Parsed) :
  parseFormats r s fs = Some p ->
  exists f, In f fs /\ parseFormat r s f = Some p.
Proof.
  induction fs as [|f fs IH]; cbn [parseFormats]; [discriminate|].
  destruct (parseFormat r s f) as [p'|] eqn:Hf.
  - intros [= <-]. exists f. split; [now left | exact Hf].
  - intros H. destruct (IH H) as (g & Hg & Hp). exists g. split; [now right|].
    exact Hp.
Qed.

Lemma parseFormats_none (r : Release) (s : string) (fs : list (list Token)) :
  parseFormats r s fs = None ->
  forall f, In f fs -> parseFormat r s f = None.
Proof.
  induction fs as [|f fs IH]; cbn [parseFormats]; intros H g Hg;
    [destruct Hg|].
  destruct (parseFormat r s f) as [p'|] eqn:Hf; [discriminate H|].
  destruct Hg as [<- | Hg]; [exact Hf | now apply IH].
Qed.

Ltac names_first Hp Hq :=
  lazymatch type of Hp with
  | parseFormat ?r ?s [?tok; Lit " "; YYYY] = Some ?p =>
      lazymatch type of Hq with
      | parseFormat _ _ (?num :: ?g) = Some ?q =>
          exfalso;
          apply (name_excludes_number r s tok num g p q);
          [unfold isMonthName; auto | auto | exact Hp | exact Hq]
      end
  end.

Ltac short_first Hp Hq :=
  lazymatch type of Hp with
  | parseFormat ?r ?s [?m; Lit "/"; YYYY] = Some ?p =>
      lazymatch type of Hq with
      | parseFormat _ _ [?m'; Lit "/"; ?d; Lit "/"; YYYY] = Some ?q =>
          exfalso;
          apply (short_excludes_long r s m m' d p q);
          [exact I | exact I | exact I | exact Hp | exact Hq]
      end
  end.

Ltac same_shape Hp Hq :=
  lazymatch type of Hp with
  | parseFormat ?r ?s ?f = Some ?p =>
      lazymatch type of Hq with
      | parseFormat _ _ ?g = Some ?q =>
          apply (alike_agree r s f g p q);
          [repeat constructor | exact Hp | exact Hq]
      end
  end.

(** Any two of the six formats that accept a text read the same date. *)
Lemma formats_agree (r : Release) (s : string) (f g : list Token)
  (p q : Parsed) :
  In f formats -> In g formats ->
  parseFormat r s f = Some p -> parseFormat r s g = Some q -> p = q.
Proof.
  unfold formats, fmt_MMMM_YYYY, fmt_MMM_YYYY, fmt_MM_YYYY, fmt_M_YYYY,
    fmt_MM_DD_YYYY, fmt_M_D_YYYY.
  intros Hf Hg Hp Hq. cbn [In] in Hf, Hg.
  repeat destruct Hf as [<- | Hf]; try destruct Hf;
    repeat destruct Hg as [<- | Hg]; try destruct Hg;
    solve [ same_shape Hp Hq | names_first Hp Hq | names_first Hq Hp
          | short_first Hp Hq | short_first Hq Hp ].
Qed.

(** X14. The order of the six formats does not matter.  The date that the
    handler reads from a message with the list of formats is a date that
    one of the formats reads on its own, and conversely whatever any one
    of the six formats reads is what the handler reads: no message is
    read differently by two of them, so no priority among them is ever
    exercised. *)
Theorem format_order_is_immaterial (r : Release) (s : string) (p : Parsed) :
  parseFormats r s formats = Some p <->
  exists f, In f formats /\ parseFormat r s f = Some p.
Proof.
  split; [apply parseFormats_some|].
  intros (f & Hf & Hp).
  destruct (parseFormats r s formats) as [q|] eqn:Hq.
  - apply parseFormats_some in Hq as (g & Hg & Hq).
    now rewrite (formats_agree r s f g p q Hf Hg Hp Hq).
  - rewrite (parseFormats_none r s formats Hq f Hf) in Hp. discriminate Hp.
Qed.

(** ** Dates written in digits *)

Lemma fold_stepAt_cons (r : Release) (tok : Token) (f : list Token)
  (c : Config) :
  fold_left (stepAt r) (tok :: f) c = fold_left (stepAt r) f (stepAt r c tok).
Proof. reflexivity. Qed.

Lemma stepAt_matched (r : Release) (c : Config) (tok : Token) (len : nat) :
  tokenAt r tok (input c) = Some len ->
  stepAt r c tok
  = addTimeToArray tok (substring 0 len (input c)) (consumed c tok len).
Proof. intros H. unfold stepAt, consumed. now rewrite H. Qed.

Lemma stepAt_unmatched (r : Release) (s : string) (tok : Token)
  (f : list Token) (c : Config) :
  tokenAt r tok (input c) = None ->
  finish s (fold_left (stepAt r) (tok :: f) c) = None.
Proof.
  intros H. cbn [fold_left]. apply stepsAt_rejected. left.
  unfold stepAt. rewrite H. simpl. lia.
Qed.

(** One token matched in place on a text that is written out: the state
    after it. *)
Ltac matched n :=
  rewrite fold_stepAt_cons;
  rewrite (stepAt_matched _ _ _ n);
  [ unfold consumed;
    cbn [addTimeToArray substring drop input a_year a_month a_date
         parsedLength unusedTokens empty invalidMonth isLit andb initial
         Nat.add]
  | cbn [input initial tokenAt];
    unfold match2, match1to2, match1to2NoLeadingZero, match4, matchLit ].

Ltac unmatched :=
  apply stepAt_unmatched; cbn [input initial tokenAt];
  unfold match2, match1to2, match1to2NoLeadingZero, match4, matchLit.

Lemma keyword_has_five_letters (s : string) :
  String.length s <> 5%nat -> String.eqb (toLowerCase s) "total" = false.
Proof.
  intros H. destruct (String.eqb (toLowerCase s) "total") eqn:Hk; trivial.
  apply String.eqb_eq, lower_total_spells in Hk.
  destruct Hk as (c1 & c2 & c3 & c4 & c5 & -> & _). now elim H.
Qed.

(** A text made of digits and slashes that starts with a digit and has a
    slash: it is neither the keyword nor a number, no month-name format
    reads it, and the retry with the reference year fails. *)
Lemma digits_and_slashes (r : Release) (y : Z) (ds rest : string) :
  allDigits ds = true -> ds <> EmptyString ->
  noneOf isWordChar rest = true -> noneOf isWhiteSpace rest = true ->
  let text := ds ++ String "/" rest in
  trim text = text /\
  numberRegex_test text = false /\
  parseFormat r text fmt_MMMM_YYYY = None /\
  parseFormat r text fmt_MMM_YYYY = None /\
  parseFormats r (text ++ " " ++ showInt y) [fmt_MMMM_YYYY; fmt_MMM_YYYY]
  = None.
Proof.
  intros Hds Hne Hword Hws text.
  assert (Hw : noneOf isWordChar text = true).
  { subst text. rewrite noneOf_app. cbn [noneOf]. rewrite Hword.
    rewrite (allDigits_noneOf isWordChar ds); trivial.
    intros c Hc. now apply digit_is_not in Hc. }
  split.
  { apply trim_id. subst text. rewrite noneOf_app. cbn [noneOf]. rewrite Hws.
    rewrite (allDigits_noneOf isWhiteSpace ds); trivial.
    intros c Hc. now apply digit_not_space. }
  split.
  { subst text. unfold numberRegex_test.
    rewrite spanDigits_app by (trivial || reflexivity).
    destruct ds; [now elim Hne | reflexivity]. }
  split; [apply no_word_char; [now left | exact Hw]|].
  split; [apply no_word_char; [now right | exact Hw]|].
  assert (Hw' : noneOf isWordChar (text ++ " " ++ showInt y) = true).
  { rewrite !noneOf_app, Hw. cbn [noneOf andb].
    now rewrite showInt_noneOf. }
  unfold parseFormats, fmt_MMMM_YYYY, fmt_MMM_YYYY.
  rewrite !no_word_char; trivial; [now right | now left].
Qed.

Ltac digit_facts :=
  repeat match goal with
    | H : isDigit ?c = true |- _ =>
        lazymatch goal with
        | _ : Ascii.eqb c "/" = false |- _ => fail
        | _ =>
            let Hs := fresh "Hslash" in
            assert (Hs : Ascii.eqb c "/" = false)
              by (now apply digit_is_not in H)
        end
    end.

(** Two digits, a slash and four digits. *)
Lemma month_and_year_two_digits (r : Release) (y0 : Z) (mm yyyy : string) :
  allDigits mm = true -> String.length mm = 2%nat ->
  allDigits yyyy = true -> String.length yyyy = 4%nat ->
  classify r y0 (mm ++ "/" ++ yyyy)
  = if (1 <=? digitsValue mm) && (digitsValue mm <=? 12)
    then MonthQuery (digitsValue yyyy) (digitsValue mm - 1)
    else Invalid.
Proof.
  intros Hm Hlm Hy Hly.
  destruct (digits_and_slashes r y0 mm yyyy) as (Htrim & Hnum & Hf1 & Hf2 & Hretry);
    trivial.
  { destruct mm; [discriminate Hlm | discriminate]. }
  { apply allDigits_noneOf; trivial. intros c Hc. now apply digit_is_not in Hc. }
  { apply allDigits_noneOf; trivial. intros c Hc. now apply digit_not_space. }
  change (mm ++ String "/" yyyy) with (mm ++ "/" ++ yyyy) in *.
  set (text := mm ++ "/" ++ yyyy) in *.
  assert (Hk : String.eqb (toLowerCase text) "total" = false).
  { apply keyword_has_five_letters. subst text.
    rewrite !string_length_app, Hlm, Hly. simpl. lia. }
  unfold classify, dateQuery. rewrite Htrim, Hk, Hnum, Hretry.
  unfold formats. cbn [parseFormats]. rewrite Hf1, Hf2.
  clear Htrim Hk Hnum Hf1 Hf2 Hretry.
  destruct mm as [|m1 [|m2 [|]]]; try discriminate Hlm.
  destruct yyyy as [|y1 [|y2 [|y3 [|y4 [|]]]]]; try discriminate Hly.
  cbn [allDigits] in Hm, Hy.
  apply andb_prop in Hm as [Hm1 Hm]. apply andb_prop in Hm as [Hm2 _].
  apply andb_prop in Hy as [Hy1 Hy]. apply andb_prop in Hy as [Hy2 Hy].
  apply andb_prop in Hy as [Hy3 Hy]. apply andb_prop in Hy as [Hy4 _].
  digit_facts.
  subst text. cbn [append].
  set (mv := digitsValue (String m1 (String m2 EmptyString))).
  set (yv := digitsValue (String y1 (String y2 (String y3 (String y4 EmptyString))))).
  assert (Hf3 : parseFormat r (String m1 (String m2 (String "/" (String y1
                 (String y2 (String y3 (String y4 EmptyString)))))))
                 fmt_MM_YYYY
               = if (1 <=? mv) && (mv <=? 12)
                 then Some (mkParsed yv (mv - 1) 1) else None).
  { unfold parseFormat. rewrite steps_in_place by (simpl; lia).
    unfold fmt_MM_YYYY.
    matched 2%nat; [|now rewrite Hm1, Hm2].
    matched 1%nat; [|reflexivity].
    matched 4%nat; [|now rewrite Hy1, Hy2, Hy3, Hy4].
    cbn [fold_left]. unfold finish.
    cbn [a_year a_month a_date parsedLength unusedTokens empty invalidMonth
         negb andb String.length Nat.eqb].
    fold mv yv.
    pose proof (daysInMonth_pos yv (mv - 1)) as Hd.
    apply Z.leb_le in Hd. rewrite Hd, andb_true_r.
    change (1 <=? 1) with true. rewrite andb_true_r.
    replace (0 <=? mv - 1) with (1 <=? mv)
      by (destruct (Z.leb_spec 1 mv), (Z.leb_spec 0 (mv - 1)); lia).
    replace (mv - 1 <=? 11) with (mv <=? 12)
      by (destruct (Z.leb_spec mv 12), (Z.leb_spec (mv - 1) 11); lia).
    reflexivity. }
  assert (Hf4 : parseFormat r (String m1 (String m2 (String "/" (String y1
                 (String y2 (String y3 (String y4 EmptyString)))))))
                 fmt_M_YYYY
               = None \/
               parseFormat r (String m1 (String m2 (String "/" (String y1
                 (String y2 (String y3 (String y4 EmptyString)))))))
                 fmt_M_YYYY
               = if (1 <=? mv) && (mv <=? 12)
                 then Some (mkParsed yv (mv - 1) 1) else None).
  { rewrite <- Hf3. unfold parseFormat.
    rewrite !steps_in_place by (simpl; lia). unfold fmt_M_YYYY, fmt_MM_YYYY.
    destruct (tokenAt r Moment.M (String m1 (String m2 (String "/" (String y1
                 (String y2 (String y3 (String y4 EmptyString))))))))
      as [len|] eqn:Hat; [right | left; now apply stepAt_unmatched].
    assert (len = 2%nat) as ->.
    { destruct r; cbn [tokenAt] in Hat;
        unfold match1to2, match1to2NoLeadingZero in Hat;
        rewrite ?Hm1, ?Hm2 in Hat;
        try destruct (between 49 57 m1); congruence. }
    rewrite !fold_stepAt_cons.
    rewrite (stepAt_matched r _ Moment.M 2) by exact Hat.
    rewrite (stepAt_matched r _ MM 2)
      by (cbn [input initial tokenAt]; unfold match2; now rewrite Hm1, Hm2).
    reflexivity. }
  assert (Hf5 : parseFormat r (String m1 (String m2 (String "/" (String y1
                 (String y2 (String y3 (String y4 EmptyString)))))))
                 fmt_MM_DD_YYYY = None).
  { unfold parseFormat. rewrite steps_in_place by (simpl; lia).
    unfold fmt_MM_DD_YYYY.
    matched 2%nat; [|now rewrite Hm1, Hm2].
    matched 1%nat; [|reflexivity].
    matched 2%nat; [|now rewrite Hy1, Hy2].
    unmatched. now rewrite Hslash0. }
  assert (Hf6 : parseFormat r (String m1 (String m2 (String "/" (String y1
                 (String y2 (String y3 (String y4 EmptyString)))))))
                 fmt_M_D_YYYY = None).
  { unfold parseFormat. rewrite steps_in_place by (simpl; lia).
    unfold fmt_M_D_YYYY.
    destruct (tokenAt r Moment.M (String m1 (String m2 (String "/" (String y1
                 (String y2 (String y3 (String y4 EmptyString))))))))
      as [len|] eqn:Hat; [|now apply stepAt_unmatched].
    assert (len = 2%nat) as ->.
    { destruct r; cbn [tokenAt] in Hat;
        unfold match1to2, match1to2NoLeadingZero in Hat;
        rewrite ?Hm1, ?Hm2 in Hat;
        try destruct (between 49 57 m1); congruence. }
    rewrite fold_stepAt_cons, (stepAt_matched r _ Moment.M 2) by exact Hat.
    unfold consumed.
    cbn [addTimeToArray substring drop input a_year a_month a_date
         parsedLength unusedTokens empty invalidMonth isLit andb initial
         Nat.add].
    matched 1%nat; [|reflexivity].
    destruct (tokenAt r Moment.D (String y1 (String y2 (String y3 (String y4
                 EmptyString))))) as [len|] eqn:Hd;
      [|now apply stepAt_unmatched].
    assert (len = 2%nat) as ->.
    { destruct r; cbn [tokenAt] in Hd;
        unfold match1to2, match1to2NoLeadingZero in Hd;
        rewrite ?Hy1, ?Hy2 in Hd;
        try destruct (between 49 57 y1); congruence. }
    rewrite fold_stepAt_cons, (stepAt_matched r _ Moment.D 2) by exact Hd.
    unfold consumed.
    cbn [addTimeToArray substring drop input a_year a_month a_date
         parsedLength unusedTokens empty invalidMonth isLit andb initial
         Nat.add].
    unmatched. now rewrite Hslash0. }
  rewrite Hf3, Hf5, Hf6.
  destruct ((1 <=? mv) && (mv <=? 12)); [reflexivity|].
  destruct Hf4 as [-> | ->]; reflexivity.
Qed.



Lemma short_token_two (r : Release) (tok : Token) (a b : ascii)
  (rest : string) (len : nat) :
  tok = Moment.M \/ tok = Moment.D ->
  isDigit a = true -> isDigit b = true ->
  tokenAt r tok (String a (String b rest)) = Some len -> len = 2%nat.
Proof.
  intros Htok Ha Hb.
  destruct Htok as [-> | ->]; destruct r; cbn [tokenAt];
    unfold match1to2, match1to2NoLeadingZero; rewrite ?Ha, ?Hb;
    try destruct (between 49 57 a); congruence.
Qed.

(** Two digits, a slash, two digits, a slash and four digits. *)
Lemma full_date_two_digits (r : Release) (y0 : Z) (mm dd yyyy : string) :
  allDigits mm = true -> String.length mm = 2%nat ->
  allDigits dd = true -> String.length dd = 2%nat ->
  allDigits yyyy = true -> String.length yyyy = 4%nat ->
  classify r y0 (mm ++ "/" ++ dd ++ "/" ++ yyyy)
  = if (1 <=? digitsValue mm) && (digitsValue mm <=? 12)
       && (1 <=? digitsValue dd)
       && (digitsValue dd <=? daysInMonth (digitsValue yyyy)
                                          (digitsValue mm - 1))
    then MonthQuery (digitsValue yyyy) (digitsValue mm - 1)
    else Invalid.
Proof.
  intros Hm Hlm Hd Hld Hy Hly.
  assert (Hnone : forall p, (forall c, isDigit c = true -> p c = false) ->
                            p "/"%char = false ->
                            noneOf p (dd ++ "/" ++ yyyy) = true).
  { intros p Hp Hs. rewrite noneOf_app. cbn [append noneOf]. rewrite Hs.
    now rewrite !(allDigits_noneOf p). }
  destruct (digits_and_slashes r y0 mm (dd ++ "/" ++ yyyy))
    as (Htrim & Hnum & Hf1 & Hf2 & Hretry); trivial.
  { destruct mm; [discriminate Hlm | discriminate]. }
  { apply Hnone; [|reflexivity]. intros c Hc. now apply digit_is_not in Hc. }
  { apply Hnone; [|reflexivity]. intros c Hc. now apply digit_not_space. }
  clear Hnone.
  change (mm ++ String "/" (dd ++ "/" ++ yyyy))
    with (mm ++ "/" ++ dd ++ "/" ++ yyyy) in *.
  set (text := mm ++ "/" ++ dd ++ "/" ++ yyyy) in *.
  assert (Hk : String.eqb (toLowerCase text) "total" = false).
  { apply keyword_has_five_letters. subst text.
    rewrite !string_length_app, Hlm, Hld, Hly. simpl. lia. }
  unfold classify, dateQuery. rewrite Htrim, Hk, Hnum, Hretry.
  unfold formats. cbn [parseFormats]. rewrite Hf1, Hf2.
  clear Htrim Hk Hnum Hf1 Hf2 Hretry.
  destruct mm as [|m1 [|m2 [|]]]; try discriminate Hlm.
  destruct dd as [|d1 [|d2 [|]]]; try discriminate Hld.
  destruct yyyy as [|y1 [|y2 [|y3 [|y4 [|]]]]]; try discriminate Hly.
  cbn [allDigits] in Hm, Hd, Hy.
  apply andb_prop in Hm as [Hm1 Hm]. apply andb_prop in Hm as [Hm2 _].
  apply andb_prop in Hd as [Hd1 Hd]. apply andb_prop in Hd as [Hd2 _].
  apply andb_prop in Hy as [Hy1 Hy]. apply andb_prop in Hy as [Hy2 Hy].
  apply andb_prop in Hy as [Hy3 Hy]. apply andb_prop in Hy as [Hy4 _].
  subst text. cbn [append].
  set (text := String m1 (String m2 (String "/" (String d1 (String d2
                 (String "/" (String y1 (String y2 (String y3 (String y4
                    EmptyString)))))))))).
  set (mv := digitsValue (String m1 (String m2 EmptyString))).
  set (dv := digitsValue (String d1 (String d2 EmptyString))).
  set (yv := digitsValue (String y1 (String y2 (String y3 (String y4
                              EmptyString))))).
  assert (Hno4 : match4 (String d1 (String d2 (String "/" (String y1 (String y2
                   (String y3 (String y4 EmptyString))))))) = None).
  { unfold match4. rewrite Hd1, Hd2. reflexivity. }
  assert (Hf3 : parseFormat r text fmt_MM_YYYY = None).
  { unfold parseFormat. rewrite steps_in_place by (simpl; lia).
    unfold fmt_MM_YYYY, text.
    matched 2%nat; [|now rewrite Hm1, Hm2].
    matched 1%nat; [|reflexivity].
    apply stepAt_unmatched. exact Hno4. }
  assert (Hf4 : parseFormat r text fmt_M_YYYY = None).
  { unfold parseFormat. rewrite steps_in_place by (simpl; lia).
    unfold fmt_M_YYYY, text.
    destruct (tokenAt r Moment.M (input (initial text))) as [len|] eqn:Hat;
      [|now apply stepAt_unmatched].
    pose proof (short_token_two r Moment.M _ _ _ _ (or_introl eq_refl)
                  Hm1 Hm2 Hat) as ->.
    rewrite fold_stepAt_cons, (stepAt_matched r _ Moment.M 2) by exact Hat.
    unfold consumed, text.
    cbn [addTimeToArray substring drop input a_year a_month a_date
         parsedLength unusedTokens empty invalidMonth isLit andb initial
         Nat.add].
    matched 1%nat; [|reflexivity].
    apply stepAt_unmatched. exact Hno4. }
  set (valid := (1 <=? mv) && (mv <=? 12) && (1 <=? dv)
                && (dv <=? daysInMonth yv (mv - 1))).
  assert (Hfin : finish text
                   (mkConfig (Some yv) (Some (mv - 1)) (Some dv)
                             EmptyString (2 + 1 + 2 + 1 + 4) 0 false false)
                 = if valid then Some (mkParsed yv (mv - 1) dv)
                   else None).
  { unfold finish, valid.
    cbn [a_year a_month a_date parsedLength unusedTokens empty invalidMonth
         negb andb String.length Nat.eqb text Nat.add].
    replace (0 <=? mv - 1) with (1 <=? mv)
      by (destruct (Z.leb_spec 1 mv), (Z.leb_spec 0 (mv - 1)); lia).
    replace (mv - 1 <=? 11) with (mv <=? 12)
      by (destruct (Z.leb_spec mv 12), (Z.leb_spec (mv - 1) 11); lia).
    reflexivity. }
  assert (Hf5 : parseFormat r text fmt_MM_DD_YYYY
                = if valid then Some (mkParsed yv (mv - 1) dv)
                  else None).
  { unfold parseFormat. rewrite steps_in_place by (simpl; lia).
    unfold fmt_MM_DD_YYYY, text.
    matched 2%nat; [|now rewrite Hm1, Hm2].
    matched 1%nat; [|reflexivity].
    matched 2%nat; [|now rewrite Hd1, Hd2].
    matched 1%nat; [|reflexivity].
    matched 4%nat; [|now rewrite Hy1, Hy2, Hy3, Hy4].
    exact Hfin. }
  assert (Hf6 : parseFormat r text fmt_M_D_YYYY = None \/
                parseFormat r text fmt_M_D_YYYY
                = if valid then Some (mkParsed yv (mv - 1) dv)
                  else None).
  { unfold parseFormat. rewrite !steps_in_place by (simpl; lia).
    unfold fmt_M_D_YYYY.
    destruct (tokenAt r Moment.M (input (initial text))) as [len|] eqn:Hat;
      [|left; now apply stepAt_unmatched].
    pose proof (short_token_two r Moment.M _ _ _ _ (or_introl eq_refl)
                  Hm1 Hm2 Hat) as ->.
    rewrite fold_stepAt_cons, (stepAt_matched r _ Moment.M 2) by exact Hat.
    unfold consumed, text.
    cbn [addTimeToArray substring drop input a_year a_month a_date
         parsedLength unusedTokens empty invalidMonth isLit andb initial
         Nat.add].
    matched 1%nat; [|reflexivity].
    match goal with |- context [fold_left _ (Moment.D :: _) ?c] =>
      destruct (tokenAt r Moment.D (input c)) as [len|] eqn:Hdt;
      [|left; now apply stepAt_unmatched]
    end.
    pose proof Hdt as Hdt'. cbn [input] in Hdt'.
    pose proof (short_token_two r Moment.D _ _ _ _ (or_intror eq_refl)
                  Hd1 Hd2 Hdt') as ->.
    right.
    rewrite fold_stepAt_cons, (stepAt_matched r _ Moment.D 2) by exact Hdt.
    unfold consumed.
    cbn [addTimeToArray substring drop input a_year a_month a_date
         parsedLength unusedTokens empty invalidMonth isLit andb initial
         Nat.add].
    matched 1%nat; [|reflexivity].
    matched 4%nat; [|now rewrite Hy1, Hy2, Hy3, Hy4].
    exact Hfin. }
  rewrite Hf3, Hf4, Hf5. fold valid.
  destruct valid; [reflexivity|].
  destruct Hf6 as [-> | ->]; reflexivity.
Qed.



(** The tokens [M] and [D] on one digit followed by something else: they
    take that digit, unless the release rejects it as a leading zero. *)
Lemma short_token_one (r : Release) (tok : Token) (a b : ascii)
  (rest : string) :
  tok = Moment.M \/ tok = Moment.D ->
  isDigit a = true -> isDigit b = false ->
  tokenAt r tok (String a (String b rest)) = Some 1%nat
  \/
  (tokenAt r tok (String a (String b rest)) = None /\
   (1 <=? digitsValue (String a EmptyString)) = false).
Proof.
  intros Htok Ha Hb.
  assert (Hz : between 49 57 a = (1 <=? digitsValue (String a EmptyString))).
  { unfold digitsValue, digitsValueFrom, digitValue, between.
    unfold isDigit, between in Ha. apply andb_prop in Ha as [_ Ha].
    rewrite Ha, andb_true_r.
    destruct (Z.leb_spec 49 (code a)),
      (Z.leb_spec 1 (10 * 0 + (code a - 48))); lia. }
  destruct Htok as [-> | ->]; destruct r; cbn [tokenAt];
    unfold match1to2, match1to2NoLeadingZero; rewrite ?Ha, ?Hb, ?Hz;
    destruct (Z.leb_spec 1 (digitsValue (String a EmptyString))); auto.
Qed.

Lemma one_digit_value (a : ascii) :
  isDigit a = true -> digitsValue (String a EmptyString) <= 9.
Proof.
  intros Ha. apply digitValue_range in Ha.
  unfold digitsValue, digitsValueFrom. lia.
Qed.

Lemma daysInMonth_28 (y m : Z) : 28 <= daysInMonth y m.
Proof.
  unfold daysInMonth. destruct (m =? 1); [destruct (isLeapYear y); lia|].
  pose proof (Z.mod_pos_bound (m mod 7) 2). lia.
Qed.

(** One digit, a slash and four digits. *)
Lemma month_and_year_one_digit (r : Release) (y0 : Z) (m : ascii)
  (yyyy : string) :
  isDigit m = true -> allDigits yyyy = true -> String.length yyyy = 4%nat ->
  classify r y0 (String m (String "/" yyyy))
  = if (1 <=? digitsValue (String m EmptyString))
    then MonthQuery (digitsValue yyyy) (digitsValue (String m EmptyString) - 1)
    else Invalid.
Proof.
  intros Hm Hy Hly.
  destruct (digits_and_slashes r y0 (String m EmptyString) yyyy)
    as (Htrim & Hnum & Hf1 & Hf2 & Hretry); trivial.
  { cbn [allDigits]. now rewrite Hm. }
  { discriminate. }
  { apply allDigits_noneOf; trivial. intros c Hc. now apply digit_is_not in Hc. }
  { apply allDigits_noneOf; trivial. intros c Hc. now apply digit_not_space. }
  change (String m EmptyString ++ String "/" yyyy)
    with (String m (String "/" yyyy)) in *.
  set (text := String m (String "/" yyyy)) in *.
  assert (Hk : String.eqb (toLowerCase text) "total" = false).
  { apply keyword_has_five_letters. subst text. cbn [String.length].
    rewrite Hly. lia. }
  unfold classify, dateQuery. rewrite Htrim, Hk, Hnum, Hretry.
  unfold formats. cbn [parseFormats]. rewrite Hf1, Hf2.
  clear Htrim Hk Hnum Hf1 Hf2 Hretry.
  destruct yyyy as [|y1 [|y2 [|y3 [|y4 [|]]]]]; try discriminate Hly.
  cbn [allDigits] in Hy.
  apply andb_prop in Hy as [Hy1 Hy]. apply andb_prop in Hy as [Hy2 Hy].
  apply andb_prop in Hy as [Hy3 Hy]. apply andb_prop in Hy as [Hy4 _].
  assert (Hs3 : Ascii.eqb y3 "/" = false) by (now apply digit_is_not in Hy3).
  set (mv := digitsValue (String m EmptyString)).
  set (yv := digitsValue (String y1 (String y2 (String y3 (String y4
                            EmptyString))))).
  pose proof (one_digit_value m Hm) as Hm9. fold mv in Hm9.
  assert (Hno2 : match2 text = None)
    by (unfold match2, text; now rewrite Hm).
  assert (Hf3 : parseFormat r text fmt_MM_YYYY = None).
  { unfold parseFormat. rewrite steps_in_place by (simpl; lia).
    apply stepAt_unmatched. exact Hno2. }
  assert (Hf5 : parseFormat r text fmt_MM_DD_YYYY = None).
  { unfold parseFormat. rewrite steps_in_place by (simpl; lia).
    apply stepAt_unmatched. exact Hno2. }
  assert (Hf4 : parseFormat r text fmt_M_YYYY
                = if 1 <=? mv then Some (mkParsed yv (mv - 1) 1) else None).
  { unfold parseFormat. rewrite steps_in_place by (simpl; lia).
    unfold fmt_M_YYYY.
    destruct (short_token_one r Moment.M m "/" (String y1 (String y2
                (String y3 (String y4 EmptyString)))) (or_introl eq_refl) Hm
                eq_refl) as [Hat | [Hat Hz]].
    2:{ fold mv in Hz. rewrite Hz. now apply stepAt_unmatched. }
    rewrite fold_stepAt_cons, (stepAt_matched r _ Moment.M 1) by exact Hat.
    unfold consumed, text.
    cbn [addTimeToArray substring drop input a_year a_month a_date
         parsedLength unusedTokens empty invalidMonth isLit andb initial
         Nat.add].
    matched 1%nat; [|reflexivity].
    matched 4%nat; [|now rewrite Hy1, Hy2, Hy3, Hy4].
    cbn [fold_left]. unfold finish.
    cbn [a_year a_month a_date parsedLength unusedTokens empty invalidMonth
         negb andb String.length Nat.eqb].
    fold mv yv.
    pose proof (daysInMonth_pos yv (mv - 1)) as Hd.
    apply Z.leb_le in Hd. rewrite Hd, andb_true_r.
    change (1 <=? 1) with true. rewrite andb_true_r.
    replace (mv - 1 <=? 11) with true by (symmetry; apply Z.leb_le; lia).
    rewrite andb_true_r.
    replace (0 <=? mv - 1) with (1 <=? mv)
      by (destruct (Z.leb_spec 1 mv), (Z.leb_spec 0 (mv - 1)); lia).
    reflexivity. }
  assert (Hf6 : parseFormat r text fmt_M_D_YYYY = None).
  { unfold parseFormat. rewrite steps_in_place by (simpl; lia).
    unfold fmt_M_D_YYYY.
    destruct (short_token_one r Moment.M m "/" (String y1 (String y2
                (String y3 (String y4 EmptyString)))) (or_introl eq_refl) Hm
                eq_refl) as [Hat | [Hat Hz]];
      [|now apply stepAt_unmatched].
    rewrite fold_stepAt_cons, (stepAt_matched r _ Moment.M 1) by exact Hat.
    unfold consumed, text.
    cbn [addTimeToArray substring drop input a_year a_month a_date
         parsedLength unusedTokens empty invalidMonth isLit andb initial
         Nat.add].
    matched 1%nat; [|reflexivity].
    match goal with |- context [fold_left _ (Moment.D :: _) ?c] =>
      destruct (tokenAt r Moment.D (input c)) as [len|] eqn:Hdt;
      [|now apply stepAt_unmatched]
    end.
    pose proof Hdt as Hdt'. cbn [input] in Hdt'.
    pose proof (short_token_two r Moment.D _ _ _ _ (or_intror eq_refl)
                  Hy1 Hy2 Hdt') as ->.
    rewrite fold_stepAt_cons, (stepAt_matched r _ Moment.D 2) by exact Hdt.
    unfold consumed.
    cbn [addTimeToArray substring drop input a_year a_month a_date
         parsedLength unusedTokens empty invalidMonth isLit andb initial
         Nat.add].
    unmatched. now rewrite Hs3. }
  rewrite Hf3, Hf4, Hf5, Hf6. now destruct (1 <=? mv).
Qed.

(** One digit, a slash, one digit, a slash and four digits. *)
Lemma full_date_one_digit (r : Release) (y0 : Z) (m d : ascii)
  (yyyy : string) :
  isDigit m = true -> isDigit d = true ->
  allDigits yyyy = true -> String.length yyyy = 4%nat ->
  classify r y0 (String m (String "/" (String d (String "/" yyyy))))
  = if (1 <=? digitsValue (String m EmptyString))
       && (1 <=? digitsValue (String d EmptyString))
    then MonthQuery (digitsValue yyyy) (digitsValue (String m EmptyString) - 1)
    else Invalid.
Proof.
  intros Hm Hd Hy Hly.
  destruct (digits_and_slashes r y0 (String m EmptyString)
              (String d (String "/" yyyy)))
    as (Htrim & Hnum & Hf1 & Hf2 & Hretry); trivial.
  { cbn [allDigits]. now rewrite Hm. }
  { discriminate. }
  { cbn [noneOf]. apply digit_is_not in Hd as (_ & _ & ->).
    apply allDigits_noneOf; trivial. intros c Hc. now apply digit_is_not in Hc. }
  { cbn [noneOf]. rewrite (digit_not_space d Hd).
    apply allDigits_noneOf; trivial. intros c Hc. now apply digit_not_space. }
  change (String m EmptyString ++ String "/" (String d (String "/" yyyy)))
    with (String m (String "/" (String d (String "/" yyyy)))) in *.
  set (text := String m (String "/" (String d (String "/" yyyy)))) in *.
  assert (Hk : String.eqb (toLowerCase text) "total" = false).
  { apply keyword_has_five_letters. subst text. cbn [String.length].
    rewrite Hly. lia. }
  unfold classify, dateQuery. rewrite Htrim, Hk, Hnum, Hretry.
  unfold formats. cbn [parseFormats]. rewrite Hf1, Hf2.
  clear Htrim Hk Hnum Hf1 Hf2 Hretry.
  destruct yyyy as [|y1 [|y2 [|y3 [|y4 [|]]]]]; try discriminate Hly.
  cbn [allDigits] in Hy.
  apply andb_prop in Hy as [Hy1 Hy]. apply andb_prop in Hy as [Hy2 Hy].
  apply andb_prop in Hy as [Hy3 Hy]. apply andb_prop in Hy as [Hy4 _].
  set (mv := digitsValue (String m EmptyString)).
  set (dv := digitsValue (String d EmptyString)).
  set (yv := digitsValue (String y1 (String y2 (String y3 (String y4
                            EmptyString))))).
  pose proof (one_digit_value m Hm) as Hm9. fold mv in Hm9.
  pose proof (one_digit_value d Hd) as Hd9. fold dv in Hd9.
  assert (Hno2 : match2 text = None)
    by (unfold match2, text; now rewrite Hm).
  assert (Hf3 : parseFormat r text fmt_MM_YYYY = None).
  { unfold parseFormat. rewrite steps_in_place by (simpl; lia).
    apply stepAt_unmatched. exact Hno2. }
  assert (Hf5 : parseFormat r text fmt_MM_DD_YYYY = None).
  { unfold parseFormat. rewrite steps_in_place by (simpl; lia).
    apply stepAt_unmatched. exact Hno2. }
  assert (Hf4 : parseFormat r text fmt_M_YYYY = None).
  { unfold parseFormat. rewrite steps_in_place by (simpl; lia).
    unfold fmt_M_YYYY.
    destruct (short_token_one r Moment.M m "/" (String d (String "/"
                (String y1 (String y2 (String y3 (String y4 EmptyString))))))
                (or_introl eq_refl) Hm eq_refl) as [Hat | [Hat Hz]];
      [|now apply stepAt_unmatched].
    rewrite fold_stepAt_cons, (stepAt_matched r _ Moment.M 1) by exact Hat.
    unfold consumed, text.
    cbn [addTimeToArray substring drop input a_year a_month a_date
         parsedLength unusedTokens empty invalidMonth isLit andb initial
         Nat.add].
    matched 1%nat; [|reflexivity].
    unmatched. now rewrite Hd. }
  assert (Hf6 : parseFormat r text fmt_M_D_YYYY
                = if (1 <=? mv) && (1 <=? dv)
                  then Some (mkParsed yv (mv - 1) dv) else None).
  { unfold parseFormat. rewrite steps_in_place by (simpl; lia).
    unfold fmt_M_D_YYYY.
    destruct (short_token_one r Moment.M m "/" (String d (String "/"
                (String y1 (String y2 (String y3 (String y4 EmptyString))))))
                (or_introl eq_refl) Hm eq_refl) as [Hat | [Hat Hz]].
    2:{ fold mv in Hz. rewrite Hz. now apply stepAt_unmatched. }
    rewrite fold_stepAt_cons, (stepAt_matched r _ Moment.M 1) by exact Hat.
    unfold consumed, text.
    cbn [addTimeToArray substring drop input a_year a_month a_date
         parsedLength unusedTokens empty invalidMonth isLit andb initial
         Nat.add].
    matched 1%nat; [|reflexivity].
    destruct (short_token_one r Moment.D d "/" (String y1 (String y2
                (String y3 (String y4 EmptyString)))) (or_intror eq_refl) Hd
                eq_refl) as [Hdt | [Hdt Hz]].
    2:{ fold dv in Hz. rewrite Hz, andb_false_r. now apply stepAt_unmatched. }
    rewrite fold_stepAt_cons, (stepAt_matched r _ Moment.D 1) by exact Hdt.
    unfold consumed.
    cbn [addTimeToArray substring drop input a_year a_month a_date
         parsedLength unusedTokens empty invalidMonth isLit andb initial
         Nat.add].
    matched 1%nat; [|reflexivity].
    matched 4%nat; [|now rewrite Hy1, Hy2, Hy3, Hy4].
    cbn [fold_left]. unfold finish.
    cbn [a_year a_month a_date parsedLength unusedTokens empty invalidMonth
         negb andb String.length Nat.eqb].
    fold mv dv yv.
    pose proof (daysInMonth_28 yv (mv - 1)) as H28.
    replace (dv <=? daysInMonth yv (mv - 1)) with true
      by (symmetry; apply Z.leb_le; lia).
    replace (mv - 1 <=? 11) with true by (symmetry; apply Z.leb_le; lia).
    rewrite !andb_true_r.
    replace (0 <=? mv - 1) with (1 <=? mv)
      by (destruct (Z.leb_spec 1 mv), (Z.leb_spec 0 (mv - 1)); lia).
    reflexivity. }
  rewrite Hf3, Hf4, Hf5, Hf6. now destruct ((1 <=? mv) && (1 <=? dv)).
Qed.

(** X15. A month and a year written in digits.  A message made of one or
    two digits, a slash and four digits is a query for that month of that
    year when the digits before the slash are a month number from 1 to
    12, and is invalid input otherwise (0/2023, 00/2023 and 13/2023 are),
    whatever the release of the parser and the reference year. *)
Theorem month_and_year_in_digits (r : Release) (y0 : Z) (mm yyyy : string) :
  allDigits mm = true ->
  String.length mm = 1%nat \/ String.length mm = 2%nat ->
  allDigits yyyy = true -> String.length yyyy = 4%nat ->
  classify r y0 (mm ++ "/" ++ yyyy)
  = if (1 <=? digitsValue mm) && (digitsValue mm <=? 12)
    then MonthQuery (digitsValue yyyy) (digitsValue mm - 1)
    else Invalid.
Proof.
  intros Hm [Hlm | Hlm] Hy Hly.
  - destruct mm as [|m [|]]; try discriminate Hlm.
    cbn [allDigits] in Hm. apply andb_prop in Hm as [Hm _].
    cbn [append]. rewrite month_and_year_one_digit by assumption.
    pose proof (one_digit_value m Hm) as H9.
    replace (digitsValue (String m EmptyString) <=? 12) with true
      by (symmetry; apply Z.leb_le; lia).
    now rewrite andb_true_r.
  - now apply month_and_year_two_digits.
Qed.

Lemma month_and_year_in_digits_witness :
  classify From_2_30 2024 "13/2023" = Invalid /\
  classify From_2_30 2024 "11/2023" = MonthQuery 2023 10 /\
  classify From_2_30 2024 "0/2023" = Invalid.
Proof.
  split; [|split].
  - exact (month_and_year_in_digits From_2_30 2024 "13" "2023"
             eq_refl (or_intror eq_refl) eq_refl eq_refl).
  - exact (month_and_year_in_digits From_2_30 2024 "11" "2023"
             eq_refl (or_intror eq_refl) eq_refl eq_refl).
  - exact (month_and_year_in_digits From_2_30 2024 "0" "2023"
             eq_refl (or_introl eq_refl) eq_refl eq_refl).
Defined.

(** X16. A full date written in digits.  A message made of a month and a
    day of two digits each, or of one digit each, and a year of four
    digits, with slashes between them, is a query for the month of that
    date when the month number is from 1 to 12 and the day exists in that
    month of that year, leap years included, and is invalid input
    otherwise (02/30/2023 is, and so is 02/29/2023); the day plays no
    other part. *)
Theorem full_date_in_digits (r : Release) (y0 : Z) (mm dd yyyy : string) :
  allDigits mm = true -> allDigits dd = true ->
  (String.length mm = 2%nat /\ String.length dd = 2%nat) \/
  (String.length mm = 1%nat /\ String.length dd = 1%nat) ->
  allDigits yyyy = true -> String.length yyyy = 4%nat ->
  classify r y0 (mm ++ "/" ++ dd ++ "/" ++ yyyy)
  = if (1 <=? digitsValue mm) && (digitsValue mm <=? 12)
       && (1 <=? digitsValue dd)
       && (digitsValue dd <=? daysInMonth (digitsValue yyyy)
                                          (digitsValue mm - 1))
    then MonthQuery (digitsValue yyyy) (digitsValue mm - 1)
    else Invalid.
Proof.
  intros Hm Hd [[Hlm Hld] | [Hlm Hld]] Hy Hly.
  - now apply full_date_two_digits.
  - destruct mm as [|m [|]]; try discriminate Hlm.
    destruct dd as [|d [|]]; try discriminate Hld.
    cbn [allDigits] in Hm, Hd.
    apply andb_prop in Hm as [Hm _]. apply andb_prop in Hd as [Hd _].
    cbn [append]. rewrite full_date_one_digit by assumption.
    pose proof (one_digit_value m Hm) as Hm9.
    pose proof (one_digit_value d Hd) as Hd9.
    pose proof (daysInMonth_28 (digitsValue yyyy)
                  (digitsValue (String m EmptyString) - 1)) as H28.
    replace (digitsValue (String m EmptyString) <=? 12) with true
      by (symmetry; apply Z.leb_le; lia).
    replace (digitsValue (String d EmptyString)
             <=? daysInMonth (digitsValue yyyy)
                   (digitsValue (String m EmptyString) - 1)) with true
      by (symmetry; apply Z.leb_le; lia).
    now rewrite !andb_true_r.
Qed.

Lemma full_date_in_digits_witness :
  classify Before_2_30 2024 "02/30/2023" = Invalid /\
  classify Before_2_30 2024 "02/29/2023" = Invalid /\
  classify Before_2_30 2023 "02/29/2024" = MonthQuery 2024 1 /\
  classify From_2_30 2023 "3/5/2023" = MonthQuery 2023 2.
Proof.
  split; [|split; [|split]].
  - exact (full_date_in_digits Before_2_30 2024 "02" "30" "2023"
             eq_refl eq_refl (or_introl (conj eq_refl eq_refl))
             eq_refl eq_refl).
  - exact (full_date_in_digits Before_2_30 2024 "02" "29" "2023"
             eq_refl eq_refl (or_introl (conj eq_refl eq_refl))
             eq_refl eq_refl).
  - exact (full_date_in_digits Before_2_30 2023 "02" "29" "2024"
             eq_refl eq_refl (or_introl (conj eq_refl eq_refl))
             eq_refl eq_refl).
  - exact (full_date_in_digits From_2_30 2023 "3" "5" "2023"
             eq_refl eq_refl (or_intror (conj eq_refl eq_refl))
             eq_refl eq_refl).
Defined.

(** ** When the [catch] block runs *)

(** X17. The generic error reply has exactly three causes: the request
    carries no message text; the store rejects the one request of the run;
    or the store answers a request for rows with neither an error nor
    rows.  An insert answered without rows is no such case: its rows are
    never read. *)
Theorem unexpected_error_causes (h : Host) (req : Request) :
  replies (fst (sms h req)) = [unexpected] <->
  Body req = None \/
  exists c, dbCalls (fst (sms h req)) = [c] /\
            (db h c = Rejected \/
             (db h c = Response None false /\ isSelect c = true)).
Proof.
  unfold sms, smsBody, unexpected. destruct (Body req) as [b|]; simpl;
    [|split; auto].
  assert (Hno : forall (msg : string) (c : DbCall) data err,
             msg <> "An unexpected error occurred. Please try again later." ->
             db h c = Response data err ->
             (err = true \/ data <> None \/ isSelect c = false) ->
             [msg] = ["An unexpected error occurred. Please try again later."]
             <-> (Some b = None \/
                  exists c', [c] = [c'] /\
                             (db h c' = Rejected \/
                              (db h c' = Response None false
                               /\ isSelect c' = true)))).
  { intros msg c data err Hmsg Hdb Hwhy. split.
    - intros [= H]. now elim Hmsg.
    - intros [H | (c' & [= <-] & [H | [H Hs]])]; try discriminate H;
        rewrite Hdb in H; try discriminate H.
      injection H as -> ->. destruct Hwhy as [H | [H | H]]; congruence. }
  assert (Hyes : forall (c : DbCall),
             (db h c = Rejected \/
              (db h c = Response None false /\ isSelect c = true)) ->
             ["An unexpected error occurred. Please try again later."]
             = ["An unexpected error occurred. Please try again later."]
             <-> (Some b = None \/
                  exists c', [c] = [c'] /\
                             (db h c' = Rejected \/
                              (db h c' = Response None false
                               /\ isSelect c' = true)))).
  { intros c Hc. split; [|reflexivity]. intros _. right. now exists c. }
  destruct (String.eqb (toLowerCase (trim b)) "total").
  { unfold await. simpl. destruct (db h SelectAll) as [[rows|] [|]|] eqn:Hdb;
      simpl;
      first [ apply Hyes; now auto
            | apply Hno with (2 := Hdb); [discriminate|];
              first [ left; reflexivity | right; left; discriminate ] ]. }
  destruct (numberRegex_test (trim b)).
  { unfold await. simpl.
    destruct (db h (Insert (From req) (parseFloat (trim b))))
      as [[rows|] [|]|] eqn:Hdb; simpl;
      first [ apply Hyes; now auto
            | apply Hno with (2 := Hdb); [discriminate|];
              first [ left; reflexivity | right; right; reflexivity ] ]. }
  destruct (dateQuery (release h) (currentYear h) (trim b)) as [q|]; simpl.
  - unfold await. simpl.
    destruct (db h (SelectRange (startOfMonth (utcOfLocal h) (year q) (month q))
                      (endOfMonth (utcOfLocal h) (year q) (month q))))
      as [[rows|] [|]|] eqn:Hdb; simpl;
      first [ apply Hyes; now auto
            | apply Hno with (2 := Hdb); [discriminate|];
              first [ left; reflexivity | right; left; discriminate ] ].
  - split.
    + unfold invalidInput, quote. simpl. intros [= H].
    + intros [H | (c & H & _)]; discriminate H.
Qed.

(** ** Errors are logged, and nothing else is *)

(** X18. A run of the SMS handler writes to the error log exactly when
    its reply reports an error, and then once: [Database error:] goes
    with the retrieval-error or the saving-error reply, [Server error:]
    with the generic error reply, and a run that writes nothing to the
    error log replies with none of the three.  A run that has a message
    text starts by logging the sender and the trimmed text. *)
Theorem errors_are_logged (h : Host) (req : Request) :
  let run := fst (sms h req) in
  ((errorLogs run = [] /\
    ~ In retrievalError (replies run) /\ ~ In savingError (replies run) /\
    ~ In unexpected (replies run))
   \/
   (errorLogs run = ["Database error:"] /\
    (replies run = [retrievalError] \/ replies run = [savingError]))
   \/
   (errorLogs run = ["Server error:"] /\ replies run = [unexpected]))
  /\
  match Body req with
  | Some b =>
      exists t, run = Log ("Received SMS from " ++ shown (From req) ++ ": "
                           ++ trim b) :: t
  | None => True
  end.
Proof.
  assert (Hclean : forall msg : string,
             msg <> retrievalError -> msg <> savingError ->
             msg <> unexpected ->
             ~ In retrievalError [msg] /\ ~ In savingError [msg]
             /\ ~ In unexpected [msg]).
  { intros msg H1 H2 H3.
    repeat split; intros [H | []]; contradiction. }
  unfold sms, smsBody. destruct (Body req) as [b|]; simpl;
    [|split; [right; right; split; reflexivity | exact I]].
  destruct (String.eqb (toLowerCase (trim b)) "total").
  { run_store h SelectAll; (split; [|eexists; reflexivity]);
      first [ left; split; [reflexivity|];
              apply Hclean; unfold retrievalError, savingError, unexpected;
              discriminate
            | right; left; split; [reflexivity|]; left; reflexivity
            | right; right; split; reflexivity ]. }
  destruct (numberRegex_test (trim b)).
  { run_store h (Insert (From req) (parseFloat (trim b)));
      (split; [|eexists; reflexivity]);
      first [ left; split; [reflexivity|];
              apply Hclean; unfold retrievalError, savingError, unexpected;
              discriminate
            | right; left; split; [reflexivity|]; right; reflexivity
            | right; right; split; reflexivity ]. }
  destruct (dateQuery (release h) (currentYear h) (trim b)) as [q|]; simpl.
  - run_store h (SelectRange (startOfMonth (utcOfLocal h) (year q) (month q))
                   (endOfMonth (utcOfLocal h) (year q) (month q)));
      (split; [|eexists; reflexivity]);
      first [ left; split; [reflexivity|];
              apply Hclean; unfold retrievalError, savingError, unexpected;
              discriminate
            | right; left; split; [reflexivity|]; left; reflexivity
            | right; right; split; reflexivity ].
  - split; [|eexists; reflexivity].
    left. split; [reflexivity|].
    apply Hclean; unfold retrievalError, savingError, unexpected, invalidInput,
      quote; simpl; discriminate.
Qed.
